(** * Veritasor backend: attestation routes, their stores and the Merkle engine

    A shallow embedding of [src/routes/attestations.ts] and
    [src/repositories/business.ts], with the collaborators that the routes
    only reach through an interface (the attestation repository, the chain
    anchoring module, the clock, the UUID generator and the locale collation)
    taken as parameters; then the Merkle engine, the [requireAuth]
    middleware and the attestation reminder job, and a small deployment on
    which the routes are run. *)

From Stdlib Require Import ZArith String Ascii List Bool Lia ZifyNat Sorted Permutation
  DecimalString.
From Stdlib Require OrderedTypeEx.
From stdpp Require Import base option list sorting gmap strings.

Import ListNotations.
Open Scope string_scope.
Open Scope list_scope.
Open Scope Z_scope.

(** ** JavaScript values used by the routes *)

(** Truthiness of a string: only the empty string is falsy. *)
Definition truthy (s : string) : bool := negb (String.eqb s "").

(** [a ?? b] on a value that may be undefined or null. *)
Definition nullish {A : Type} (a : option A) (b : option A) : option A :=
  match a with
  | Some v => Some v
  | None => b
  end.

(** ** [src/repositories/business.ts] *)

Module BusinessRepository.

Record Business := {
  id : string;
  userId : string;
  name : string;
  email : string;
  industry : option string;
  description : option string;
  website : option string;
  createdAt : string;
}.

(** The two records the module starts with. *)
Definition businesses : list Business :=
  [ {| id := "biz_1"; userId := "user_1"; name := "Business 1";
       email := "business1@example.com"; industry := None;
       description := None; website := None;
       createdAt := "2025-10-01T12:00:00.000Z" |};
    {| id := "biz_2"; userId := "user_2"; name := "Business 2";
       email := "business2@example.com"; industry := None;
       description := None; website := None;
       createdAt := "2025-10-01T12:00:00.000Z" |} ].

Definition getAll (bs : list Business) : list Business := bs.

Definition findByUserId (bs : list Business) (uid : string) : option Business :=
  List.find (fun b => String.eqb (userId b) uid) bs.

Definition findById (bs : list Business) (bid : string) : option Business :=
  List.find (fun b => String.eqb (id b) bid) bs.

End BusinessRepository.

(** ** Data model of [src/routes/attestations.ts] *)

Inductive AttestationStatus := submitted | revoked.

Definition AttestationStatus_eqb (a b : AttestationStatus) : bool :=
  match a, b with
  | submitted, submitted => true
  | revoked, revoked => true
  | _, _ => false
  end.

(** [revokedAt?: string | null]: the field may be absent, null, or a time. *)
Inductive RevokedAt :=
| revokedAt_absent
| revokedAt_null
| revokedAt_time (iso : string).

Record RouteAttestation := {
  id : string;
  businessId : string;
  period : string;
  attestedAt : string;
  merkleRoot : option string;
  timestamp : option Z;
  version : option string;
  txHash : option string;
  status : option AttestationStatus;
  revokedAt : RevokedAt;
}.

Record SubmitAttestationParams := {
  p_business : string;
  p_period : string;
  p_merkleRoot : string;
  p_timestamp : Z;
  p_version : string;
}.

Record SubmitAttestationResult := { r_txHash : string }.

(** What a handler can throw: an [HttpError] made by [createHttpError], or
    the rejection of a collaborator's promise, which [asyncHandler] hands to
    [next] unchanged. *)
Inductive Thrown :=
| HttpError (httpStatus : Z) (code message : string)
| Rejection.

Inductive Result (A : Type) :=
| Return (a : A)
| Throw (e : Thrown).
Arguments Return {A} a.
Arguments Throw {A} e.

Definition createHttpError (httpStatus : Z) (code message : string) : Thrown :=
  HttpError httpStatus code message.

(** [z.infer<typeof listQuerySchema>]: the query after validation. *)
Record ListQuery := {
  q_businessId : option string;
  q_period : option string;
  q_status : option AttestationStatus;
  q_page : Z;
  q_limit : Z;
}.

(** What [listQuerySchema] admits for [page] and [limit]. *)
Definition listQuerySchema (q : ListQuery) : bool :=
  (1 <=? q_page q) && (1 <=? q_limit q) && (q_limit q <=? 100).

(** [z.infer<typeof submitBodySchema>]: the body after validation, the
    default version already filled in. *)
Record SubmitBody := {
  b_businessId : option string;
  b_period : string;
  b_merkleRoot : string;
  b_timestamp : option Z;
  b_version : string;
}.

Record Pagination := {
  pg_page : Z;
  pg_limit : Z;
  pg_total : Z;
  pg_totalPages : Z;
}.

(** The JSON bodies the routes send, with the HTTP status of each. *)
Inductive Response :=
| ListResponse (httpStatus : Z) (data : list RouteAttestation) (pagination : Pagination)
| AttestationResponse (httpStatus : Z) (data : RouteAttestation)
| SubmitResponse (httpStatus : Z) (data : RouteAttestation) (txHash : string).

(** ** Library functions of the platform *)

(** A JavaScript [Map] keyed by strings: [set] on a present key replaces the
    value and keeps the key's place, [set] on a new key appends;
    [values] iterates in that order. *)
Fixpoint Map_set {V : Type} (k : string) (v : V) (m : list (string * V)) : list (string * V) :=
  match m with
  | [] => [(k, v)]
  | (k', v') :: m' =>
      if String.eqb k' k then (k', v) :: m' else (k', v') :: Map_set k v m'
  end.

Definition Map_values {V : Type} (m : list (string * V)) : list V := map snd m.

(** [Array.prototype.sort(cmp)]: a stable sort; [cmp a b <= 0] keeps [a]
    before [b].  Written as the stable insertion sort. *)
Fixpoint sort_insert {A : Type} (cmp : A -> A -> Z) (x : A) (l : list A) : list A :=
  match l with
  | [] => [x]
  | y :: l' => if cmp x y <=? 0 then x :: y :: l' else y :: sort_insert cmp x l'
  end.

Fixpoint Array_sort {A : Type} (cmp : A -> A -> Z) (l : list A) : list A :=
  match l with
  | [] => []
  | x :: l' => sort_insert cmp x (Array_sort cmp l')
  end.

(** [Array.prototype.slice(start, end)] with its clamping of both ends. *)
Definition slice_index (len k : Z) : Z :=
  if k <? 0 then Z.max (len + k) 0 else Z.min k len.

Definition Array_slice {A : Type} (l : list A) (start stop : Z) : list A :=
  let len := Z.of_nat (length l) in
  let k := slice_index len start in
  let final := slice_index len stop in
  firstn (Z.to_nat (final - k)) (skipn (Z.to_nat k) l).

(** [Math.ceil(a / b)] for a non-negative integer [a] and a positive integer
    [b]: the quotient of two such doubles below 2^53 is never rounded across
    an integer, so the result is the exact ceiling of the fraction. *)
Definition Math_ceil_div (a b : Z) : Z := - ((- a) / b).

(** [Array.prototype.findIndex]: the first index that satisfies [p]. *)
Fixpoint findIndex {A : Type} (p : A -> bool) (l : list A) : option nat :=
  match l with
  | [] => None
  | x :: l' => if p x then Some O else option_map S (findIndex p l')
  end.

(** The [Map] that [listByBusinessId] fills from the merged list, read back
    with [Array.from(deduped.values())]. *)
Definition dedupeById (merged : list RouteAttestation) : list RouteAttestation :=
  Map_values (fold_left (fun m item => Map_set (id item) item m) merged []).

(** ** Facts about the library functions *)

Definition is_ceiling (a b c : Z) : Prop := (c - 1) * b < a <= c * b.

Lemma Math_ceil_div_is_ceiling (a b : Z) :
  0 < b -> is_ceiling a b (Math_ceil_div a b).
Proof.
  intros Hb. unfold is_ceiling, Math_ceil_div.
  pose proof (Z.div_mod (- a) b ltac:(lia)) as Hdm.
  pose proof (Z.mod_pos_bound (- a) b Hb) as Hr.
  split; nia.
Qed.

Lemma is_ceiling_unique (a b c c' : Z) :
  0 < b -> is_ceiling a b c -> is_ceiling a b c' -> c = c'.
Proof. unfold is_ceiling. intros Hb [H1 H2] [H3 H4]. nia. Qed.

Lemma slice_index_nonneg (len k : Z) :
  0 <= k -> slice_index len k = Z.min k len.
Proof.
  intros Hk. unfold slice_index.
  destruct (k <? 0) eqn:E; [apply Z.ltb_lt in E; lia | reflexivity].
Qed.

(** A slice that starts at a non-negative index and spans [n] places. *)
Lemma Array_slice_window {A : Type} (l : list A) (start n : Z) :
  0 <= start -> 0 <= n ->
  Array_slice l start (start + n) =
  firstn (Z.to_nat n) (skipn (Z.to_nat start) l).
Proof.
  intros Hs Hn. unfold Array_slice.
  rewrite !slice_index_nonneg by lia.
  destruct (Z_le_gt_dec (Z.of_nat (length l)) start) as [Hge | Hlt].
  - rewrite Z.min_r by lia.
    rewrite !skipn_all2 by lia.
    now rewrite !firstn_nil.
  - rewrite (Z.min_l start) by lia.
    destruct (Z_le_gt_dec (start + n) (Z.of_nat (length l))) as [Hin | Hout].
    + rewrite Z.min_l by lia. f_equal. lia.
    + rewrite Z.min_r by lia.
      rewrite !firstn_all2; [reflexivity | |]; rewrite length_skipn; lia.
Qed.

(** The windows of width [n] taken one after the other make up a prefix. *)
Lemma windows_concat {A : Type} (l : list A) (n k : nat) :
  flat_map (fun p => firstn n (skipn ((p - 1) * n) l)) (seq 1 k) =
  firstn (k * n) l.
Proof.
  induction k as [| k IH].
  - reflexivity.
  - rewrite seq_S, flat_map_app, IH. cbn [flat_map]. rewrite app_nil_r.
    replace (1 + k - 1)%nat with k by lia.
    replace (S k * n)%nat with (k * n + n)%nat by lia.
    rewrite <- (firstn_skipn (k * n) (firstn (k * n + n) l)).
    rewrite firstn_firstn, Nat.min_l by lia.
    f_equal. rewrite skipn_firstn_comm. f_equal. lia.
Qed.

(** *** The [Map] *)

Fixpoint Map_get {V : Type} (k : string) (m : list (string * V)) : option V :=
  match m with
  | [] => None
  | (k', v) :: m' => if String.eqb k' k then Some v else Map_get k m'
  end.

Lemma Map_get_set_eq {V : Type} (k : string) (v : V) (m : list (string * V)) :
  Map_get k (Map_set k v m) = Some v.
Proof.
  induction m as [| [k' v'] m IH]; cbn.
  - now rewrite String.eqb_refl.
  - destruct (String.eqb k' k) eqn:E; cbn; rewrite E; [reflexivity | exact IH].
Qed.

Lemma Map_get_set_ne {V : Type} (k k0 : string) (v : V) (m : list (string * V)) :
  k0 <> k -> Map_get k0 (Map_set k v m) = Map_get k0 m.
Proof.
  intros Hne. induction m as [| [k' v'] m IH]; cbn.
  - destruct (String.eqb k k0) eqn:E; [apply String.eqb_eq in E; congruence | reflexivity].
  - destruct (String.eqb k' k) eqn:E; cbn.
    + apply String.eqb_eq in E. subst k'.
      destruct (String.eqb k k0) eqn:E0; [apply String.eqb_eq in E0; congruence | reflexivity].
    + now rewrite IH.
Qed.

Lemma Map_set_keys {V : Type} (k k0 : string) (v : V) (m : list (string * V)) :
  In k0 (map fst (Map_set k v m)) <-> k0 = k \/ In k0 (map fst m).
Proof.
  induction m as [| [k' v'] m IH]; cbn.
  - intuition congruence.
  - destruct (String.eqb k' k) eqn:E; cbn.
    + apply String.eqb_eq in E. subst k'. intuition congruence.
    + rewrite IH. intuition congruence.
Qed.

Lemma Map_set_NoDup {V : Type} (k : string) (v : V) (m : list (string * V)) :
  List.NoDup (map fst m) -> List.NoDup (map fst (Map_set k v m)).
Proof.
  induction m as [| [k' v'] m IH]; cbn; intros Hnd.
  - constructor; [intros [] | constructor].
  - inversion Hnd as [| ? ? Hnotin Hnd']; subst.
    destruct (String.eqb k' k) eqn:E; cbn.
    + constructor; assumption.
    + constructor; [| auto].
      rewrite Map_set_keys. intros [-> | Hin]; [| contradiction].
      now rewrite String.eqb_refl in E.
Qed.

Lemma Map_get_None {V : Type} (k : string) (m : list (string * V)) :
  ~ In k (map fst m) -> Map_get k m = None.
Proof.
  induction m as [| [k' v'] m IH]; cbn; intros Hnotin; [reflexivity |].
  destruct (String.eqb k' k) eqn:E.
  - apply String.eqb_eq in E. subst. exfalso. apply Hnotin. now left.
  - apply IH. intros Hin. apply Hnotin. now right.
Qed.

(** *** De-duplication by id *)

(** The record with this id that comes last in a list. *)
Definition latestById (aid : string) (l : list RouteAttestation)
  : option RouteAttestation :=
  List.find (fun r => String.eqb (id r) aid) (rev l).

(** A map from ids to records: every key once, each the id of its value. *)
Definition keyedById (m : list (string * RouteAttestation)) : Prop :=
  List.NoDup (map fst m) /\ Forall (fun kv => id (snd kv) = fst kv) m.

Lemma keyedById_set (r : RouteAttestation) (m : list (string * RouteAttestation)) :
  keyedById m -> keyedById (Map_set (id r) r m).
Proof.
  intros [Hnd Hid]. split; [now apply Map_set_NoDup |].
  clear Hnd. induction m as [| [k' v'] m IH]; cbn.
  - repeat constructor.
  - inversion Hid as [| ? ? Hkv Hid']; subst. cbn in Hkv.
    destruct (String.eqb k' (id r)) eqn:E.
    + apply String.eqb_eq in E. constructor; [cbn; congruence | assumption].
    + constructor; [assumption | auto].
Qed.

Lemma fill_keyedById (l : list RouteAttestation) (m : list (string * RouteAttestation)) :
  keyedById m ->
  keyedById (fold_left (fun m item => Map_set (id item) item m) l m).
Proof.
  revert m. induction l as [| x l IH]; cbn; intros m Hm; [assumption |].
  apply IH. now apply keyedById_set.
Qed.

Lemma find_app {A : Type} (p : A -> bool) (l1 l2 : list A) :
  List.find p (l1 ++ l2) =
  match List.find p l1 with Some x => Some x | None => List.find p l2 end.
Proof.
  induction l1 as [| x l1 IH]; cbn; [reflexivity |].
  destruct (p x); [reflexivity | exact IH].
Qed.

Lemma fill_get (aid : string) (l : list RouteAttestation)
    (m : list (string * RouteAttestation)) :
  Map_get aid (fold_left (fun m item => Map_set (id item) item m) l m) =
  match latestById aid l with
  | Some r => Some r
  | None => Map_get aid m
  end.
Proof.
  unfold latestById. revert m. induction l as [| x l IH]; cbn; intros m; [reflexivity |].
  rewrite IH, find_app. destruct (List.find _ (rev l)); [reflexivity |].
  cbn. destruct (String.eqb (id x) aid) eqn:E.
  - apply String.eqb_eq in E. subst aid. apply Map_get_set_eq.
  - apply Map_get_set_ne. intros ->. now rewrite String.eqb_refl in E.
Qed.

Lemma values_with_id (aid : string) (m : list (string * RouteAttestation)) :
  keyedById m ->
  List.filter (fun r => String.eqb (id r) aid) (Map_values m) =
  match Map_get aid m with Some v => [v] | None => [] end.
Proof.
  unfold Map_values. induction m as [| [k v] m IH]; cbn; intros [Hnd Hid]; [reflexivity |].
  inversion Hnd as [| ? ? Hnotin Hnd']; subst.
  inversion Hid as [| ? ? Hkv Hid']; subst. cbn in Hkv. subst k.
  specialize (IH (conj Hnd' Hid')).
  destruct (String.eqb (id v) aid) eqn:E.
  - apply String.eqb_eq in E. subst aid.
    rewrite IH, (Map_get_None _ _ Hnotin). reflexivity.
  - exact IH.
Qed.

(** After de-duplication an id is held by one record at most: the one that
    came last in the merged list. *)
Lemma dedupeById_latest (aid : string) (merged : list RouteAttestation) :
  List.filter (fun r => String.eqb (id r) aid) (dedupeById merged) =
  match latestById aid merged with Some r => [r] | None => [] end.
Proof.
  unfold dedupeById. rewrite values_with_id.
  - rewrite fill_get. cbn. now destruct (latestById aid merged).
  - apply fill_keyedById. split; constructor.
Qed.

(** *** The sort *)

Lemma sort_insert_Permutation {A : Type} (cmp : A -> A -> Z) (x : A) (l : list A) :
  Permutation (sort_insert cmp x l) (x :: l).
Proof.
  induction l as [| y l IH]; cbn; [reflexivity |].
  destruct (cmp x y <=? 0); [reflexivity |].
  rewrite IH. apply perm_swap.
Qed.

Lemma Array_sort_Permutation {A : Type} (cmp : A -> A -> Z) (l : list A) :
  Permutation (Array_sort cmp l) l.
Proof.
  induction l as [| x l IH]; cbn; [reflexivity |].
  rewrite sort_insert_Permutation. now constructor.
Qed.

Lemma filter_Permutation_bool {A : Type} (p : A -> bool) (l l' : list A) :
  Permutation l l' -> Permutation (List.filter p l) (List.filter p l').
Proof.
  induction 1 as [| x l l' _ IH | x y l | l l' l'' _ IH1 _ IH2]; cbn.
  - reflexivity.
  - destruct (p x); [now constructor | assumption].
  - destruct (p x), (p y); try reflexivity. apply perm_swap.
  - now transitivity (List.filter p l').
Qed.

(** The sort is stable: records that tie with one another keep their order. *)
Lemma sort_insert_stable {A : Type} (cmp : A -> A -> Z) (p : A -> bool) (x : A)
    (l : list A) :
  (forall a b, p a = true -> p b = true -> cmp a b <= 0) ->
  List.filter p (sort_insert cmp x l) = List.filter p (x :: l).
Proof.
  intros Htie. induction l as [| y l IH]; [reflexivity |].
  cbn [sort_insert]. destruct (cmp x y <=? 0) eqn:E; [reflexivity |].
  apply Z.leb_gt in E.
  cbn [List.filter] in *. rewrite IH.
  destruct (p x) eqn:Ex, (p y) eqn:Ey; try reflexivity.
  specialize (Htie x y Ex Ey). lia.
Qed.

Lemma Array_sort_stable {A : Type} (cmp : A -> A -> Z) (p : A -> bool) (l : list A) :
  (forall a b, p a = true -> p b = true -> cmp a b <= 0) ->
  List.filter p (Array_sort cmp l) = List.filter p l.
Proof.
  intros Htie. induction l as [| x l IH]; [reflexivity |].
  cbn [Array_sort]. rewrite sort_insert_stable by assumption.
  cbn [List.filter]. now rewrite IH.
Qed.

Lemma sort_insert_sorted {A : Type} (cmp : A -> A -> Z) (x : A) (l : list A) :
  (forall a b, cmp a b <= 0 \/ cmp b a <= 0) ->
  (forall a b c, cmp a b <= 0 -> cmp b c <= 0 -> cmp a c <= 0) ->
  StronglySorted (fun a b => cmp a b <= 0) l ->
  StronglySorted (fun a b => cmp a b <= 0) (sort_insert cmp x l).
Proof.
  intros Htotal Htrans. induction l as [| y l IH]; cbn; intros Hs.
  - repeat constructor.
  - apply StronglySorted_inv in Hs as [Hs Hy].
    destruct (cmp x y <=? 0) eqn:E.
    + apply Z.leb_le in E. constructor; [now constructor |].
      constructor; [assumption |].
      eapply List.Forall_impl; [| exact Hy]. intros z Hz. cbn in Hz. eauto.
    + apply Z.leb_gt in E. constructor; [auto |].
      rewrite (sort_insert_Permutation cmp x l).
      constructor; [| assumption].
      destruct (Htotal x y); [lia | assumption].
Qed.

Lemma Array_sort_sorted {A : Type} (cmp : A -> A -> Z) (l : list A) :
  (forall a b, cmp a b <= 0 \/ cmp b a <= 0) ->
  (forall a b c, cmp a b <= 0 -> cmp b c <= 0 -> cmp a c <= 0) ->
  StronglySorted (fun a b => cmp a b <= 0) (Array_sort cmp l).
Proof.
  intros Htotal Htrans. induction l as [| x l IH]; cbn.
  - constructor.
  - now apply sort_insert_sorted.
Qed.

(** *** Order of two elements in a list *)

(** [x] stands somewhere before [y] in [l]. *)
Definition before {A : Type} (x y : A) (l : list A) : Prop :=
  exists l1 l2 l3, l = l1 ++ x :: l2 ++ y :: l3.

Lemma before_app {A : Type} (x y : A) (l0 l l1 : list A) :
  before x y l -> before x y (l0 ++ l ++ l1).
Proof.
  intros (a & b & c & ->). exists (l0 ++ a), b, (c ++ l1).
  now rewrite <- !app_assoc, <- !app_comm_cons, <- !app_assoc, <- !app_comm_cons.
Qed.

Lemma before_slice {A : Type} (x y : A) (l : list A) (n k : nat) :
  before x y (firstn n (skipn k l)) -> before x y l.
Proof.
  intros H. rewrite <- (firstn_skipn k l), <- (firstn_skipn n (skipn k l)).
  now apply before_app.
Qed.

Lemma before_filter {A : Type} (p : A -> bool) (x y : A) (l : list A) :
  before x y l -> p x = true -> p y = true -> before x y (List.filter p l).
Proof.
  intros (a & b & c & ->) Hx Hy.
  exists (List.filter p a), (List.filter p b), (List.filter p c).
  rewrite List.filter_app. cbn. rewrite Hx, List.filter_app. cbn. now rewrite Hy.
Qed.

Lemma before_of_filter {A : Type} (p : A -> bool) (x y : A) (l : list A) :
  before x y (List.filter p l) -> before x y l.
Proof.
  induction l as [| a l IH]; cbn; intros (l1 & l2 & l3 & Heq).
  - now destruct l1.
  - destruct (p a) eqn:Ea.
    + destruct l1 as [| a' l1]; cbn in Heq; injection Heq as -> Heq.
      * assert (Hy : In y (List.filter p l)).
        { rewrite Heq. apply in_or_app. right. now left. }
        apply List.filter_In in Hy as [Hy _]. apply in_split in Hy as (m1 & m2 & ->).
        now exists [], m1, m2.
      * destruct (IH (ex_intro _ l1 (ex_intro _ l2 (ex_intro _ l3 Heq))))
          as (m1 & m2 & m3 & ->).
        now exists (a' :: m1), m2, m3.
    + destruct (IH (ex_intro _ l1 (ex_intro _ l2 (ex_intro _ l3 Heq))))
        as (m1 & m2 & m3 & ->).
      now exists (a :: m1), m2, m3.
Qed.

Lemma StronglySorted_filter {A : Type} (R : A -> A -> Prop) (p : A -> bool)
    (l : list A) :
  StronglySorted R l -> StronglySorted R (List.filter p l).
Proof.
  induction 1 as [| x l Hs IH Hx]; cbn; [constructor |].
  destruct (p x); [| assumption].
  constructor; [assumption |].
  apply List.Forall_forall. intros z Hz. apply List.filter_In in Hz as [Hz _].
  rewrite List.Forall_forall in Hx. auto.
Qed.

Lemma StronglySorted_slice {A : Type} (R : A -> A -> Prop) (l : list A) (n k : nat) :
  StronglySorted R l -> StronglySorted R (firstn n (skipn k l)).
Proof.
  intros Hs. rewrite <- (firstn_skipn k l) in Hs.
  apply StronglySorted_app_1_r in Hs.
  rewrite <- (firstn_skipn n (skipn k l)) in Hs.
  now apply StronglySorted_app_1_l in Hs.
Qed.

(** ** The routes, over their collaborators *)

Section Routes.

Set Default Proof Using "Type".

(** The state of the attestation repository ([../repositories/attestation.js]);
    the routes never look inside it. *)
Variable RepoState : Type.

(** The repository as the routes see it: a bag of methods, each probed with
    [typeof repo.m === 'function'] before use, so each may be missing.
    Reads leave the repository as it is; [create] and [revoke] may change
    it.  Every asynchronous method may reject. *)
Record AttestationRepository := {
  repo_listByBusiness : option (string -> RepoState -> list RouteAttestation);
  repo_list : option (string -> RepoState -> Result (list RouteAttestation));
  repo_getById : option (string -> RepoState -> Result (option RouteAttestation));
  repo_create :
    option (RouteAttestation -> RepoState -> Result RouteAttestation * RepoState);
  repo_revoke :
    option (string -> option string -> RepoState ->
            Result (option RouteAttestation) * RepoState);
}.

(** What [import('../services/soroban/submitAttestation.js')] resolves to:
    a module that may or may not export the function. *)
Record SorobanModule := {
  submitAttestation :
    option (SubmitAttestationParams -> Result SubmitAttestationResult);
}.

Variable attestationRepository : AttestationRepository.
(** The outcome of the n-th dynamic import of the anchoring module. *)
Variable importSoroban : nat -> Result SorobanModule.
(** The n-th value drawn from [randomUUID]. *)
Variable randomUUID : nat -> string.
(** The n-th reading of the clock, in milliseconds. *)
Variable clock : nat -> Z.
Variable toISOString : Z -> string.
(** [a.localeCompare(b)]: negative, zero or positive. *)
Variable localeCompare : string -> string -> Z.

(** Everything a request can read or change.  The two stores and the
    business list are the program's own state; the three counters say how
    far the UUID generator, the clock and the module loader have been
    consumed; [anchorCalls] and [createCalls] log the arguments of every
    call of [module.submitAttestation] and of [repo.create]. *)
Record World := {
  localAttestationStore : list RouteAttestation;
  repoState : RepoState;
  businesses : list BusinessRepository.Business;
  uuidsDrawn : nat;
  clockReads : nat;
  importsDone : nat;
  anchorCalls : list SubmitAttestationParams;
  createCalls : list RouteAttestation;
}.

Definition set_localAttestationStore (l : list RouteAttestation) (w : World) : World :=
  {| localAttestationStore := l; repoState := repoState w;
     businesses := businesses w; uuidsDrawn := uuidsDrawn w;
     clockReads := clockReads w; importsDone := importsDone w;
     anchorCalls := anchorCalls w; createCalls := createCalls w |}.

Definition set_repoState (s : RepoState) (w : World) : World :=
  {| localAttestationStore := localAttestationStore w; repoState := s;
     businesses := businesses w; uuidsDrawn := uuidsDrawn w;
     clockReads := clockReads w; importsDone := importsDone w;
     anchorCalls := anchorCalls w; createCalls := createCalls w |}.

Definition set_uuidsDrawn (n : nat) (w : World) : World :=
  {| localAttestationStore := localAttestationStore w; repoState := repoState w;
     businesses := businesses w; uuidsDrawn := n;
     clockReads := clockReads w; importsDone := importsDone w;
     anchorCalls := anchorCalls w; createCalls := createCalls w |}.

Definition set_clockReads (n : nat) (w : World) : World :=
  {| localAttestationStore := localAttestationStore w; repoState := repoState w;
     businesses := businesses w; uuidsDrawn := uuidsDrawn w;
     clockReads := n; importsDone := importsDone w;
     anchorCalls := anchorCalls w; createCalls := createCalls w |}.

Definition set_importsDone (n : nat) (w : World) : World :=
  {| localAttestationStore := localAttestationStore w; repoState := repoState w;
     businesses := businesses w; uuidsDrawn := uuidsDrawn w;
     clockReads := clockReads w; importsDone := n;
     anchorCalls := anchorCalls w; createCalls := createCalls w |}.

Definition set_anchorCalls (l : list SubmitAttestationParams) (w : World) : World :=
  {| localAttestationStore := localAttestationStore w; repoState := repoState w;
     businesses := businesses w; uuidsDrawn := uuidsDrawn w;
     clockReads := clockReads w; importsDone := importsDone w;
     anchorCalls := l; createCalls := createCalls w |}.

Definition set_createCalls (l : list RouteAttestation) (w : World) : World :=
  {| localAttestationStore := localAttestationStore w; repoState := repoState w;
     businesses := businesses w; uuidsDrawn := uuidsDrawn w;
     clockReads := clockReads w; importsDone := importsDone w;
     anchorCalls := anchorCalls w; createCalls := l |}.

(** An [async] function: it runs on the world, and returns or throws. *)
Definition Async (A : Type) : Type := World -> Result A * World.

Definition ret {A : Type} (a : A) : Async A := fun w => (Return a, w).

Definition throw {A : Type} (e : Thrown) : Async A := fun w => (Throw e, w).

Definition bind {A B : Type} (c : Async A) (k : A -> Async B) : Async B :=
  fun w =>
    match c w with
    | (Return a, w') => k a w'
    | (Throw e, w') => (Throw e, w')
    end.

Notation "'let*' x ':=' c 'in' k" := (bind c (fun x => k))
  (at level 10, x name, c at level 100, k at level 200).

(** A read of the repository. *)
Definition readRepo {A : Type} (f : RepoState -> Result A) : Async A :=
  fun w => (f (repoState w), w).

(** A call that may change the repository. *)
Definition callRepo {A : Type} (f : RepoState -> Result A * RepoState) : Async A :=
  fun w => let (r, s) := f (repoState w) in (r, set_repoState s w).

Definition call_randomUUID : Async string :=
  fun w => (Return (randomUUID (uuidsDrawn w)), set_uuidsDrawn (S (uuidsDrawn w)) w).

(** [Date.now()] *)
Definition Date_now : Async Z :=
  fun w => (Return (clock (clockReads w)), set_clockReads (S (clockReads w)) w).

(** [new Date().toISOString()] *)
Definition new_Date_toISOString : Async string :=
  let* t := Date_now in ret (toISOString t).

(** [businessRepository] exports [findByUserId] and no [getByUserId], so the
    first probe fails and the second succeeds. *)
Definition resolveBusinessIdForUser (uid : string) : Async (option string) :=
  fun w =>
    (Return (option_map BusinessRepository.id
               (BusinessRepository.findByUserId (businesses w) uid)), w).

(** The comparator handed to [sort]. *)
Definition byAttestedAtDesc (a b : RouteAttestation) : Z :=
  localeCompare (attestedAt b) (attestedAt a).

Definition listByBusinessId (bid : string) : Async (list RouteAttestation) :=
  let* repositoryItems :=
    match repo_listByBusiness attestationRepository with
    | Some f => readRepo (fun s => Return (f bid s))
    | None =>
        match repo_list attestationRepository with
        | Some g => readRepo (g bid)
        | None => ret []
        end
    end in
  fun w =>
    let localItems :=
      List.filter (fun item => String.eqb (businessId item) bid)
        (localAttestationStore w) in
    let merged := repositoryItems ++ localItems in
    (Return (Array_sort byAttestedAtDesc (dedupeById merged)), w).

Definition getById (aid bid : string) : Async (option RouteAttestation) :=
  match repo_getById attestationRepository with
  | Some f =>
      let* found := readRepo (f aid) in
      match found with
      | None => ret None
      | Some r =>
          if negb (String.eqb (businessId r) bid) then ret None else ret (Some r)
      end
  | None =>
      let* items := listByBusinessId bid in
      ret (List.find (fun item => String.eqb (id item) aid) items)
  end.

Definition saveAttestation (record : RouteAttestation) : Async RouteAttestation :=
  match repo_create attestationRepository with
  | Some f =>
      fun w => callRepo (f record) (set_createCalls (createCalls w ++ [record]) w)
  | None =>
      fun w =>
        (Return record,
         set_localAttestationStore (localAttestationStore w ++ [record]) w)
  end.

(** [{...r, status: 'revoked', revokedAt: t}] *)
Definition spread_revoked (r : RouteAttestation) (t : string) : RouteAttestation :=
  {| id := id r; businessId := businessId r; period := period r;
     attestedAt := attestedAt r; merkleRoot := merkleRoot r;
     timestamp := timestamp r; version := version r; txHash := txHash r;
     status := Some revoked; revokedAt := revokedAt_time t |}.

Definition revokeAttestation (aid : string) (reason : option string)
  : Async (option RouteAttestation) :=
  match repo_revoke attestationRepository with
  | Some f => callRepo (f aid reason)
  | None =>
      fun w =>
        match findIndex (fun item => String.eqb (id item) aid)
                (localAttestationStore w) with
        | None => (Return None, w)
        | Some index =>
            match localAttestationStore w !! index with
            | None => (Return None, w)
            | Some old =>
                (let* t := new_Date_toISOString in
                 fun w' =>
                   let r := spread_revoked old t in
                   (Return (Some r),
                    set_localAttestationStore
                      (<[index := r]> (localAttestationStore w')) w')) w
            end
        end
  end.

(** The [catch] of [submitOnChain] and the code after it: a synthetic
    transaction hash. *)
Definition pendingTxHash : Async SubmitAttestationResult :=
  let* u := call_randomUUID in ret {| r_txHash := String.append "pending_" u |}.

Definition submitOnChain (params : SubmitAttestationParams)
  : Async SubmitAttestationResult :=
  fun w =>
    let w1 := set_importsDone (S (importsDone w)) w in
    match importSoroban (importsDone w) with
    | Return module =>
        match submitAttestation module with
        | Some f =>
            let w2 := set_anchorCalls (anchorCalls w1 ++ [params]) w1 in
            match f params with
            | Return res => (Return res, w2)
            | Throw _ => pendingTxHash w2
            end
        | None => pendingTxHash w1
        end
    | Throw _ => pendingTxHash w1
    end.

(** [parseIdParam]: [z.string().min(1)] *)
Definition parseIdParam (s : string) : Async string :=
  if truthy s then ret s
  else throw (createHttpError 400 "VALIDATION_ERROR" "Invalid attestation id").

Definition businessNotFound : Thrown :=
  createHttpError 404 "BUSINESS_NOT_FOUND" "Business not found for user".

Definition attestationNotFound : Thrown :=
  createHttpError 404 "ATTESTATION_NOT_FOUND" "Attestation not found".

(** The filter of [GET /]. *)
Definition matchesQuery (query : ListQuery) (item : RouteAttestation) : bool :=
  if match q_period query with
     | Some p => truthy p && negb (String.eqb (period item) p)
     | None => false
     end
  then false
  else if match q_status query with
          | Some s => negb (AttestationStatus_eqb (default submitted (status item)) s)
          | None => false
          end
  then false
  else true.

(** [attestationsRouter.get('/')], after [requireAuth] has set [req.user]
    and [validateQuery] has parsed the query. *)
Definition get_attestations (uid : string) (query : ListQuery) : Async Response :=
  let* resolved :=
    match q_businessId query with
    | Some b => ret (Some b)
    | None => resolveBusinessIdForUser uid
    end in
  match resolved with
  | None => throw businessNotFound
  | Some bid =>
      if negb (truthy bid) then throw businessNotFound
      else
        let* allItems := listByBusinessId bid in
        let filtered := List.filter (matchesQuery query) allItems in
        let total := Z.of_nat (length filtered) in
        let totalPages := Z.max 1 (Math_ceil_div total (q_limit query)) in
        let start := (q_page query - 1) * q_limit query in
        let items := Array_slice filtered start (start + q_limit query) in
        ret (ListResponse 200 items
               {| pg_page := q_page query; pg_limit := q_limit query;
                  pg_total := total; pg_totalPages := totalPages |})
  end.

(** [attestationsRouter.get('/:id')] *)
Definition get_attestation (uid : string) (idParam : string) : Async Response :=
  let* aid := parseIdParam idParam in
  let* resolved := resolveBusinessIdForUser uid in
  match resolved with
  | None => throw businessNotFound
  | Some bid =>
      if negb (truthy bid) then throw businessNotFound
      else
        let* attestation := getById aid bid in
        match attestation with
        | None => throw attestationNotFound
        | Some a => ret (AttestationResponse 200 a)
        end
  end.

(** [payload.timestamp ?? Date.now()] *)
Definition timestampOrNow (payload : SubmitBody) : Async Z :=
  match b_timestamp payload with
  | Some t => ret t
  | None => Date_now
  end.

(** [payload.businessId && userBusinessId &&
    payload.businessId !== userBusinessId] *)
Definition submitsForAnotherBusiness (payload : SubmitBody)
    (userBusinessId : option string) : bool :=
  match b_businessId payload, userBusinessId with
  | Some pb, Some ub => truthy pb && truthy ub && negb (String.eqb pb ub)
  | _, _ => false
  end.

(** [attestationsRouter.post('/')], after [requireAuth] and [validateBody]. *)
Definition post_attestations (uid : string) (payload : SubmitBody) : Async Response :=
  let* userBusinessId := resolveBusinessIdForUser uid in
  match nullish (b_businessId payload) userBusinessId with
  | None => throw businessNotFound
  | Some bid =>
      if negb (truthy bid) then throw businessNotFound
      else if submitsForAnotherBusiness payload userBusinessId
      then throw (createHttpError 403 "FORBIDDEN"
                    "Cannot submit attestation for another business")
      else
        let* t := timestampOrNow payload in
        let* onChain :=
          submitOnChain {| p_business := bid; p_period := b_period payload;
                           p_merkleRoot := b_merkleRoot payload;
                           p_timestamp := t; p_version := b_version payload |} in
        let* now := new_Date_toISOString in
        let* newId := call_randomUUID in
        let* t' := timestampOrNow payload in
        let record :=
          {| id := newId; businessId := bid; period := b_period payload;
             merkleRoot := Some (b_merkleRoot payload); timestamp := Some t';
             version := Some (b_version payload);
             txHash := Some (r_txHash onChain); status := Some submitted;
             revokedAt := revokedAt_null; attestedAt := now |} in
        let* saved := saveAttestation record in
        ret (SubmitResponse 201 saved (r_txHash onChain))
  end.

(** [handleRevoke]; [reason] is [req.body.reason] when that is a string. *)
Definition handleRevoke (uid : string) (idParam : string) (reason : option string)
  : Async Response :=
  let* aid := parseIdParam idParam in
  let* resolved := resolveBusinessIdForUser uid in
  match resolved with
  | None => throw businessNotFound
  | Some bid =>
      if negb (truthy bid) then throw businessNotFound
      else
        let* attestation := getById aid bid in
        match attestation with
        | None => throw attestationNotFound
        | Some _ =>
            let* revoked := revokeAttestation aid reason in
            match revoked with
            | None => throw (createHttpError 500 "REVOKE_FAILED"
                               "Failed to revoke attestation")
            | Some r => ret (AttestationResponse 200 r)
            end
        end
  end.

(** ** The idempotency guard *)

(** Modelled from the spec: the idempotency guard.  The routes import
    [idempotencyMiddleware] from [../middleware/idempotency.js], which is not
    among the sources.  The spec describes an entry
    [{scope, key, cachedResult, expiry}] that is "created on first execution
    under a key, read on subsequent attempts with the same key", so that a
    repeated call "must observe the identical result of the first execution".
    The spec gives [expiry] no part in a read, and neither does the model. *)
Record IdempotencyEntry := {
  entry_scope : string;
  entry_key : string;
  cachedResult : Result Response;
  expiry : Z;
}.

(** How long an entry is kept, added to the clock when it is created. *)
Variable idempotencyTtl : Z.

Definition Guarded (A : Type) : Type :=
  gmap (string * string) IdempotencyEntry * World ->
  Result A * (gmap (string * string) IdempotencyEntry * World).

Definition idempotencyMiddleware (scope key : string) (handler : Async Response)
  : Guarded Response :=
  fun st =>
    let (cache, w) := st in
    match cache !! (scope, key) with
    | Some entry => (cachedResult entry, (cache, w))
    | None =>
        let (result, w1) := handler w in
        let entry :=
          {| entry_scope := scope; entry_key := key; cachedResult := result;
             expiry := clock (clockReads w1) + idempotencyTtl |} in
        (result,
         (<[(scope, key) := entry]> cache, set_clockReads (S (clockReads w1)) w1))
    end.

(** [POST /] behind [idempotencyMiddleware({ scope: 'attestations' })]. *)
Definition submit (idempotencyKey uid : string) (payload : SubmitBody)
  : Guarded Response :=
  idempotencyMiddleware "attestations" idempotencyKey (post_attestations uid payload).

(** ** Running the routes *)

(** The arithmetic tactics take in every variable of the context; a proof
    that calls them first drops the collaborators its goal does not
    mention. *)
Ltac drop_unused_collaborators :=
  try clear idempotencyTtl; try clear toISOString; try clear clock;
  try clear randomUUID; try clear importSoroban; try clear localeCompare.

(** What the repository contributes to a listing: [listByBusiness] when the
    repository has it, else [list], else nothing. *)
Definition repositoryItemsOf (bid : string) (s : RepoState)
  : Result (list RouteAttestation) :=
  match repo_listByBusiness attestationRepository with
  | Some f => Return (f bid s)
  | None =>
      match repo_list attestationRepository with
      | Some g => g bid s
      | None => Return []
      end
  end.

(** The business a user owns, as [resolveBusinessIdForUser] finds it. *)
Definition businessOfUser (uid : string) (w : World) : option string :=
  option_map BusinessRepository.id
    (BusinessRepository.findByUserId (businesses w) uid).

(** The same query for another page. *)
Definition withPage (query : ListQuery) (p : Z) : ListQuery :=
  {| q_businessId := q_businessId query; q_period := q_period query;
     q_status := q_status query; q_page := p; q_limit := q_limit query |}.

(** The items of a list response; nothing for any other outcome. *)
Definition responseData (r : Result Response * World) : list RouteAttestation :=
  match fst r with
  | Return (ListResponse _ data _) => data
  | _ => []
  end.

Lemma listByBusinessId_run (bid : string) (w : World) :
  listByBusinessId bid w =
  match repositoryItemsOf bid (repoState w) with
  | Return items =>
      (Return (Array_sort byAttestedAtDesc
                 (dedupeById
                    (items ++ List.filter (fun item => String.eqb (businessId item) bid)
                                (localAttestationStore w)))), w)
  | Throw e => (Throw e, w)
  end.
Proof.
  unfold listByBusinessId, repositoryItemsOf, bind, readRepo, ret.
  destruct (repo_listByBusiness attestationRepository) as [f |]; [reflexivity |].
  destruct (repo_list attestationRepository) as [g |]; [| reflexivity].
  destruct (g bid (repoState w)); reflexivity.
Qed.

Lemma get_attestations_run (uid : string) (query : ListQuery) (w : World)
    (bid : string) (allItems : list RouteAttestation) :
  nullish (q_businessId query) (businessOfUser uid w) = Some bid ->
  truthy bid = true ->
  listByBusinessId bid w = (Return allItems, w) ->
  get_attestations uid query w =
  (Return
     (ListResponse 200
        (Array_slice (List.filter (matchesQuery query) allItems)
           ((q_page query - 1) * q_limit query)
           ((q_page query - 1) * q_limit query + q_limit query))
        {| pg_page := q_page query; pg_limit := q_limit query;
           pg_total := Z.of_nat (length (List.filter (matchesQuery query) allItems));
           pg_totalPages :=
             Z.max 1 (Math_ceil_div
                        (Z.of_nat (length (List.filter (matchesQuery query) allItems)))
                        (q_limit query)) |}), w).
Proof.
  intros Hb Ht Hl. unfold get_attestations, bind.
  assert (Hres : (match q_businessId query with
                  | Some b => ret (Some b)
                  | None => resolveBusinessIdForUser uid
                  end) w = (Return (Some bid), w)).
  { unfold nullish, businessOfUser in Hb. unfold ret, resolveBusinessIdForUser.
    destruct (q_businessId query); congruence. }
  rewrite Hres, Ht. cbn [negb]. rewrite Hl. reflexivity.
Qed.

Lemma matchesQuery_withPage (query : ListQuery) (p : Z) (item : RouteAttestation) :
  matchesQuery (withPage query p) item = matchesQuery query item.
Proof. reflexivity. Qed.

(** C6.  A list response reports the size of the filtered set as [total]
    and [max(1, ceil(total / limit))] as [totalPages]; a page past
    [totalPages] has no items, with both numbers still reported. *)
Theorem get_attestations_pagination (uid : string) (query : ListQuery) (w : World)
    (bid : string) (allItems : list RouteAttestation) :
  listQuerySchema query = true ->
  nullish (q_businessId query) (businessOfUser uid w) = Some bid ->
  truthy bid = true ->
  listByBusinessId bid w = (Return allItems, w) ->
  exists items pg,
    get_attestations uid query w = (Return (ListResponse 200 items pg), w) /\
    pg_page pg = q_page query /\
    pg_limit pg = q_limit query /\
    pg_total pg = Z.of_nat (length (List.filter (matchesQuery query) allItems)) /\
    (exists c, is_ceiling (pg_total pg) (q_limit query) c /\
               pg_totalPages pg = Z.max 1 c) /\
    (pg_totalPages pg < q_page query -> items = []).
Proof.
  intros Hs Hb Ht Hl. drop_unused_collaborators.
  unfold listQuerySchema in Hs.
  apply andb_prop in Hs as [Hs Hmax]. apply andb_prop in Hs as [Hpage Hlimit].
  apply Z.leb_le in Hpage, Hlimit.
  eexists _, _. split; [apply (get_attestations_run uid query w bid allItems); assumption |].
  cbn [pg_page pg_limit pg_total pg_totalPages].
  set (filtered := List.filter (matchesQuery query) allItems).
  pose proof (Math_ceil_div_is_ceiling (Z.of_nat (length filtered)) (q_limit query)
                ltac:(lia)) as Hc.
  repeat split; try reflexivity.
  - exists (Math_ceil_div (Z.of_nat (length filtered)) (q_limit query)).
    split; [exact Hc | reflexivity].
  - intros Hbeyond.
    rewrite Array_slice_window by nia.
    rewrite skipn_all2; [apply firstn_nil |].
    unfold is_ceiling in Hc. nia.
Qed.

(** C7.  At a fixed limit every page reports the same [totalPages], and the
    items of pages 1 to [totalPages], one after the other, are the filtered,
    sorted records: each once, none left out. *)
Theorem get_attestations_pages_cover (uid : string) (query : ListQuery) (w : World)
    (bid : string) (allItems : list RouteAttestation) :
  1 <= q_limit query ->
  nullish (q_businessId query) (businessOfUser uid w) = Some bid ->
  truthy bid = true ->
  listByBusinessId bid w = (Return allItems, w) ->
  let filtered := List.filter (matchesQuery query) allItems in
  let totalPages :=
    Z.max 1 (Math_ceil_div (Z.of_nat (length filtered)) (q_limit query)) in
  (forall p, exists items pg,
      get_attestations uid (withPage query p) w =
        (Return (ListResponse 200 items pg), w) /\
      pg_totalPages pg = totalPages) /\
  flat_map (fun p => responseData (get_attestations uid (withPage query (Z.of_nat p)) w))
    (seq 1 (Z.to_nat totalPages)) = filtered.
Proof.
  intros Hlimit Hb Ht Hl filtered totalPages. drop_unused_collaborators.
  assert (Hrun : forall p,
    get_attestations uid (withPage query p) w =
    (Return
       (ListResponse 200
          (Array_slice filtered ((p - 1) * q_limit query)
             ((p - 1) * q_limit query + q_limit query))
          {| pg_page := p; pg_limit := q_limit query;
             pg_total := Z.of_nat (length filtered);
             pg_totalPages := totalPages |}), w)).
  { intros p.
    rewrite (get_attestations_run uid (withPage query p) w bid allItems)
      by assumption.
    reflexivity. }
  split.
  - intros p. eexists _, _. split; [apply Hrun | reflexivity].
  - pose proof (Math_ceil_div_is_ceiling (Z.of_nat (length filtered)) (q_limit query)
                  ltac:(lia)) as Hc.
    unfold is_ceiling in Hc.
    rewrite flat_map_concat_map.
    rewrite (map_ext_in _
               (fun p => firstn (Z.to_nat (q_limit query))
                           (skipn ((p - 1) * Z.to_nat (q_limit query)) filtered))).
    + rewrite <- flat_map_concat_map, windows_concat.
      apply firstn_all2. subst totalPages. nia.
    + intros p Hp. apply in_seq in Hp. rewrite Hrun. unfold responseData. cbn [fst].
      rewrite Array_slice_window by nia. f_equal. f_equal. nia.
Qed.

(** ** Listing: de-duplication and order *)

(** The records of one business in the in-memory store. *)
Definition localItemsOf (bid : string) (w : World) : list RouteAttestation :=
  List.filter (fun item => String.eqb (businessId item) bid) (localAttestationStore w).

(** In a listing an id is held by one record at most: the one that came
    last in the merged list, the repository's items first and the in-memory
    ones after them. *)
Lemma listByBusinessId_latest (bid aid : string) (w : World)
    (storeItems : list RouteAttestation) :
  repositoryItemsOf bid (repoState w) = Return storeItems ->
  exists items,
    listByBusinessId bid w = (Return items, w) /\
    Permutation items (dedupeById (storeItems ++ localItemsOf bid w)) /\
    List.filter (fun r => String.eqb (id r) aid) items =
    match latestById aid (storeItems ++ localItemsOf bid w) with
    | Some r => [r]
    | None => []
    end.
Proof.
  intros Hrepo. rewrite listByBusinessId_run, Hrepo.
  eexists. split; [reflexivity |]. fold (localItemsOf bid w).
  split; [apply Array_sort_Permutation |].
  pose proof (filter_Permutation_bool (fun r => String.eqb (id r) aid) _ _
                (Array_sort_Permutation byAttestedAtDesc
                   (dedupeById (storeItems ++ localItemsOf bid w)))) as Hp.
  rewrite dedupeById_latest in Hp.
  destruct (latestById aid (storeItems ++ localItemsOf bid w)).
  - apply Permutation_length_1_inv. now symmetry.
  - now apply Permutation_nil_r in Hp.
Qed.

(** C4 (as amended).  When the repository and the in-memory store both hold
    a record with the same id for the business, the listing holds exactly
    one record with that id, and it is the in-memory store's latest one:
    on a conflict the in-memory store wins. *)
Theorem listByBusinessId_conflict (bid aid : string) (w : World)
    (storeItems : list RouteAttestation) (fromStore fromBuffer : RouteAttestation) :
  repositoryItemsOf bid (repoState w) = Return storeItems ->
  In fromStore storeItems ->
  id fromStore = aid ->
  latestById aid (localItemsOf bid w) = Some fromBuffer ->
  exists items,
    listByBusinessId bid w = (Return items, w) /\
    List.filter (fun r => String.eqb (id r) aid) items = [fromBuffer].
Proof.
  intros Hrepo _ _ Hbuf.
  destruct (listByBusinessId_latest bid aid w storeItems Hrepo) as (items & Hrun & _ & Hid).
  exists items. split; [assumption |]. rewrite Hid.
  unfold latestById in *. rewrite rev_app_distr, find_app, Hbuf. reflexivity.
Qed.

Section Collation.

(** [localeCompare] is a consistent comparator: swapping the arguments
    flips the sign, and the order it gives is transitive. *)
Hypothesis localeCompare_antisym :
  forall a b, Z.sgn (localeCompare a b) = - Z.sgn (localeCompare b a).
Hypothesis localeCompare_trans :
  forall a b c,
    localeCompare a b <= 0 -> localeCompare b c <= 0 -> localeCompare a c <= 0.

Lemma localeCompare_refl (a : string) : localeCompare a a = 0.
Proof using localeCompare_antisym.
  drop_unused_collaborators. pose proof (localeCompare_antisym a a). lia.
Qed.

Lemma byAttestedAtDesc_total (a b : RouteAttestation) :
  byAttestedAtDesc a b <= 0 \/ byAttestedAtDesc b a <= 0.
Proof using localeCompare_antisym.
  drop_unused_collaborators. unfold byAttestedAtDesc.
  pose proof (localeCompare_antisym (attestedAt a) (attestedAt b)). lia.
Qed.

Lemma byAttestedAtDesc_trans (a b c : RouteAttestation) :
  byAttestedAtDesc a b <= 0 -> byAttestedAtDesc b c <= 0 -> byAttestedAtDesc a c <= 0.
Proof using localeCompare_trans. unfold byAttestedAtDesc. eauto. Qed.

(** C5.  The items of a list response are in descending order of
    [attestedAt], and two records with the same [attestedAt] stand in the
    order in which the de-duplicated map holds them. *)
Theorem get_attestations_order (uid : string) (query : ListQuery) (w : World)
    (bid : string) (storeItems : list RouteAttestation) :
  nullish (q_businessId query) (businessOfUser uid w) = Some bid ->
  truthy bid = true ->
  repositoryItemsOf bid (repoState w) = Return storeItems ->
  exists items pg,
    get_attestations uid query w = (Return (ListResponse 200 items pg), w) /\
    StronglySorted
      (fun a b => localeCompare (attestedAt b) (attestedAt a) <= 0) items /\
    forall x y,
      before x y items -> attestedAt x = attestedAt y ->
      before x y (dedupeById (storeItems ++ localItemsOf bid w)).
Proof using localeCompare_antisym localeCompare_trans.
  intros Hb Ht Hrepo. drop_unused_collaborators.
  pose proof (listByBusinessId_run bid w) as Hrun. rewrite Hrepo in Hrun.
  fold (localItemsOf bid w) in Hrun.
  eexists _, _. split; [apply (get_attestations_run uid query w bid _ Hb Ht Hrun) |].
  set (deduped := dedupeById (storeItems ++ localItemsOf bid w)).
  unfold Array_slice. split.
  - apply StronglySorted_slice, StronglySorted_filter.
    apply (Array_sort_sorted byAttestedAtDesc deduped
             byAttestedAtDesc_total byAttestedAtDesc_trans).
  - intros x y Hxy Heq.
    apply before_slice, before_of_filter in Hxy.
    set (p := fun r : RouteAttestation => String.eqb (attestedAt r) (attestedAt x)).
    apply (before_filter p) in Hxy;
      [| apply String.eqb_refl | unfold p; rewrite Heq; apply String.eqb_refl].
    rewrite Array_sort_stable in Hxy.
    + now apply before_of_filter in Hxy.
    + intros a b Ha Hb'. unfold p in Ha, Hb'.
      apply String.eqb_eq in Ha, Hb'. unfold byAttestedAtDesc.
      rewrite Ha, Hb', localeCompare_refl. lia.
Qed.

End Collation.

(** ** Lookup by id *)

(** The repository's listings hold records of the business asked for. *)
Definition listsByBusiness : Prop :=
  forall bid s items,
    repositoryItemsOf bid s = Return items ->
    Forall (fun r => businessId r = bid) items.

Lemma dedupeById_In (r : RouteAttestation) (merged : list RouteAttestation) :
  In r (dedupeById merged) -> In r merged.
Proof.
  intros Hin.
  assert (Hf : In r (List.filter (fun x => String.eqb (id x) (id r)) (dedupeById merged))).
  { apply List.filter_In. split; [assumption | apply String.eqb_refl]. }
  rewrite dedupeById_latest in Hf. unfold latestById in Hf.
  destruct (List.find _ (rev merged)) as [r' |] eqn:E; [| destruct Hf].
  destruct Hf as [-> | []]. apply find_some in E as [E _]. now apply in_rev.
Qed.

Lemma getById_world (aid bid : string) (w : World) : snd (getById aid bid w) = w.
Proof.
  unfold getById, bind, readRepo, ret.
  destruct (repo_getById attestationRepository) as [f |].
  - destruct (f aid (repoState w)) as [[r |] | e]; cbn; try reflexivity.
    now destruct (negb (String.eqb (businessId r) bid)).
  - rewrite listByBusinessId_run.
    now destruct (repositoryItemsOf bid (repoState w)).
Qed.

(** What [getById] returns belongs to the business it was asked for. *)
Lemma getById_business (aid bid : string) (w w' : World) (r : RouteAttestation) :
  listsByBusiness ->
  getById aid bid w = (Return (Some r), w') ->
  businessId r = bid.
Proof.
  intros Hscoped. unfold getById, bind, readRepo, ret.
  destruct (repo_getById attestationRepository) as [f |].
  - destruct (f aid (repoState w)) as [[r0 |] | e]; try discriminate.
    destruct (String.eqb (businessId r0) bid) eqn:E; cbn; [| discriminate].
    intros [= <- _]. now apply String.eqb_eq.
  - rewrite listByBusinessId_run.
    destruct (repositoryItemsOf bid (repoState w)) as [items | e] eqn:Hrepo;
      [| discriminate].
    intros [= Hfind _]. apply find_some in Hfind as [Hin _].
    apply (Permutation_in _ (Array_sort_Permutation _ _)) in Hin.
    apply dedupeById_In, in_app_or in Hin as [Hin | Hin].
    + apply Hscoped in Hrepo. rewrite List.Forall_forall in Hrepo. auto.
    + apply List.filter_In in Hin as [_ Hin]. now apply String.eqb_eq.
Qed.

(** A record the repository finds under the id, but of another business,
    is not returned. *)
Lemma getById_foreign (aid bid : string) (w : World)
    (f : string -> RepoState -> Result (option RouteAttestation))
    (r : RouteAttestation) :
  repo_getById attestationRepository = Some f ->
  f aid (repoState w) = Return (Some r) ->
  businessId r <> bid ->
  getById aid bid w = (Return None, w).
Proof.
  intros Hf Hr Hne. unfold getById, bind, readRepo, ret. rewrite Hf, Hr.
  destruct (String.eqb (businessId r) bid) eqn:E; [| reflexivity].
  now apply String.eqb_eq in E.
Qed.

(** Without [repo.getById]: an id that no record of the business carries,
    in the repository's listing or in the in-memory store, is not found. *)
Lemma getById_absent (aid bid : string) (w : World)
    (storeItems : list RouteAttestation) :
  repo_getById attestationRepository = None ->
  repositoryItemsOf bid (repoState w) = Return storeItems ->
  (forall r, In r storeItems -> id r <> aid) ->
  (forall r, In r (localAttestationStore w) -> id r = aid -> businessId r <> bid) ->
  getById aid bid w = (Return None, w).
Proof.
  intros Hg Hrepo Hstore Hlocal. unfold getById, bind, ret. rewrite Hg.
  rewrite listByBusinessId_run, Hrepo.
  destruct (List.find _ _) as [r |] eqn:Hfind; [exfalso | reflexivity].
  apply find_some in Hfind as [Hin Hid]. apply String.eqb_eq in Hid.
  apply (Permutation_in _ (Array_sort_Permutation _ _)) in Hin.
  apply dedupeById_In, in_app_or in Hin as [Hin | Hin].
  - now apply (Hstore r).
  - apply List.filter_In in Hin as [Hin Hb]. apply String.eqb_eq in Hb.
    now apply (Hlocal r).
Qed.

Lemma get_attestation_run (uid aid bid : string) (w : World) :
  truthy aid = true ->
  businessOfUser uid w = Some bid ->
  truthy bid = true ->
  get_attestation uid aid w =
  match getById aid bid w with
  | (Return (Some a), w') => (Return (AttestationResponse 200 a), w')
  | (Return None, w') => (Throw attestationNotFound, w')
  | (Throw e, w') => (Throw e, w')
  end.
Proof.
  intros Ha Hb Ht. unfold get_attestation, parseIdParam, bind.
  rewrite Ha. unfold ret at 1, resolveBusinessIdForUser.
  fold (businessOfUser uid w). rewrite Hb, Ht. cbn [negb].
  now destruct (getById aid bid w) as [[[a |] | e] w'].
Qed.

(** C8.  [getById] returns a record only of the business it was asked for;
    a record that exists under the id but belongs to another business is
    not returned, and [GET /:id] answers 404 for it. *)
Theorem getById_tenant_isolation (aid bid : string) (w : World) :
  listsByBusiness ->
  (forall r w', getById aid bid w = (Return (Some r), w') -> businessId r = bid) /\
  (forall f r,
      repo_getById attestationRepository = Some f ->
      f aid (repoState w) = Return (Some r) ->
      businessId r <> bid ->
      getById aid bid w = (Return None, w)) /\
  (forall storeItems r,
      repo_getById attestationRepository = None ->
      repositoryItemsOf bid (repoState w) = Return storeItems ->
      In r (localAttestationStore w) -> id r = aid -> businessId r <> bid ->
      (forall r', In r' storeItems -> id r' <> aid) ->
      (forall r', In r' (localAttestationStore w) -> id r' = aid ->
                  businessId r' <> bid) ->
      getById aid bid w = (Return None, w)) /\
  (forall uid,
      truthy aid = true -> businessOfUser uid w = Some bid -> truthy bid = true ->
      (getById aid bid w = (Return None, w) ->
       get_attestation uid aid w = (Throw attestationNotFound, w)) /\
      (forall resp w',
          get_attestation uid aid w = (Return resp, w') ->
          exists r, resp = AttestationResponse 200 r /\ businessId r = bid)).
Proof.
  intros Hscoped. repeat split.
  - intros r w'. now apply getById_business.
  - intros f r. apply getById_foreign.
  - intros storeItems r Hg Hrepo _ _ _. now apply getById_absent.
  - intros Hnone. rewrite (get_attestation_run uid aid bid w) by assumption.
    now rewrite Hnone.
  - intros resp w'. rewrite (get_attestation_run uid aid bid w) by assumption.
    destruct (getById aid bid w) as [[[a |] | e] w0] eqn:Hget; try discriminate.
    intros [= <- _]. exists a. split; [reflexivity |].
    now apply (getById_business aid bid w w0).
Qed.

(** ** Revocation *)

Lemma findIndex_Some {A : Type} (p : A -> bool) (l : list A) (i : nat) :
  findIndex p l = Some i -> exists x, l !! i = Some x /\ p x = true.
Proof.
  revert i. induction l as [| y l IH]; cbn; intros i; [discriminate |].
  destruct (p y) eqn:E.
  - intros [= <-]. now exists y.
  - destruct (findIndex p l) as [j |]; cbn; [| discriminate].
    intros [= <-]. now apply IH.
Qed.

Lemma findIndex_None {A : Type} (p : A -> bool) (l : list A) :
  (forall x, In x l -> p x = false) -> findIndex p l = None.
Proof.
  induction l as [| y l IH]; cbn; intros Hp; [reflexivity |].
  rewrite (Hp y) by now left. rewrite IH; [reflexivity |]. auto.
Qed.

(** Without [repo.revoke], [revokeAttestation] rewrites the first record of
    the in-memory store that has the id. *)
Lemma revokeAttestation_local (aid : string) (reason : option string) (w : World)
    (index : nat) (old : RouteAttestation) :
  repo_revoke attestationRepository = None ->
  findIndex (fun item => String.eqb (id item) aid) (localAttestationStore w) = Some index ->
  localAttestationStore w !! index = Some old ->
  revokeAttestation aid reason w =
  (Return (Some (spread_revoked old (toISOString (clock (clockReads w))))),
   set_localAttestationStore
     (<[index := spread_revoked old (toISOString (clock (clockReads w)))]>
        (localAttestationStore w))
     (set_clockReads (S (clockReads w)) w)).
Proof.
  intros Hrepo Hidx Hold. unfold revokeAttestation. rewrite Hrepo, Hidx, Hold.
  reflexivity.
Qed.

Lemma handleRevoke_run (uid aid bid : string) (reason : option string) (w : World) :
  truthy aid = true ->
  businessOfUser uid w = Some bid ->
  truthy bid = true ->
  handleRevoke uid aid reason w =
  match getById aid bid w with
  | (Return (Some _), w') =>
      match revokeAttestation aid reason w' with
      | (Return (Some r), w'') => (Return (AttestationResponse 200 r), w'')
      | (Return None, w'') =>
          (Throw (createHttpError 500 "REVOKE_FAILED" "Failed to revoke attestation"),
           w'')
      | (Throw e, w'') => (Throw e, w'')
      end
  | (Return None, w') => (Throw attestationNotFound, w')
  | (Throw e, w') => (Throw e, w')
  end.
Proof.
  intros Ha Hb Ht. unfold handleRevoke, parseIdParam, bind.
  rewrite Ha. unfold ret at 1, resolveBusinessIdForUser.
  fold (businessOfUser uid w). rewrite Hb, Ht. cbn [negb].
  destruct (getById aid bid w) as [[[a |] | e] w']; try reflexivity.
  now destruct (revokeAttestation aid reason w') as [[[r |] | e] w''].
Qed.

(** A revoke that passes the lookup and finds the record in the in-memory
    store answers 200 with the record rewritten. *)
Lemma handleRevoke_local (uid aid bid : string) (reason : option string) (w : World)
    (found old : RouteAttestation) (index : nat) :
  repo_revoke attestationRepository = None ->
  truthy aid = true ->
  businessOfUser uid w = Some bid ->
  truthy bid = true ->
  getById aid bid w = (Return (Some found), w) ->
  findIndex (fun item => String.eqb (id item) aid) (localAttestationStore w) = Some index ->
  localAttestationStore w !! index = Some old ->
  handleRevoke uid aid reason w =
  (Return (AttestationResponse 200
             (spread_revoked old (toISOString (clock (clockReads w))))),
   set_localAttestationStore
     (<[index := spread_revoked old (toISOString (clock (clockReads w)))]>
        (localAttestationStore w))
     (set_clockReads (S (clockReads w)) w)).
Proof.
  intros Hrepo Ha Hb Ht Hget Hidx Hold.
  rewrite (handleRevoke_run uid aid bid reason w Ha Hb Ht), Hget.
  now rewrite (revokeAttestation_local aid reason w index old Hrepo Hidx Hold).
Qed.

(** C9 (as amended).  On a repository without [revoke], a revoke of a record
    that the lookup finds for the caller rewrites the first record that the
    in-memory store holds under the id.  When that is the record found, the
    answer is 200 with the record, its status [revoked] and its [revokedAt]
    the time of the call, every other field as it was, and the store holds
    it in the old one's place.  When the first record under the id is
    another one, it is that other record that is rewritten and returned.
    When the in-memory store holds no record under the id (the record found
    is known through the repository only), the answer is 500
    [REVOKE_FAILED] and nothing changes.  A revoke of an id that the lookup
    does not find answers 404. *)
Theorem handleRevoke_revokes (uid aid bid : string) (reason : option string)
    (w : World) :
  repo_revoke attestationRepository = None ->
  truthy aid = true ->
  businessOfUser uid w = Some bid ->
  truthy bid = true ->
  (forall found index,
      getById aid bid w = (Return (Some found), w) ->
      findIndex (fun item => String.eqb (id item) aid) (localAttestationStore w)
        = Some index ->
      localAttestationStore w !! index = Some found ->
      exists r w',
        handleRevoke uid aid reason w = (Return (AttestationResponse 200 r), w') /\
        localAttestationStore w' = <[index := r]> (localAttestationStore w) /\
        status r = Some revoked /\
        revokedAt r = revokedAt_time (toISOString (clock (clockReads w))) /\
        id r = id found /\ businessId r = businessId found /\
        period r = period found /\ merkleRoot r = merkleRoot found /\
        timestamp r = timestamp found /\ version r = version found /\
        txHash r = txHash found /\ attestedAt r = attestedAt found) /\
  (forall found index other,
      getById aid bid w = (Return (Some found), w) ->
      findIndex (fun item => String.eqb (id item) aid) (localAttestationStore w)
        = Some index ->
      localAttestationStore w !! index = Some other ->
      other <> found ->
      exists w',
        handleRevoke uid aid reason w =
          (Return (AttestationResponse 200
                     (spread_revoked other (toISOString (clock (clockReads w))))),
           w') /\
        localAttestationStore w' =
          <[index := spread_revoked other (toISOString (clock (clockReads w)))]>
            (localAttestationStore w)) /\
  (forall found,
      getById aid bid w = (Return (Some found), w) ->
      (forall r, In r (localAttestationStore w) -> id r <> aid) ->
      handleRevoke uid aid reason w =
        (Throw (createHttpError 500 "REVOKE_FAILED" "Failed to revoke attestation"),
         w)) /\
  (getById aid bid w = (Return None, w) ->
   handleRevoke uid aid reason w = (Throw attestationNotFound, w)) /\
  (forall storeItems,
      repo_getById attestationRepository = None ->
      repositoryItemsOf bid (repoState w) = Return storeItems ->
      (forall r, In r storeItems -> id r <> aid) ->
      (forall r, In r (localAttestationStore w) -> id r <> aid) ->
      handleRevoke uid aid reason w = (Throw attestationNotFound, w)).
Proof.
  intros Hrepo Ha Hb Ht. split; [| split; [| split; [| split]]].
  - intros found index Hget Hidx Hold.
    exists (spread_revoked found (toISOString (clock (clockReads w)))).
    eexists.
    split; [apply (handleRevoke_local uid aid bid reason w found found index);
            assumption |].
    repeat split.
  - intros found index other Hget Hidx Hold _.
    eexists.
    split; [apply (handleRevoke_local uid aid bid reason w found other index);
            assumption |].
    reflexivity.
  - intros found Hget Hlocal.
    rewrite (handleRevoke_run uid aid bid reason w Ha Hb Ht), Hget.
    unfold revokeAttestation. rewrite Hrepo.
    rewrite findIndex_None; [reflexivity |].
    intros r Hin. destruct (String.eqb (id r) aid) eqn:E; [| reflexivity].
    apply String.eqb_eq in E. now destruct (Hlocal r Hin).
  - intros Hnone.
    now rewrite (handleRevoke_run uid aid bid reason w Ha Hb Ht), Hnone.
  - intros storeItems Hg Hstore Hs Hl.
    rewrite (handleRevoke_run uid aid bid reason w Ha Hb Ht).
    rewrite (getById_absent aid bid w storeItems Hg Hstore Hs); [reflexivity |].
    intros r Hin Hid. now destruct (Hl r Hin).
Qed.


(** ** Submission *)

(** The anchoring attempt number [attempt] yields no transaction hash: the
    module fails to load, or exports no [submitAttestation], or the call
    rejects. *)
Definition anchoringUnavailable (attempt : nat) (params : SubmitAttestationParams)
  : bool :=
  match importSoroban attempt with
  | Throw _ => true
  | Return module =>
      match submitAttestation module with
      | None => true
      | Some f =>
          match f params with
          | Throw _ => true
          | Return _ => false
          end
      end
  end.

(** The parameters [POST /] hands to [submitOnChain]. *)
Definition anchorParams (payload : SubmitBody) (bid : string) (w : World)
  : SubmitAttestationParams :=
  {| p_business := bid; p_period := b_period payload;
     p_merkleRoot := b_merkleRoot payload;
     p_timestamp :=
       match b_timestamp payload with
       | Some t => t
       | None => clock (clockReads w)
       end;
     p_version := b_version payload |}.

(** When anchoring is unavailable [submitOnChain] still returns: a pending
    hash made from the next UUID; the stores are left alone. *)
Lemma submitOnChain_fallback (params : SubmitAttestationParams) (w : World) :
  anchoringUnavailable (importsDone w) params = true ->
  exists w',
    submitOnChain params w =
      (Return {| r_txHash := String.append "pending_" (randomUUID (uuidsDrawn w)) |},
       w') /\
    uuidsDrawn w' = S (uuidsDrawn w) /\
    clockReads w' = clockReads w /\
    localAttestationStore w' = localAttestationStore w /\
    repoState w' = repoState w /\
    createCalls w' = createCalls w.
Proof.
  unfold anchoringUnavailable, submitOnChain. intros H.
  destruct (importSoroban (importsDone w)) as [module | e].
  - destruct (submitAttestation module) as [f |].
    + destruct (f params); [discriminate |].
      eexists. split; [reflexivity |]. now cbn.
    + eexists. split; [reflexivity |]. now cbn.
  - eexists. split; [reflexivity |]. now cbn.
Qed.

(** C1.  A submit whose anchoring attempt fails, or finds no anchoring
    module or function, does not fail for that: the transaction hash is
    ["pending_"] followed by a fresh UUID, the record handed to the store
    has status [submitted] and that hash, and the answer is 201 with the
    hash (unless the repository's own [create] rejects). *)
Theorem post_attestations_anchor_fallback (uid : string) (payload : SubmitBody)
    (w : World) (bid : string) :
  nullish (b_businessId payload) (businessOfUser uid w) = Some bid ->
  truthy bid = true ->
  submitsForAnotherBusiness payload (businessOfUser uid w) = false ->
  anchoringUnavailable (importsDone w) (anchorParams payload bid w) = true ->
  exists record w',
    id record = randomUUID (S (uuidsDrawn w)) /\
    businessId record = bid /\
    period record = b_period payload /\
    merkleRoot record = Some (b_merkleRoot payload) /\
    version record = Some (b_version payload) /\
    txHash record = Some (String.append "pending_" (randomUUID (uuidsDrawn w))) /\
    status record = Some submitted /\
    revokedAt record = revokedAt_null /\
    match repo_create attestationRepository with
    | None =>
        post_attestations uid payload w =
          (Return (SubmitResponse 201 record
                     (String.append "pending_" (randomUUID (uuidsDrawn w)))), w') /\
        localAttestationStore w' = localAttestationStore w ++ [record]
    | Some create =>
        createCalls w' = createCalls w ++ [record] /\
        match create record (repoState w) with
        | (Return saved, s) =>
            post_attestations uid payload w =
              (Return (SubmitResponse 201 saved
                         (String.append "pending_" (randomUUID (uuidsDrawn w)))), w') /\
            repoState w' = s
        | (Throw e, s) => post_attestations uid payload w = (Throw e, w')
        end
    end.
Proof.
  intros Hb Ht Hf Hun.
  remember (post_attestations uid payload w) as result eqn:Hres.
  unfold post_attestations, bind in Hres.
  unfold resolveBusinessIdForUser in Hres. fold (businessOfUser uid w) in Hres.
  rewrite Hb, Ht, Hf in Hres. cbn [negb] in Hres.
  unfold anchorParams in Hun. unfold timestampOrNow in Hres.
  destruct (b_timestamp payload) as [t |] eqn:Hts.
  - unfold ret at 1 in Hres.
    destruct (submitOnChain_fallback _ w Hun)
      as (w1 & Hsub & Hu & Hc & Hl & Hr & Hcc).
    rewrite Hsub in Hres.
    unfold new_Date_toISOString, bind, Date_now, ret, call_randomUUID,
      saveAttestation in Hres.
    cbn in Hres. rewrite Hu, Hc in Hres.
    exists {| id := randomUUID (S (uuidsDrawn w)); businessId := bid;
              period := b_period payload;
              attestedAt := toISOString (clock (clockReads w));
              merkleRoot := Some (b_merkleRoot payload); timestamp := Some t;
              version := Some (b_version payload);
              txHash := Some (String.append "pending_" (randomUUID (uuidsDrawn w)));
              status := Some submitted; revokedAt := revokedAt_null |}.
    destruct (repo_create attestationRepository) as [create |].
    + unfold callRepo in Hres. cbn in Hres. rewrite Hr, Hcc in Hres.
      destruct (create _ (repoState w)) as [[saved | e] s];
        subst result; eexists; do 8 (split; [reflexivity |]);
        (split; [| repeat split; reflexivity]); reflexivity.
    + subst result. eexists. do 8 (split; [reflexivity |]).
      split; [reflexivity |]. cbn. now rewrite Hl.
  - unfold Date_now at 1 in Hres.
    destruct (submitOnChain_fallback _ (set_clockReads (S (clockReads w)) w) Hun)
      as (w1 & Hsub & Hu & Hc & Hl & Hr & Hcc).
    rewrite Hsub in Hres.
    cbn in Hu, Hc, Hl, Hr, Hcc.
    unfold new_Date_toISOString, bind, Date_now, ret, call_randomUUID,
      saveAttestation in Hres.
    cbn in Hres. rewrite Hu, Hc in Hres.
    exists {| id := randomUUID (S (uuidsDrawn w)); businessId := bid;
              period := b_period payload;
              attestedAt := toISOString (clock (S (clockReads w)));
              merkleRoot := Some (b_merkleRoot payload);
              timestamp := Some (clock (S (S (clockReads w))));
              version := Some (b_version payload);
              txHash := Some (String.append "pending_" (randomUUID (uuidsDrawn w)));
              status := Some submitted; revokedAt := revokedAt_null |}.
    destruct (repo_create attestationRepository) as [create |].
    + unfold callRepo in Hres. cbn in Hres. rewrite Hr, Hcc in Hres.
      destruct (create _ (repoState w)) as [[saved | e] s];
        subst result; eexists; do 8 (split; [reflexivity |]);
        (split; [| repeat split; reflexivity]); reflexivity.
    + subst result. eexists. do 8 (split; [reflexivity |]).
      split; [reflexivity |]. cbn. now rewrite Hl.
Qed.

(** ** Submission behind the idempotency guard *)

(** [submitOnChain] always returns; it calls the anchoring function at most
    once and leaves the stores alone. *)
Lemma submitOnChain_effects (params : SubmitAttestationParams) (w : World) :
  exists res w',
    submitOnChain params w = (Return res, w') /\
    (length (anchorCalls w') <= S (length (anchorCalls w)))%nat /\
    localAttestationStore w' = localAttestationStore w /\
    createCalls w' = createCalls w /\
    repoState w' = repoState w.
Proof.
  drop_unused_collaborators. unfold submitOnChain.
  destruct (importSoroban (importsDone w)) as [module | e].
  - destruct (submitAttestation module) as [f |].
    + destruct (f params) as [res | e]; eexists _, _;
        (split; [reflexivity |]); cbn; rewrite ?length_app; cbn;
        repeat split; lia.
    + eexists _, _. split; [reflexivity |]. cbn. repeat split; lia.
  - eexists _, _. split; [reflexivity |]. cbn. repeat split; lia.
Qed.

(** One run of [POST /]: at most one call of the anchoring function, and a
    run that answers has stored exactly one record, in the in-memory store
    or through [repo.create]. *)
Lemma post_attestations_effects (uid : string) (payload : SubmitBody) (w : World) :
  (length (anchorCalls (snd (post_attestations uid payload w)))
   <= S (length (anchorCalls w)))%nat /\
  (forall resp,
      fst (post_attestations uid payload w) = Return resp ->
      (length (localAttestationStore (snd (post_attestations uid payload w)))
       + length (createCalls (snd (post_attestations uid payload w)))
       = S (length (localAttestationStore w) + length (createCalls w)))%nat).
Proof.
  drop_unused_collaborators.
  remember (post_attestations uid payload w) as result eqn:Hres.
  unfold post_attestations, bind in Hres.
  unfold resolveBusinessIdForUser in Hres.
  destruct (nullish _ _) as [bid |]; [| subst; cbn; split; [lia | discriminate]].
  destruct (negb (truthy bid)); [subst; cbn; split; [lia | discriminate] |].
  destruct (submitsForAnotherBusiness _ _);
    [subst; cbn; split; [lia | discriminate] |].
  assert (Hts : exists t w0,
             timestampOrNow payload w = (Return t, w0) /\
             anchorCalls w0 = anchorCalls w /\
             localAttestationStore w0 = localAttestationStore w /\
             createCalls w0 = createCalls w /\ repoState w0 = repoState w).
  { unfold timestampOrNow. destruct (b_timestamp payload);
      eexists _, _; (split; [reflexivity |]); now cbn. }
  destruct Hts as (t & w0 & Hts & Ha0 & Hl0 & Hc0 & Hr0). rewrite Hts in Hres.
  destruct (submitOnChain_effects
              {| p_business := bid; p_period := b_period payload;
                 p_merkleRoot := b_merkleRoot payload; p_timestamp := t;
                 p_version := b_version payload |} w0)
    as (res & w1 & Hsub & Ha1 & Hl1 & Hc1 & Hr1).
  rewrite Hsub in Hres.
  unfold new_Date_toISOString, bind, Date_now, ret, call_randomUUID in Hres.
  cbn in Hres.
  assert (Hts' : exists t' w2,
             timestampOrNow payload
               (set_uuidsDrawn (S (uuidsDrawn w1)) (set_clockReads (S (clockReads w1)) w1))
             = (Return t', w2) /\
             anchorCalls w2 = anchorCalls w1 /\
             localAttestationStore w2 = localAttestationStore w1 /\
             createCalls w2 = createCalls w1 /\ repoState w2 = repoState w1).
  { unfold timestampOrNow. destruct (b_timestamp payload);
      eexists _, _; (split; [reflexivity |]); now cbn. }
  destruct Hts' as (t' & w2 & Hts' & Ha2 & Hl2 & Hc2 & Hr2).
  cbn in Hts'. rewrite Hts' in Hres.
  unfold saveAttestation, callRepo in Hres.
  destruct (repo_create attestationRepository) as [create |].
  - cbn in Hres. rewrite Ha0 in Ha1.
    destruct (create _ (repoState w2)) as [[saved | e] s];
      subst result; cbn; rewrite ?length_app; cbn;
      rewrite Ha2, Hl2, Hc2, Hl1, Hc1, Hl0, Hc0;
      (split; [lia | intros; try discriminate; lia]).
  - rewrite Ha0 in Ha1. subst result. cbn. rewrite ?length_app. cbn.
    rewrite Ha2, Hl2, Hc2, Hl1, Hc1, Hl0, Hc0. split; [lia | intros; lia].
Qed.

(** C2.  Two submits with the same idempotency key: the second observes the
    result of the first and changes nothing; together they call the
    anchoring function at most once; and when the key was new and the first
    submit answered, exactly one record has been stored. *)
Theorem submit_idempotent (key uid : string) (payload : SubmitBody)
    (cache : gmap (string * string) IdempotencyEntry) (w : World)
    (r1 r2 : Result Response)
    (st1 st2 : gmap (string * string) IdempotencyEntry * World) :
  submit key uid payload (cache, w) = (r1, st1) ->
  submit key uid payload st1 = (r2, st2) ->
  r2 = r1 /\
  st2 = st1 /\
  (length (anchorCalls (snd st2)) <= S (length (anchorCalls w)))%nat /\
  (cache !! ("attestations", key) = None ->
   forall resp,
     r1 = Return resp ->
     (length (localAttestationStore (snd st2)) + length (createCalls (snd st2))
      = S (length (localAttestationStore w) + length (createCalls w)))%nat).
Proof.
  drop_unused_collaborators. unfold submit, idempotencyMiddleware. intros H1 H2.
  destruct (cache !! ("attestations", key)) as [entry |] eqn:Hhit.
  - injection H1 as <- <-. rewrite Hhit in H2. injection H2 as <- <-.
    cbn. repeat split; [lia | discriminate].
  - destruct (post_attestations_effects uid payload w) as [Hanchor Hstored].
    destruct (post_attestations uid payload w) as [result w1] eqn:Hpost.
    injection H1 as <- <-. rewrite lookup_insert_eq in H2.
    injection H2 as <- <-. cbn in *.
    repeat split; [exact Hanchor |]. intros _ resp ->. now apply (Hstored resp).
Qed.

(** ** Further properties of the routes *)

(** *** [POST /] on the in-memory path *)

(** What the anchoring attempt number [attempt] returns, when it returns a
    transaction. *)
Definition anchoredResult (attempt : nat) (params : SubmitAttestationParams)
  : option SubmitAttestationResult :=
  match importSoroban attempt with
  | Return module =>
      match submitAttestation module with
      | Some f =>
          match f params with
          | Return res => Some res
          | Throw _ => None
          end
      | None => None
      end
  | Throw _ => None
  end.

(** The business checks of [POST /] pass for [bid]. *)
Definition submitsFor (uid : string) (payload : SubmitBody) (w : World)
    (bid : string) : Prop :=
  nullish (b_businessId payload) (businessOfUser uid w) = Some bid /\
  truthy bid = true /\
  submitsForAnotherBusiness payload (businessOfUser uid w) = false.

(** The world in which [POST /] calls [submitOnChain]: the clock has been
    read once when the payload has no timestamp. *)
Definition beforeAnchoring (payload : SubmitBody) (w : World) : World :=
  match b_timestamp payload with
  | Some _ => w
  | None => set_clockReads (S (clockReads w)) w
  end.

(** The record [POST /] builds once [submitOnChain] has returned [onChain]
    and left the world [w1]. *)
Definition submittedRecord (payload : SubmitBody) (bid : string)
    (onChain : SubmitAttestationResult) (w1 : World) : RouteAttestation :=
  {| id := randomUUID (uuidsDrawn w1); businessId := bid;
     period := b_period payload;
     attestedAt := toISOString (clock (clockReads w1));
     merkleRoot := Some (b_merkleRoot payload);
     timestamp :=
       Some match b_timestamp payload with
            | Some t => t
            | None => clock (S (clockReads w1))
            end;
     version := Some (b_version payload);
     txHash := Some (r_txHash onChain);
     status := Some submitted; revokedAt := revokedAt_null |}.

(** [submitOnChain] always returns, and touches nothing but the loader's
    counter, the UUID generator and the log of anchoring calls. *)
Lemma submitOnChain_frame (params : SubmitAttestationParams) (w : World) :
  exists res w1,
    submitOnChain params w = (Return res, w1) /\
    localAttestationStore w1 = localAttestationStore w /\
    repoState w1 = repoState w /\
    businesses w1 = businesses w /\
    clockReads w1 = clockReads w /\
    createCalls w1 = createCalls w /\
    importsDone w1 = S (importsDone w).
Proof.
  unfold submitOnChain.
  destruct (importSoroban (importsDone w)) as [module | e].
  - destruct (submitAttestation module) as [f |].
    + destruct (f params) as [res | e]; eexists _, _;
        (split; [reflexivity |]); now cbn.
    + eexists _, _. split; [reflexivity |]. now cbn.
  - eexists _, _. split; [reflexivity |]. now cbn.
Qed.

Lemma submitOnChain_anchored (params : SubmitAttestationParams) (w : World)
    (res : SubmitAttestationResult) :
  anchoredResult (importsDone w) params = Some res ->
  submitOnChain params w =
  (Return res,
   set_anchorCalls (anchorCalls w ++ [params]) (set_importsDone (S (importsDone w)) w)).
Proof.
  unfold anchoredResult, submitOnChain.
  destruct (importSoroban (importsDone w)) as [module | e]; [| discriminate].
  destruct (submitAttestation module) as [f |]; [| discriminate].
  destruct (f params) as [res' | e]; [| discriminate].
  now intros [= ->].
Qed.

(** One run of [POST /] that passes the business checks, without
    [repo.create]: the record is built from what [submitOnChain] returned
    and pushed to the in-memory store. *)
Lemma post_attestations_local (uid : string) (payload : SubmitBody) (w : World)
    (bid : string) (onChain : SubmitAttestationResult) (w1 : World) :
  repo_create attestationRepository = None ->
  submitsFor uid payload w bid ->
  submitOnChain (anchorParams payload bid w) (beforeAnchoring payload w)
    = (Return onChain, w1) ->
  exists w',
    post_attestations uid payload w =
      (Return (SubmitResponse 201 (submittedRecord payload bid onChain w1)
                 (r_txHash onChain)), w') /\
    localAttestationStore w' =
      localAttestationStore w1 ++ [submittedRecord payload bid onChain w1] /\
    repoState w' = repoState w1 /\
    businesses w' = businesses w1 /\
    uuidsDrawn w' = S (uuidsDrawn w1) /\
    clockReads w' =
      match b_timestamp payload with
      | Some _ => S (clockReads w1)
      | None => S (S (clockReads w1))
      end /\
    importsDone w' = importsDone w1 /\
    anchorCalls w' = anchorCalls w1 /\
    createCalls w' = createCalls w1.
Proof.
  intros Hcreate (Hb & Ht & Hf) Hchain.
  unfold post_attestations, bind.
  unfold resolveBusinessIdForUser. fold (businessOfUser uid w).
  rewrite Hb, Ht, Hf. cbn [negb].
  unfold anchorParams, beforeAnchoring in Hchain.
  unfold timestampOrNow, submittedRecord, saveAttestation. rewrite Hcreate.
  destruct (b_timestamp payload) as [t |].
  - unfold ret at 1. rewrite Hchain.
    eexists. split; [reflexivity |]. now cbn.
  - unfold Date_now at 1. rewrite Hchain.
    eexists. split; [reflexivity |]. now cbn.
Qed.

(** X1.  Without [repo.create], [POST /] ends in one of three ways.  When no
    business is resolved it answers 404 and when the payload names a
    business other than the caller's it answers 403, in both cases before
    anything is touched.  Otherwise it answers 201: the record carries the
    payload's period, Merkle root and version, the resolved business, the
    transaction hash of the answer, status [submitted] and no revocation
    time, and it is appended to the in-memory store. *)
Theorem post_attestations_outcomes (uid : string) (payload : SubmitBody) (w : World) :
  repo_create attestationRepository = None ->
  match nullish (b_businessId payload) (businessOfUser uid w) with
  | None => post_attestations uid payload w = (Throw businessNotFound, w)
  | Some bid =>
      if negb (truthy bid)
      then post_attestations uid payload w = (Throw businessNotFound, w)
      else if submitsForAnotherBusiness payload (businessOfUser uid w)
      then post_attestations uid payload w =
             (Throw (createHttpError 403 "FORBIDDEN"
                       "Cannot submit attestation for another business"), w)
      else
        exists record tx w',
          post_attestations uid payload w =
            (Return (SubmitResponse 201 record tx), w') /\
          businessId record = bid /\
          period record = b_period payload /\
          merkleRoot record = Some (b_merkleRoot payload) /\
          version record = Some (b_version payload) /\
          txHash record = Some tx /\
          status record = Some submitted /\
          revokedAt record = revokedAt_null /\
          localAttestationStore w' = localAttestationStore w ++ [record] /\
          repoState w' = repoState w /\
          businesses w' = businesses w
  end.
Proof.
  intros Hcreate.
  destruct (nullish (b_businessId payload) (businessOfUser uid w)) as [bid |] eqn:Hb.
  2: { unfold post_attestations, bind, resolveBusinessIdForUser.
       fold (businessOfUser uid w). now rewrite Hb. }
  destruct (truthy bid) eqn:Ht; cbn [negb].
  2: { unfold post_attestations, bind, resolveBusinessIdForUser.
       fold (businessOfUser uid w). now rewrite Hb, Ht. }
  destruct (submitsForAnotherBusiness payload (businessOfUser uid w)) eqn:Hf.
  { unfold post_attestations, bind, resolveBusinessIdForUser.
    fold (businessOfUser uid w). now rewrite Hb, Ht, Hf. }
  destruct (submitOnChain_frame (anchorParams payload bid w) (beforeAnchoring payload w))
    as (onChain & w1 & Hchain & Hl & Hr & Hbs & _).
  destruct (post_attestations_local uid payload w bid onChain w1 Hcreate
              (conj Hb (conj Ht Hf)) Hchain)
    as (w' & Hrun & Hl' & Hr' & Hbs' & _).
  exists (submittedRecord payload bid onChain w1), (r_txHash onChain), w'.
  split; [exact Hrun |]. do 7 (split; [reflexivity |]).
  rewrite Hl', Hr', Hbs', Hl, Hr, Hbs.
  unfold beforeAnchoring. now destruct (b_timestamp payload).
Qed.

(** One run of [POST /] that passes the business checks, up to the point
    where the record is handed to [saveAttestation]. *)
Lemma post_attestations_saves (uid : string) (payload : SubmitBody) (w : World)
    (bid : string) (onChain : SubmitAttestationResult) (w1 : World) :
  submitsFor uid payload w bid ->
  submitOnChain (anchorParams payload bid w) (beforeAnchoring payload w)
    = (Return onChain, w1) ->
  exists w2,
    post_attestations uid payload w =
      (let* saved := saveAttestation (submittedRecord payload bid onChain w1) in
       ret (SubmitResponse 201 saved (r_txHash onChain))) w2 /\
    localAttestationStore w2 = localAttestationStore w1 /\
    repoState w2 = repoState w1 /\
    uuidsDrawn w2 = S (uuidsDrawn w1) /\
    clockReads w2 =
      match b_timestamp payload with
      | Some _ => S (clockReads w1)
      | None => S (S (clockReads w1))
      end /\
    anchorCalls w2 = anchorCalls w1 /\
    createCalls w2 = createCalls w1.
Proof.
  intros (Hb & Ht & Hf) Hchain.
  unfold post_attestations. unfold bind at 1.
  unfold resolveBusinessIdForUser. fold (businessOfUser uid w).
  rewrite Hb, Ht, Hf. cbn [negb].
  unfold anchorParams, beforeAnchoring in Hchain.
  unfold timestampOrNow, submittedRecord.
  destruct (b_timestamp payload) as [t |].
  - unfold bind at 1. unfold ret at 1. unfold bind at 1. rewrite Hchain.
    eexists. split; [reflexivity |]. now cbn.
  - unfold bind at 1. unfold Date_now at 1. unfold bind at 1. rewrite Hchain.
    eexists. split; [reflexivity |]. now cbn.
Qed.

(** What [saveAttestation] does with a record, on either storage path. *)
Definition handedToStorage (record : RouteAttestation) (w w' : World) : Prop :=
  match repo_create attestationRepository with
  | None => localAttestationStore w' = localAttestationStore w ++ [record]
  | Some _ => createCalls w' = createCalls w ++ [record]
  end.

(** X2.  When the anchoring module loads, exports [submitAttestation] and
    the call returns a transaction, the module has been called once, with
    the resolved business and the payload's period, Merkle root and version;
    one UUID is drawn, for the record's id; the record handed to storage
    (pushed to the in-memory store, or passed to [repo.create]) carries the
    hash of that transaction; and the answer is 201 with that hash, unless
    [repo.create] rejects, in which case the rejection is the outcome. *)
Theorem post_attestations_anchored (uid : string) (payload : SubmitBody) (w : World)
    (bid : string) (res : SubmitAttestationResult) :
  submitsFor uid payload w bid ->
  anchoredResult (importsDone w) (anchorParams payload bid w) = Some res ->
  exists params record w',
    snd (post_attestations uid payload w) = w' /\
    anchorCalls w' = anchorCalls w ++ [params] /\
    p_business params = bid /\
    p_period params = b_period payload /\
    p_merkleRoot params = b_merkleRoot payload /\
    p_version params = b_version payload /\
    uuidsDrawn w' = S (uuidsDrawn w) /\
    id record = randomUUID (uuidsDrawn w) /\
    txHash record = Some (r_txHash res) /\
    handedToStorage record w w' /\
    match repo_create attestationRepository with
    | None =>
        fst (post_attestations uid payload w) =
          Return (SubmitResponse 201 record (r_txHash res))
    | Some create =>
        match fst (create record (repoState w)) with
        | Return saved =>
            fst (post_attestations uid payload w) =
              Return (SubmitResponse 201 saved (r_txHash res))
        | Throw e => fst (post_attestations uid payload w) = Throw e
        end
    end.
Proof.
  intros Hfor Hres.
  pose (w1 := set_anchorCalls
                (anchorCalls (beforeAnchoring payload w) ++ [anchorParams payload bid w])
                (set_importsDone (S (importsDone (beforeAnchoring payload w)))
                   (beforeAnchoring payload w))).
  assert (Hchain : submitOnChain (anchorParams payload bid w) (beforeAnchoring payload w)
                   = (Return res, w1)).
  { apply submitOnChain_anchored.
    unfold beforeAnchoring. now destruct (b_timestamp payload). }
  destruct (post_attestations_saves uid payload w bid res w1 Hfor Hchain)
    as (w2 & Hrun & Hl & Hr & Hu & _ & Ha & Hc).
  exists (anchorParams payload bid w), (submittedRecord payload bid res w1).
  eexists. split; [reflexivity |].
  rewrite Hrun. unfold handedToStorage, bind, saveAttestation, callRepo, ret.
  assert (Hw : anchorCalls (beforeAnchoring payload w) = anchorCalls w /\
               uuidsDrawn (beforeAnchoring payload w) = uuidsDrawn w /\
               localAttestationStore (beforeAnchoring payload w) = localAttestationStore w /\
               createCalls (beforeAnchoring payload w) = createCalls w /\
               repoState (beforeAnchoring payload w) = repoState w).
  { unfold beforeAnchoring. now destruct (b_timestamp payload). }
  destruct Hw as (Hwa & Hwu & Hwl & Hwc & Hwr).
  cbn in Ha, Hu, Hl, Hc, Hr. rewrite Hwa in Ha. rewrite Hwu in Hu.
  rewrite Hwl in Hl. rewrite Hwc in Hc. rewrite Hwr in Hr.
  destruct (repo_create attestationRepository) as [create |].
  - cbn [repoState set_createCalls]. rewrite Hr.
    destruct (create _ (repoState w)) as [[saved | e] s]; cbn;
      rewrite Ha, Hu, Hc, Hwu; repeat split.
  - cbn. rewrite Ha, Hu, Hl, Hwu. repeat split.
Qed.

(** X3.  [payload.timestamp ?? Date.now()] is evaluated twice, once for the
    anchoring call and once for the record, with [new Date()] in between.
    With a timestamp in the payload the record handed to storage carries it,
    the clock is read once, for [attestedAt], and an anchoring call that is
    made (the module loads and exports the function) carries it too.
    Without one the clock is read three times: the anchoring call that is
    made gets the first reading, [attestedAt] the second and the record's
    timestamp the third. *)
Theorem post_attestations_timestamps (uid : string) (payload : SubmitBody) (w : World)
    (bid : string) :
  submitsFor uid payload w bid ->
  exists record w',
    snd (post_attestations uid payload w) = w' /\
    handedToStorage record w w' /\
    match b_timestamp payload with
    | Some t =>
        timestamp record = Some t /\
        attestedAt record = toISOString (clock (clockReads w)) /\
        clockReads w' = S (clockReads w)
    | None =>
        attestedAt record = toISOString (clock (S (clockReads w))) /\
        timestamp record = Some (clock (S (S (clockReads w)))) /\
        clockReads w' = S (S (S (clockReads w)))
    end /\
    forall module f,
      importSoroban (importsDone w) = Return module ->
      submitAttestation module = Some f ->
      exists params,
        anchorCalls w' = anchorCalls w ++ [params] /\
        p_timestamp params =
          match b_timestamp payload with
          | Some t => t
          | None => clock (clockReads w)
          end.
Proof.
  intros Hfor.
  destruct (submitOnChain (anchorParams payload bid w) (beforeAnchoring payload w))
    as [outcome w1] eqn:Hchain.
  destruct (submitOnChain_frame (anchorParams payload bid w) (beforeAnchoring payload w))
    as (onChain & w1' & Hchain' & Hl1 & Hr1 & _ & Hc1 & Hcc1 & _).
  rewrite Hchain in Hchain'. injection Hchain' as -> <-.
  destruct (post_attestations_saves uid payload w bid onChain w1 Hfor Hchain)
    as (w2 & Hrun & Hl & Hr & _ & Hc & Ha & Hcc).
  exists (submittedRecord payload bid onChain w1). eexists.
  split; [reflexivity |].
  rewrite Hrun. unfold handedToStorage, bind, saveAttestation, callRepo, ret.
  assert (Hw : localAttestationStore (beforeAnchoring payload w) = localAttestationStore w /\
               createCalls (beforeAnchoring payload w) = createCalls w /\
               anchorCalls (beforeAnchoring payload w) = anchorCalls w /\
               importsDone (beforeAnchoring payload w) = importsDone w /\
               clockReads (beforeAnchoring payload w) =
                 match b_timestamp payload with
                 | Some _ => clockReads w
                 | None => S (clockReads w)
                 end).
  { unfold beforeAnchoring. now destruct (b_timestamp payload). }
  destruct Hw as (Hwl & Hwc & Hwa & Hwi & Hwr).
  rewrite Hwl in Hl1. rewrite Hwc in Hcc1. rewrite Hwr in Hc1.
  assert (Hanchor : forall module f,
             importSoroban (importsDone w) = Return module ->
             submitAttestation module = Some f ->
             anchorCalls w1 = anchorCalls w ++ [anchorParams payload bid w]).
  { intros module f Hm Hf. unfold submitOnChain in Hchain.
    rewrite Hwi, Hm, Hf in Hchain.
    destruct (f (anchorParams payload bid w)) as [res | e].
    - injection Hchain as _ <-. cbn. now rewrite Hwa.
    - unfold pendingTxHash, bind, call_randomUUID, ret in Hchain.
      injection Hchain as _ <-. cbn. now rewrite Hwa. }
  split; [| split].
  - destruct (repo_create attestationRepository) as [create |].
    + destruct (create _ _) as [[saved | e] s]; cbn; now rewrite Hcc, Hcc1.
    + cbn. now rewrite Hl, Hl1.
  - assert (Hreads : clockReads
                       (snd (match repo_create attestationRepository with
                             | Some f =>
                                 fun w0 : World =>
                                   let (r, s) :=
                                     f (submittedRecord payload bid onChain w1)
                                       (repoState
                                          (set_createCalls
                                             (createCalls w0 ++
                                              [submittedRecord payload bid onChain w1]) w0)) in
                                   (r, set_repoState s
                                         (set_createCalls
                                            (createCalls w0 ++
                                             [submittedRecord payload bid onChain w1]) w0))
                             | None =>
                                 fun w0 : World =>
                                   (Return (submittedRecord payload bid onChain w1),
                                    set_localAttestationStore
                                      (localAttestationStore w0 ++
                                       [submittedRecord payload bid onChain w1]) w0)
                             end w2)) = clockReads w2).
    { destruct (repo_create attestationRepository) as [create |]; [| reflexivity].
      cbn. now destruct (create _ _). }
    unfold submittedRecord. cbn [timestamp attestedAt].
    destruct (repo_create attestationRepository) as [create |].
    + destruct (create _ _) as [[saved | e] s]; cbn;
        destruct (b_timestamp payload); rewrite ?Hc, ?Hc1; repeat split.
    + cbn. destruct (b_timestamp payload); rewrite ?Hc, ?Hc1; repeat split.
  - intros module f Hm Hf. exists (anchorParams payload bid w).
    split; [| reflexivity].
    rewrite <- (Hanchor module f Hm Hf), <- Ha.
    destruct (repo_create attestationRepository) as [create |]; [| reflexivity].
    cbn. now destruct (create _ _) as [[saved | e] s].
Qed.

(** *** Lookup after a write *)

Lemma find_head_filter {A : Type} (p : A -> bool) (l : list A) :
  List.find p l = hd_error (List.filter p l).
Proof.
  induction l as [| x l IH]; cbn; [reflexivity |].
  now destruct (p x).
Qed.

Lemma filter_comm {A : Type} (p q : A -> bool) (l : list A) :
  List.filter p (List.filter q l) = List.filter q (List.filter p l).
Proof.
  induction l as [| x l IH]; cbn; [reflexivity |].
  destruct (p x) eqn:Ep, (q x) eqn:Eq; cbn; rewrite ?Ep, ?Eq, IH; reflexivity.
Qed.

(** The latest record with an id in a list that holds one such record. *)
Lemma latestById_single (aid : string) (l : list RouteAttestation)
    (r : RouteAttestation) :
  List.filter (fun x => String.eqb (id x) aid) l = [r] -> latestById aid l = Some r.
Proof.
  intros Hone. unfold latestById.
  now rewrite find_head_filter, List.filter_rev, Hone.
Qed.

Lemma latestById_app (aid : string) (l1 l2 : list RouteAttestation) :
  latestById aid (l1 ++ l2) =
  match latestById aid l2 with
  | Some r => Some r
  | None => latestById aid l1
  end.
Proof. unfold latestById. now rewrite rev_app_distr, find_app. Qed.

(** Without [repo.getById], [getById] returns the latest record with the id
    among the repository's listing followed by the in-memory records of the
    business. *)
Lemma getById_latest (aid bid : string) (w : World)
    (storeItems : list RouteAttestation) :
  repo_getById attestationRepository = None ->
  repositoryItemsOf bid (repoState w) = Return storeItems ->
  getById aid bid w = (Return (latestById aid (storeItems ++ localItemsOf bid w)), w).
Proof.
  intros Hg Hrepo. unfold getById, bind, ret. rewrite Hg.
  destruct (listByBusinessId_latest bid aid w storeItems Hrepo)
    as (items & Hrun & _ & Hid).
  rewrite Hrun, find_head_filter, Hid.
  now destruct (latestById aid (storeItems ++ localItemsOf bid w)).
Qed.

(** What a [POST /] that answers has done, without [repo.create]. *)
Lemma post_attestations_stored (uid : string) (payload : SubmitBody) (w w' : World)
    (resp : Response) :
  repo_create attestationRepository = None ->
  post_attestations uid payload w = (Return resp, w') ->
  exists bid record tx,
    submitsFor uid payload w bid /\
    resp = SubmitResponse 201 record tx /\
    businessId record = bid /\
    localAttestationStore w' = localAttestationStore w ++ [record] /\
    repoState w' = repoState w /\
    businesses w' = businesses w.
Proof.
  intros Hcreate Hrun.
  destruct (nullish (b_businessId payload) (businessOfUser uid w)) as [bid |] eqn:Hb.
  2: { unfold post_attestations, bind, resolveBusinessIdForUser in Hrun.
       fold (businessOfUser uid w) in Hrun. now rewrite Hb in Hrun. }
  destruct (truthy bid) eqn:Ht.
  2: { unfold post_attestations, bind, resolveBusinessIdForUser in Hrun.
       fold (businessOfUser uid w) in Hrun. now rewrite Hb, Ht in Hrun. }
  destruct (submitsForAnotherBusiness payload (businessOfUser uid w)) eqn:Hf.
  { unfold post_attestations, bind, resolveBusinessIdForUser in Hrun.
    fold (businessOfUser uid w) in Hrun. now rewrite Hb, Ht, Hf in Hrun. }
  destruct (submitOnChain_frame (anchorParams payload bid w) (beforeAnchoring payload w))
    as (onChain & w1 & Hchain & Hl & Hr & Hbs & _).
  destruct (post_attestations_local uid payload w bid onChain w1 Hcreate
              (conj Hb (conj Ht Hf)) Hchain)
    as (w'' & Hrun' & Hl' & Hr' & Hbs' & _).
  rewrite Hrun' in Hrun. injection Hrun as <- <-.
  exists bid, (submittedRecord payload bid onChain w1), (r_txHash onChain).
  split; [now repeat split |]. do 2 (split; [reflexivity |]).
  rewrite Hl', Hr', Hbs', Hl, Hr, Hbs.
  unfold beforeAnchoring. now destruct (b_timestamp payload).
Qed.

(** The business a submit is made for, when the caller owns one. *)
Lemma submitsFor_own (uid : string) (payload : SubmitBody) (w : World)
    (bid own : string) :
  submitsFor uid payload w bid ->
  businessOfUser uid w = Some own -> truthy own = true -> bid = own.
Proof.
  intros (Hb & Ht & Hf) Hown Htown. rewrite Hown in Hb, Hf.
  unfold nullish in Hb. unfold submitsForAnotherBusiness in Hf.
  destruct (b_businessId payload) as [pb |]; [| congruence].
  injection Hb as ->. rewrite Ht, Htown in Hf. cbn in Hf.
  destruct (String.eqb bid own) eqn:E; [| discriminate].
  now apply String.eqb_eq.
Qed.

(** X4.  What [POST /] stored, [GET /:id] returns: without [repo.create]
    and [repo.getById], a caller who owns a business and gets a 201 with a
    record gets that very record from [GET /:id] under the record's id. *)
Theorem post_then_get_attestation (uid : string) (payload : SubmitBody)
    (w w' : World) (own : string) (record : RouteAttestation) (tx : string)
    (storeItems : list RouteAttestation) :
  repo_create attestationRepository = None ->
  repo_getById attestationRepository = None ->
  businessOfUser uid w = Some own ->
  truthy own = true ->
  repositoryItemsOf own (repoState w) = Return storeItems ->
  post_attestations uid payload w = (Return (SubmitResponse 201 record tx), w') ->
  truthy (id record) = true ->
  get_attestation uid (id record) w' = (Return (AttestationResponse 200 record), w').
Proof.
  intros Hcreate Hget Hown Htown Hrepo Hpost Hid.
  destruct (post_attestations_stored uid payload w w' _ Hcreate Hpost)
    as (bid & record' & tx' & Hfor & Hresp & Hbid & Hl & Hr & Hbs).
  injection Hresp as <- <-.
  pose proof (submitsFor_own uid payload w bid own Hfor Hown Htown) as ->.
  assert (Hown' : businessOfUser uid w' = Some own).
  { unfold businessOfUser in *. now rewrite Hbs. }
  rewrite (get_attestation_run uid (id record) own w' Hid Hown' Htown).
  rewrite <- Hr in Hrepo.
  rewrite (getById_latest (id record) own w' storeItems Hget Hrepo).
  assert (Hlatest : latestById (id record) (storeItems ++ localItemsOf own w')
                    = Some record).
  { unfold localItemsOf. rewrite Hl, List.filter_app. cbn [List.filter].
    rewrite Hbid, String.eqb_refl, app_assoc. rewrite latestById_app.
    unfold latestById at 1. cbn. now rewrite String.eqb_refl. }
  now rewrite Hlatest.
Qed.

(** *** Lookup after a revoke *)

Lemma filter_insert_single {A : Type} (p : A -> bool) (l : list A) (i : nat)
    (x y : A) :
  l !! i = Some x -> p y = true ->
  List.filter p l = [x] -> List.filter p (<[i := y]> l) = [y].
Proof.
  intros Hx Hy Hone.
  assert (Hpx : p x = true).
  { assert (Hin : In x (List.filter p l)) by (rewrite Hone; now left).
    now apply List.filter_In in Hin. }
  rewrite insert_take_drop by now apply lookup_lt_Some in Hx.
  rewrite <- (take_drop_middle l i x Hx) in Hone.
  rewrite List.filter_app in *. cbn [List.filter] in *. rewrite Hpx in Hone. rewrite Hy.
  destruct (List.filter p (take i l)) as [| a l1].
  - cbn in *. now injection Hone as ->.
  - cbn in Hone. injection Hone as _ Hone.
    now destruct l1.
Qed.

Lemma findIndex_single {A : Type} (p : A -> bool) (l : list A) (x : A) :
  List.filter p l = [x] -> exists i, findIndex p l = Some i /\ l !! i = Some x.
Proof.
  induction l as [| y l IH]; cbn; [discriminate |].
  destruct (p y) eqn:E.
  - intros [= -> _]. now exists 0%nat.
  - intros Hone. destruct (IH Hone) as (i & Hi & Hx).
    exists (S i). now rewrite Hi.
Qed.

(** X5.  What a revoke rewrote, [GET /:id] returns: without [repo.revoke]
    and [repo.getById], when the in-memory store holds exactly one record
    with the id and it is a record of the caller's business, the revoke
    answers 200 with the record revoked, and [GET /:id] then answers with
    that same record. *)
Theorem revoke_then_get_attestation (uid aid bid : string) (reason : option string)
    (w : World) (old : RouteAttestation) (storeItems : list RouteAttestation) :
  repo_revoke attestationRepository = None ->
  repo_getById attestationRepository = None ->
  truthy aid = true ->
  businessOfUser uid w = Some bid ->
  truthy bid = true ->
  repositoryItemsOf bid (repoState w) = Return storeItems ->
  List.filter (fun r => String.eqb (id r) aid) (localAttestationStore w) = [old] ->
  businessId old = bid ->
  exists r w',
    handleRevoke uid aid reason w = (Return (AttestationResponse 200 r), w') /\
    r = spread_revoked old (toISOString (clock (clockReads w))) /\
    get_attestation uid aid w' = (Return (AttestationResponse 200 r), w').
Proof.
  intros Hrev Hget Ha Hown Ht Hrepo Hone Hbid.
  set (idp := fun r : RouteAttestation => String.eqb (id r) aid) in *.
  set (bidp := fun item : RouteAttestation => String.eqb (businessId item) bid).
  assert (Hidold : idp old = true).
  { assert (Hin : In old (List.filter idp (localAttestationStore w)))
      by (rewrite Hone; now left).
    now apply List.filter_In in Hin. }
  destruct (findIndex_single idp _ old Hone) as (index & Hidx & Hold).
  assert (Hlatest : forall l r,
             List.filter idp l = [r] -> bidp r = true ->
             latestById aid (storeItems ++ List.filter bidp l) = Some r).
  { intros l r Hl Hb. rewrite latestById_app.
    rewrite (latestById_single aid (List.filter bidp l) r); [reflexivity |].
    fold idp. rewrite filter_comm, Hl. cbn. now rewrite Hb. }
  assert (Hbold : bidp old = true) by (unfold bidp; rewrite Hbid; apply String.eqb_refl).
  pose proof (getById_latest aid bid w storeItems Hget Hrepo) as Hfound.
  unfold localItemsOf in Hfound. fold bidp in Hfound.
  rewrite (Hlatest _ old Hone Hbold) in Hfound.
  pose proof (handleRevoke_local uid aid bid reason w old old index
                Hrev Ha Hown Ht Hfound Hidx Hold) as Hrun.
  eexists _, _. split; [exact Hrun |]. split; [reflexivity |].
  set (r := spread_revoked old (toISOString (clock (clockReads w)))).
  set (w' := set_localAttestationStore _ _).
  rewrite (get_attestation_run uid aid bid w' Ha Hown Ht).
  rewrite (getById_latest aid bid w' storeItems Hget Hrepo).
  unfold localItemsOf. fold bidp. cbn [w' localAttestationStore set_localAttestationStore].
  rewrite (Hlatest _ r); [reflexivity | |].
  - now apply (filter_insert_single idp _ index old r).
  - exact Hbold.
Qed.

(** *** The listing *)

Lemma keyedById_ids (m : list (string * RouteAttestation)) :
  keyedById m -> map id (Map_values m) = map fst m.
Proof.
  intros [_ Hid]. unfold Map_values. rewrite map_map.
  apply map_ext_in. intros kv Hin.
  rewrite List.Forall_forall in Hid. now apply Hid.
Qed.

Lemma dedupeById_NoDup (merged : list RouteAttestation) :
  List.NoDup (map id (dedupeById merged)).
Proof.
  unfold dedupeById.
  assert (Hk : keyedById (fold_left (fun m item => Map_set (id item) item m) merged [])).
  { apply fill_keyedById. split; constructor. }
  rewrite (keyedById_ids _ Hk). apply Hk.
Qed.

(** X6.  In a listing no two records have the same id, and the records
    listed are exactly the latest versions, one for each id that occurs in
    the repository's listing or among the in-memory records of the
    business. *)
Theorem listByBusinessId_unique_ids (bid : string) (w : World)
    (storeItems : list RouteAttestation) :
  repositoryItemsOf bid (repoState w) = Return storeItems ->
  exists items,
    listByBusinessId bid w = (Return items, w) /\
    List.NoDup (map id items) /\
    (forall r,
        In r items <->
        latestById (id r) (storeItems ++ localItemsOf bid w) = Some r) /\
    (forall r,
        In r (storeItems ++ localItemsOf bid w) ->
        exists r', In r' items /\ id r' = id r).
Proof.
  intros Hrepo.
  destruct (listByBusinessId_latest bid "" w storeItems Hrepo) as (items & Hrun & Hperm & _).
  exists items. split; [exact Hrun |].
  assert (Hid : forall aid,
             List.filter (fun r => String.eqb (id r) aid) items =
             match latestById aid (storeItems ++ localItemsOf bid w) with
             | Some r => [r]
             | None => []
             end).
  { intros aid.
    destruct (listByBusinessId_latest bid aid w storeItems Hrepo) as (items' & Hrun' & _ & H).
    rewrite Hrun in Hrun'. now injection Hrun' as <-. }
  split; [| split].
  - apply (Permutation_NoDup (l := map id (dedupeById (storeItems ++ localItemsOf bid w)))).
    + apply Permutation_map. now symmetry.
    + apply dedupeById_NoDup.
  - intros r. split.
    + intros Hin.
      assert (Hf : In r (List.filter (fun x => String.eqb (id x) (id r)) items)).
      { apply List.filter_In. split; [assumption | apply String.eqb_refl]. }
      rewrite Hid in Hf.
      destruct (latestById (id r) _) as [r' |]; [| destruct Hf].
      now destruct Hf as [-> | []].
    + intros Hl.
      assert (Hf : In r (List.filter (fun x => String.eqb (id x) (id r)) items)).
      { rewrite Hid, Hl. now left. }
      now apply List.filter_In in Hf.
  - intros r Hin.
    destruct (latestById (id r) (storeItems ++ localItemsOf bid w)) as [r' |] eqn:Hl.
    + exists r'.
      assert (Hf : In r' (List.filter (fun x => String.eqb (id x) (id r)) items)).
      { rewrite Hid, Hl. now left. }
      apply List.filter_In in Hf as [Hin' Heq]. now apply String.eqb_eq in Heq.
    + exfalso. unfold latestById in Hl.
      pose proof (find_none _ _ Hl r (proj1 (in_rev _ _) Hin)) as Hn.
      cbn in Hn. now rewrite String.eqb_refl in Hn.
Qed.

(** *** What [GET /] returns *)

Lemma AttestationStatus_eqb_eq (a b : AttestationStatus) :
  AttestationStatus_eqb a b = true -> a = b.
Proof. now destruct a, b. Qed.

(** What the filter of [GET /] lets through. *)
Lemma matchesQuery_true (query : ListQuery) (r : RouteAttestation) :
  matchesQuery query r = true ->
  (forall p, q_period query = Some p -> truthy p = true -> period r = p) /\
  (forall s, q_status query = Some s -> default submitted (status r) = s).
Proof.
  unfold matchesQuery. intros H. split.
  - intros p Hp Ht. rewrite Hp, Ht in H. cbn in H.
    destruct (String.eqb (period r) p) eqn:E; [| discriminate].
    now apply String.eqb_eq.
  - intros s Hs. rewrite Hs in H.
    destruct (match q_period query with
              | Some p => truthy p && negb (String.eqb (period r) p)
              | None => false
              end); [discriminate |].
    destruct (AttestationStatus_eqb (default submitted (status r)) s) eqn:E;
      [| discriminate].
    now apply AttestationStatus_eqb_eq.
Qed.

Lemma In_Array_slice {A : Type} (l : list A) (start stop : Z) (x : A) :
  In x (Array_slice l start stop) -> In x l.
Proof.
  unfold Array_slice. intros Hin.
  set (k := Z.to_nat (slice_index (Z.of_nat (length l)) start)) in *.
  set (n := Z.to_nat _) in Hin.
  rewrite <- (firstn_skipn k l). apply in_or_app. right.
  rewrite <- (firstn_skipn n (skipn k l)). apply in_or_app. now left.
Qed.

(** X7.  [GET /] answers with at most [limit] records, each of them a
    record of the business asked for that passes the filters of the query:
    its period is the query's when the query has one, and its status, read
    as [submitted] when the record has none, is the query's when the query
    has one. *)
Theorem get_attestations_items (uid : string) (query : ListQuery) (w : World)
    (bid : string) (storeItems : list RouteAttestation) :
  listQuerySchema query = true ->
  listsByBusiness ->
  nullish (q_businessId query) (businessOfUser uid w) = Some bid ->
  truthy bid = true ->
  repositoryItemsOf bid (repoState w) = Return storeItems ->
  exists items pg,
    get_attestations uid query w = (Return (ListResponse 200 items pg), w) /\
    Z.of_nat (length items) <= q_limit query /\
    forall r,
      In r items ->
      businessId r = bid /\
      In r (storeItems ++ localItemsOf bid w) /\
      (forall p, q_period query = Some p -> truthy p = true -> period r = p) /\
      (forall s, q_status query = Some s -> default submitted (status r) = s).
Proof.
  intros Hs Hscoped Hb Ht Hrepo. drop_unused_collaborators.
  unfold listQuerySchema in Hs.
  apply andb_prop in Hs as [Hs Hmax]. apply andb_prop in Hs as [Hpage Hlimit].
  apply Z.leb_le in Hpage, Hlimit.
  pose proof (listByBusinessId_run bid w) as Hrun. rewrite Hrepo in Hrun.
  fold (localItemsOf bid w) in Hrun.
  eexists _, _. split; [apply (get_attestations_run uid query w bid _ Hb Ht Hrun) |].
  split.
  - rewrite Array_slice_window by nia.
    pose proof (firstn_le_length (Z.to_nat (q_limit query))
                  (skipn (Z.to_nat ((q_page query - 1) * q_limit query))
                     (List.filter (matchesQuery query)
                        (Array_sort byAttestedAtDesc
                           (dedupeById (storeItems ++ localItemsOf bid w)))))).
    lia.
  - intros r Hin. apply In_Array_slice, List.filter_In in Hin as [Hin Hmatch].
    apply (Permutation_in _ (Array_sort_Permutation _ _)) in Hin.
    apply dedupeById_In in Hin.
    split; [| split; [exact Hin | now apply matchesQuery_true]].
    apply in_app_or in Hin as [Hin | Hin].
    + apply Hscoped in Hrepo. rewrite List.Forall_forall in Hrepo. auto.
    + apply List.filter_In in Hin as [_ Hin]. now apply String.eqb_eq.
Qed.

(** X8.  The pages of [GET /] are full up to the last one: a page before
    [totalPages] holds exactly [limit] records, and page [totalPages] of a
    non-empty result holds the rest, at least one. *)
Theorem get_attestations_page_sizes (uid : string) (query : ListQuery) (w : World)
    (bid : string) (allItems : list RouteAttestation) :
  listQuerySchema query = true ->
  nullish (q_businessId query) (businessOfUser uid w) = Some bid ->
  truthy bid = true ->
  listByBusinessId bid w = (Return allItems, w) ->
  exists items pg,
    get_attestations uid query w = (Return (ListResponse 200 items pg), w) /\
    (q_page query < pg_totalPages pg ->
     Z.of_nat (length items) = q_limit query) /\
    (q_page query = pg_totalPages pg -> 0 < pg_total pg ->
     1 <= Z.of_nat (length items) /\
     Z.of_nat (length items) = pg_total pg - (q_page query - 1) * q_limit query).
Proof.
  intros Hs Hb Ht Hl. drop_unused_collaborators.
  unfold listQuerySchema in Hs.
  apply andb_prop in Hs as [Hs Hmax]. apply andb_prop in Hs as [Hpage Hlimit].
  apply Z.leb_le in Hpage, Hlimit.
  eexists _, _. split; [apply (get_attestations_run uid query w bid allItems); assumption |].
  cbn [pg_total pg_totalPages].
  set (filtered := List.filter (matchesQuery query) allItems).
  pose proof (Math_ceil_div_is_ceiling (Z.of_nat (length filtered)) (q_limit query)
                ltac:(lia)) as Hc.
  unfold is_ceiling in Hc.
  rewrite Array_slice_window by nia.
  rewrite length_firstn, length_skipn.
  split; [intros Hbefore | intros Hlast Hsome]; nia.
Qed.

(** *** Requests that fail *)

(** X9.  A revoke of a record that the caller's listing shows but the
    in-memory store does not hold (it is known to the repository only), on
    a repository without [revoke], answers 500 [REVOKE_FAILED] and changes
    nothing. *)
Theorem handleRevoke_repository_record (uid aid bid : string)
    (reason : option string) (w : World) (found : RouteAttestation) :
  repo_revoke attestationRepository = None ->
  truthy aid = true ->
  businessOfUser uid w = Some bid ->
  truthy bid = true ->
  getById aid bid w = (Return (Some found), w) ->
  (forall r, In r (localAttestationStore w) -> id r <> aid) ->
  handleRevoke uid aid reason w =
  (Throw (createHttpError 500 "REVOKE_FAILED" "Failed to revoke attestation"), w).
Proof.
  intros Hrev Ha Hb Ht Hget Hlocal.
  rewrite (handleRevoke_run uid aid bid reason w Ha Hb Ht), Hget.
  unfold revokeAttestation. rewrite Hrev.
  rewrite findIndex_None; [reflexivity |].
  intros r Hin. destruct (String.eqb (id r) aid) eqn:E; [| reflexivity].
  apply String.eqb_eq in E. now destruct (Hlocal r Hin).
Qed.

Lemma revokeAttestation_world (aid : string) (reason : option string) (w w' : World)
    (e : Thrown) :
  repo_revoke attestationRepository = None ->
  revokeAttestation aid reason w <> (Throw e, w').
Proof.
  intros Hrev. unfold revokeAttestation. rewrite Hrev.
  destruct (findIndex _ _) as [index |]; [| discriminate].
  destruct (localAttestationStore w !! index); discriminate.
Qed.

Lemma revokeAttestation_None (aid : string) (reason : option string) (w w' : World) :
  repo_revoke attestationRepository = None ->
  revokeAttestation aid reason w = (Return None, w') -> w' = w.
Proof.
  intros Hrev. unfold revokeAttestation. rewrite Hrev.
  destruct (findIndex _ _) as [index |]; [| now intros [= <-]].
  destruct (localAttestationStore w !! index); [discriminate | now intros [= <-]].
Qed.

(** X10.  A request that fails has changed nothing, as long as the routes
    write to the in-memory store themselves: the two reads never change
    anything, a [POST /] that throws (without [repo.create]) and a revoke
    that throws (without [repo.revoke]) leave the stores, the counters and
    the logs as they were. *)
Theorem routes_fail_clean (uid : string) (w : World) :
  (forall query, snd (get_attestations uid query w) = w) /\
  (forall idParam, snd (get_attestation uid idParam w) = w) /\
  (forall payload e w',
      repo_create attestationRepository = None ->
      post_attestations uid payload w = (Throw e, w') -> w' = w) /\
  (forall idParam reason e w',
      repo_revoke attestationRepository = None ->
      handleRevoke uid idParam reason w = (Throw e, w') -> w' = w).
Proof.
  split; [| split; [| split]].
  - intros query. unfold get_attestations, bind, ret, throw, resolveBusinessIdForUser.
    destruct (q_businessId query) as [b |].
    + destruct (negb (truthy b)); [reflexivity |].
      rewrite listByBusinessId_run.
      now destruct (repositoryItemsOf b (repoState w)).
    + destruct (option_map _ _) as [b |]; [| reflexivity].
      destruct (negb (truthy b)); [reflexivity |].
      rewrite listByBusinessId_run.
      now destruct (repositoryItemsOf b (repoState w)).
  - intros idParam. unfold get_attestation, parseIdParam, bind, resolveBusinessIdForUser.
    destruct (truthy idParam); [| reflexivity]. unfold ret at 1, throw.
    destruct (option_map _ _) as [b |]; [| reflexivity].
    destruct (negb (truthy b)); [reflexivity |].
    pose proof (getById_world idParam b w) as Hw.
    destruct (getById idParam b w) as [[[a |] | e] w0]; cbn in *; assumption.
  - intros payload e w' Hcreate Hrun.
    destruct (nullish (b_businessId payload) (businessOfUser uid w)) as [bid |] eqn:Hb.
    2: { unfold post_attestations, bind, resolveBusinessIdForUser, throw in Hrun.
         fold (businessOfUser uid w) in Hrun. rewrite Hb in Hrun. congruence. }
    destruct (truthy bid) eqn:Ht.
    2: { unfold post_attestations, bind, resolveBusinessIdForUser, throw in Hrun.
         fold (businessOfUser uid w) in Hrun. rewrite Hb, Ht in Hrun. cbn in Hrun.
         congruence. }
    destruct (submitsForAnotherBusiness payload (businessOfUser uid w)) eqn:Hf.
    { unfold post_attestations, bind, resolveBusinessIdForUser, throw in Hrun.
      fold (businessOfUser uid w) in Hrun. rewrite Hb, Ht, Hf in Hrun. cbn in Hrun.
      congruence. }
    destruct (submitOnChain_frame (anchorParams payload bid w) (beforeAnchoring payload w))
      as (onChain & w1 & Hchain & _).
    destruct (post_attestations_local uid payload w bid onChain w1 Hcreate
                (conj Hb (conj Ht Hf)) Hchain) as (w'' & Hrun' & _).
    rewrite Hrun' in Hrun. discriminate.
  - intros idParam reason e w' Hrev.
    unfold handleRevoke, parseIdParam, bind, resolveBusinessIdForUser.
    destruct (truthy idParam); [| unfold throw; congruence].
    unfold ret at 1, throw.
    destruct (option_map _ _) as [b |]; [| congruence].
    destruct (negb (truthy b)); [congruence |].
    pose proof (getById_world idParam b w) as Hw.
    destruct (getById idParam b w) as [[[a |] | e0] w0]; cbn in Hw; subst w0;
      [| congruence | congruence].
    destruct (revokeAttestation idParam reason w) as [[[r |] | e0] w0] eqn:Hr.
    + discriminate.
    + apply (revokeAttestation_None _ _ _ _ Hrev) in Hr. congruence.
    + now destruct (revokeAttestation_world idParam reason w w0 e0 Hrev).
Qed.

(** X11.  The order of the checks on the routes that take an id: an empty
    id is refused with 400 whoever asks, and a caller who owns no business
    gets 404 [BUSINESS_NOT_FOUND] for any other id, whether or not a record
    has it; the same caller gets that 404 from [GET /] and [POST /] when the
    request names no business. *)
Theorem routes_without_business (uid : string) (w : World) :
  businessOfUser uid w = None ->
  (forall reason,
      get_attestation uid "" w =
        (Throw (createHttpError 400 "VALIDATION_ERROR" "Invalid attestation id"), w) /\
      handleRevoke uid "" reason w =
        (Throw (createHttpError 400 "VALIDATION_ERROR" "Invalid attestation id"), w)) /\
  (forall idParam reason,
      truthy idParam = true ->
      get_attestation uid idParam w = (Throw businessNotFound, w) /\
      handleRevoke uid idParam reason w = (Throw businessNotFound, w)) /\
  (forall query,
      q_businessId query = None ->
      get_attestations uid query w = (Throw businessNotFound, w)) /\
  (forall payload,
      b_businessId payload = None ->
      post_attestations uid payload w = (Throw businessNotFound, w)).
Proof.
  intros Hnone. unfold businessOfUser in Hnone.
  split; [| split; [| split]].
  - intros reason. split; reflexivity.
  - intros idParam reason Hid.
    unfold get_attestation, handleRevoke, parseIdParam, bind, resolveBusinessIdForUser.
    rewrite Hid. unfold ret. now rewrite Hnone.
  - intros query Hq. unfold get_attestations, bind, resolveBusinessIdForUser.
    now rewrite Hq, Hnone.
  - intros payload Hp. unfold post_attestations, bind, resolveBusinessIdForUser.
    now rewrite Hnone, Hp.
Qed.

(** ** [src/repositories/business.ts]: the writes *)

Definition set_businesses (l : list BusinessRepository.Business) (w : World) : World :=
  {| localAttestationStore := localAttestationStore w; repoState := repoState w;
     businesses := l; uuidsDrawn := uuidsDrawn w;
     clockReads := clockReads w; importsDone := importsDone w;
     anchorCalls := anchorCalls w; createCalls := createCalls w |}.

(** [Omit<Business, 'id' | 'createdAt'>] *)
Record NewBusiness := {
  new_userId : string;
  new_name : string;
  new_email : string;
  new_industry : option string;
  new_description : option string;
  new_website : option string;
}.

(** [businessRepository.create]: the id is drawn before the clock is read,
    in the order of the object literal. *)
Definition businessRepository_create (data : NewBusiness)
  : Async BusinessRepository.Business :=
  let* newId := call_randomUUID in
  let* now := new_Date_toISOString in
  fun w =>
    let business :=
      {| BusinessRepository.id := newId;
         BusinessRepository.userId := new_userId data;
         BusinessRepository.name := new_name data;
         BusinessRepository.email := new_email data;
         BusinessRepository.industry := new_industry data;
         BusinessRepository.description := new_description data;
         BusinessRepository.website := new_website data;
         BusinessRepository.createdAt := now |} in
    (Return business, set_businesses (businesses w ++ [business]) w).

(** [Partial<Business>]: a key is absent ([None]) or holds a value; for the
    optional fields of [Business] the value may be [undefined]. *)
Record BusinessPatch := {
  patch_id : option string;
  patch_userId : option string;
  patch_name : option string;
  patch_email : option string;
  patch_industry : option (option string);
  patch_description : option (option string);
  patch_website : option (option string);
  patch_createdAt : option string;
}.

(** One field of [{...old, ...data}]. *)
Definition spread_field {A : Type} (old : A) (patch : option A) : A :=
  match patch with
  | Some v => v
  | None => old
  end.

(** [{...businesses[idx], ...data}] *)
Definition spread_patch (old : BusinessRepository.Business) (data : BusinessPatch)
  : BusinessRepository.Business :=
  {| BusinessRepository.id := spread_field (BusinessRepository.id old) (patch_id data);
     BusinessRepository.userId :=
       spread_field (BusinessRepository.userId old) (patch_userId data);
     BusinessRepository.name :=
       spread_field (BusinessRepository.name old) (patch_name data);
     BusinessRepository.email :=
       spread_field (BusinessRepository.email old) (patch_email data);
     BusinessRepository.industry :=
       spread_field (BusinessRepository.industry old) (patch_industry data);
     BusinessRepository.description :=
       spread_field (BusinessRepository.description old) (patch_description data);
     BusinessRepository.website :=
       spread_field (BusinessRepository.website old) (patch_website data);
     BusinessRepository.createdAt :=
       spread_field (BusinessRepository.createdAt old) (patch_createdAt data) |}.

(** [businessRepository.update] *)
Definition businessRepository_update (bid : string) (data : BusinessPatch)
  : Async (option BusinessRepository.Business) :=
  fun w =>
    match findIndex (fun b => String.eqb (BusinessRepository.id b) bid)
            (businesses w) with
    | None => (Return None, w)
    | Some idx =>
        match businesses w !! idx with
        | None => (Return None, w)
        | Some old =>
            let business := spread_patch old data in
            (Return (Some business),
             set_businesses (<[idx := business]> (businesses w)) w)
        end
    end.

(** [find] returns the first element that satisfies the test. *)
Lemma find_first {A : Type} (p : A -> bool) (l : list A) :
  match List.find p l with
  | Some x =>
      exists l1 l2, l = l1 ++ x :: l2 /\ p x = true /\
                    Forall (fun y => p y = false) l1
  | None => Forall (fun y => p y = false) l
  end.
Proof.
  induction l as [| y l IH]; cbn; [constructor |].
  destruct (p y) eqn:E.
  - exists [], l. repeat split; [assumption | constructor].
  - destruct (List.find p l) as [x |].
    + destruct IH as (l1 & l2 & -> & Hx & Hl1).
      exists (y :: l1), l2. repeat split; [assumption | now constructor].
    + now constructor.
Qed.

(** X12.  The business the routes act for is the first one in the
    repository whose [userId] is the caller's; when there is none the
    routes resolve to [null].  Resolving changes nothing. *)
Theorem resolveBusinessIdForUser_first (uid : string) (w : World) :
  exists resolved,
    resolveBusinessIdForUser uid w = (Return resolved, w) /\
    match resolved with
    | Some bid =>
        exists earlier b later,
          businesses w = earlier ++ b :: later /\
          BusinessRepository.userId b = uid /\
          BusinessRepository.id b = bid /\
          Forall (fun b' => BusinessRepository.userId b' <> uid) earlier
    | None =>
        Forall (fun b' => BusinessRepository.userId b' <> uid) (businesses w)
    end.
Proof.
  eexists. split; [reflexivity |].
  unfold BusinessRepository.findByUserId.
  pose proof (find_first (fun b => String.eqb (BusinessRepository.userId b) uid)
                (businesses w)) as Hfind.
  assert (Hne : forall l,
             Forall (fun y => String.eqb (BusinessRepository.userId y) uid = false) l ->
             Forall (fun b' => BusinessRepository.userId b' <> uid) l).
  { intros l. apply List.Forall_impl. intros b Hb Heq. subst.
    now rewrite String.eqb_refl in Hb. }
  destruct (List.find _ (businesses w)) as [b |]; cbn [option_map].
  - destruct Hfind as (l1 & l2 & Hl & Hb & Hl1).
    exists l1, b, l2. apply String.eqb_eq in Hb. auto.
  - auto.
Qed.

Lemma businessRepository_create_run (data : NewBusiness) (w : World) :
  businessRepository_create data w =
  (Return
     {| BusinessRepository.id := randomUUID (uuidsDrawn w);
        BusinessRepository.userId := new_userId data;
        BusinessRepository.name := new_name data;
        BusinessRepository.email := new_email data;
        BusinessRepository.industry := new_industry data;
        BusinessRepository.description := new_description data;
        BusinessRepository.website := new_website data;
        BusinessRepository.createdAt := toISOString (clock (clockReads w)) |},
   set_businesses
     (businesses w ++
      [{| BusinessRepository.id := randomUUID (uuidsDrawn w);
          BusinessRepository.userId := new_userId data;
          BusinessRepository.name := new_name data;
          BusinessRepository.email := new_email data;
          BusinessRepository.industry := new_industry data;
          BusinessRepository.description := new_description data;
          BusinessRepository.website := new_website data;
          BusinessRepository.createdAt := toISOString (clock (clockReads w)) |}])
     (set_clockReads (S (clockReads w)) (set_uuidsDrawn (S (uuidsDrawn w)) w))).
Proof. reflexivity. Qed.

(** X13.  [create] appends the new business, with a fresh id and the
    current time, and leaves the attestation stores alone.  For the
    attestation routes the new business counts only if its user had none:
    a user who already owns a business keeps resolving to that one, and no
    other user's business changes. *)
Theorem businessRepository_create_resolves (data : NewBusiness) (w : World) :
  exists b w',
    businessRepository_create data w = (Return b, w') /\
    BusinessRepository.id b = randomUUID (uuidsDrawn w) /\
    BusinessRepository.createdAt b = toISOString (clock (clockReads w)) /\
    BusinessRepository.userId b = new_userId data /\
    businesses w' = businesses w ++ [b] /\
    localAttestationStore w' = localAttestationStore w /\
    repoState w' = repoState w /\
    businessOfUser (new_userId data) w' =
      match businessOfUser (new_userId data) w with
      | Some own => Some own
      | None => Some (BusinessRepository.id b)
      end /\
    forall uid,
      uid <> new_userId data -> businessOfUser uid w' = businessOfUser uid w.
Proof.
  eexists _, _. split; [apply businessRepository_create_run |].
  do 6 (split; [reflexivity |]).
  unfold businessOfUser, BusinessRepository.findByUserId.
  cbn [businesses set_businesses]. split.
  - rewrite find_app. destruct (List.find _ (businesses w)); [reflexivity |].
    cbn. now rewrite String.eqb_refl.
  - intros uid Hne. rewrite find_app.
    destruct (List.find _ (businesses w)); [reflexivity |].
    cbn. destruct (String.eqb (new_userId data) uid) eqn:E; [| reflexivity].
    apply String.eqb_eq in E. congruence.
Qed.

Lemma findIndex_of_find {A : Type} (p : A -> bool) (l : list A) :
  match List.find p l with
  | Some x => exists i, findIndex p l = Some i /\ l !! i = Some x
  | None => findIndex p l = None
  end.
Proof.
  induction l as [| y l IH]; cbn; [reflexivity |].
  destruct (p y); [now exists 0%nat |].
  destruct (List.find p l) as [x |].
  - destruct IH as (i & -> & Hx). now exists (S i).
  - now rewrite IH.
Qed.

(** X14.  [update] of an id that no business has returns [null] and changes
    nothing.  Otherwise it rewrites the first business with the id: the
    result has the fields of the patch over the old ones, it takes the old
    one's place, and every other business stays as it was. *)
Theorem businessRepository_update_writes (bid : string) (data : BusinessPatch)
    (w : World) :
  match BusinessRepository.findById (businesses w) bid with
  | None => businessRepository_update bid data w = (Return None, w)
  | Some old =>
      exists idx w',
        businessRepository_update bid data w =
          (Return (Some (spread_patch old data)), w') /\
        businesses w !! idx = Some old /\
        businesses w' !! idx = Some (spread_patch old data) /\
        length (businesses w') = length (businesses w) /\
        (forall j, j <> idx -> businesses w' !! j = businesses w !! j) /\
        localAttestationStore w' = localAttestationStore w /\
        repoState w' = repoState w
  end.
Proof.
  unfold BusinessRepository.findById, businessRepository_update.
  pose proof (findIndex_of_find
                (fun b => String.eqb (BusinessRepository.id b) bid) (businesses w))
    as Hfind.
  destruct (List.find _ (businesses w)) as [old |].
  - destruct Hfind as (idx & -> & Hold). rewrite Hold.
    exists idx. eexists. split; [reflexivity |]. cbn.
    split; [exact Hold |]. split; [| split; [| split]].
    + apply list_lookup_insert_eq. now apply lookup_lt_Some in Hold.
    + apply length_insert.
    + intros j Hj. apply list_lookup_insert_ne. congruence.
    + split; reflexivity.
  - now rewrite Hfind.
Qed.

(** X15.  What [update] wrote, [findById] returns: when the patch leaves
    the id alone, looking the id up after an update that found it gives the
    updated business. *)
Theorem businessRepository_update_then_findById (bid : string)
    (data : BusinessPatch) (w w' : World) (updated : BusinessRepository.Business) :
  patch_id data = None ->
  businessRepository_update bid data w = (Return (Some updated), w') ->
  BusinessRepository.findById (businesses w') bid = Some updated /\
  BusinessRepository.id updated = bid.
Proof.
  intros Hid. unfold businessRepository_update, BusinessRepository.findById.
  set (p := fun b => String.eqb (BusinessRepository.id b) bid).
  destruct (findIndex p (businesses w)) as [idx |] eqn:Hidx; [| discriminate].
  destruct (businesses w !! idx) as [old |] eqn:Hold; [| discriminate].
  intros [= <- <-]. cbn [businesses set_businesses].
  assert (Hp : p (spread_patch old data) = true).
  { destruct (findIndex_Some p _ _ Hidx) as (x & Hx & Hpx).
    rewrite Hold in Hx. injection Hx as <-.
    unfold p, spread_patch in *. cbn. now rewrite Hid. }
  split; [| now apply String.eqb_eq in Hp].
  clear Hid. revert idx Hidx Hold.
  induction (businesses w) as [| b bs IH]; intros idx Hidx Hold; [discriminate |].
  cbn [findIndex] in Hidx. destruct (p b) eqn:E.
  - injection Hidx as <-. cbn in *. injection Hold as ->. now rewrite Hp.
  - destruct (findIndex p bs) as [i |]; [| discriminate].
    injection Hidx as <-. cbn. rewrite E. now apply (IH i).
Qed.

(** ** Revocation through the repository *)

(** X19.  When the repository has [revoke], a revoke that passes the lookup
    is the repository's business alone: [repo.revoke] gets the id and the
    reason, its record is the answer (200), its [null] becomes 500
    [REVOKE_FAILED] and its rejection is passed on; the in-memory store is
    not touched and the clock is not read. *)
Theorem handleRevoke_delegates (uid aid bid : string) (reason : option string)
    (w : World) (found : RouteAttestation)
    (revoke : string -> option string -> RepoState ->
              Result (option RouteAttestation) * RepoState) :
  repo_revoke attestationRepository = Some revoke ->
  truthy aid = true ->
  businessOfUser uid w = Some bid ->
  truthy bid = true ->
  getById aid bid w = (Return (Some found), w) ->
  exists w',
    handleRevoke uid aid reason w =
      (match fst (revoke aid reason (repoState w)) with
       | Return (Some r) => Return (AttestationResponse 200 r)
       | Return None =>
           Throw (createHttpError 500 "REVOKE_FAILED" "Failed to revoke attestation")
       | Throw e => Throw e
       end, w') /\
    repoState w' = snd (revoke aid reason (repoState w)) /\
    localAttestationStore w' = localAttestationStore w /\
    clockReads w' = clockReads w.
Proof.
  intros Hrev Ha Hb Ht Hget.
  rewrite (handleRevoke_run uid aid bid reason w Ha Hb Ht), Hget.
  unfold revokeAttestation, callRepo. rewrite Hrev.
  destruct (revoke aid reason (repoState w)) as [[[r |] | e] s];
    eexists; (split; [reflexivity |]); now cbn.
Qed.

End Routes.

(** ** The Merkle engine *)

Section Merkle.

(** Modelled from the spec: the Merkle tree of [src/services/merkle].  Only
    its test is among the sources, so the definitions of this section follow
    sections 3 and 4.1 of the spec: leaf and node digests with their domain
    tags, left-then-right concatenation, an unmatched last node carried up
    unchanged, a proof with one entry for every level from the leaf up to,
    but excluding, the root, and a verifier that folds the proof and checks
    the index against it.  The spec gives an entry as a pair (sibling
    digest, position); at a level where the path node is carried up there
    is no sibling, and the entry is empty there, so that the proof keeps the
    length the spec gives it, the height of the tree. *)
Variable Hash : string -> string.
Variable leafDomainTag : string.
Variable nodeDomainTag : string.

Definition leafDigest (leaf : string) : string :=
  Hash (String.append leafDomainTag leaf).

Definition nodeDigest (leftChild rightChild : string) : string :=
  Hash (String.append nodeDomainTag (String.append leftChild rightChild)).

(** Where a sibling stands, seen from the node on the path. *)
Inductive Position := SiblingLeft | SiblingRight.

(** The entry of one level: the sibling digest and its position, or nothing
    where the path node has no sibling and is carried up. *)
Definition ProofStep : Type := option (string * Position).

Definition MerkleProof : Type := list ProofStep.

Inductive MerkleError := EmptyInputError | IndexOutOfRangeError.

(** One level up: neighbours are hashed in pairs, and an unmatched last node
    is carried up unchanged. *)
Fixpoint nextLevel (level : list string) : list string :=
  match level with
  | l :: r :: rest => nodeDigest l r :: nextLevel rest
  | _ => level
  end.

(** The levels from [level] up to the one that holds a single digest. *)
Fixpoint buildLevels (fuel : nat) (level : list string) : list (list string) :=
  match fuel with
  | O => [level]
  | S fuel' =>
      match level with
      | _ :: _ :: _ => level :: buildLevels fuel' (nextLevel level)
      | _ => [level]
      end
  end.

(** A tree owns its leaf digests (the first level) and the levels derived
    from them. *)
Record MerkleTree := { levels : list (list string) }.

Definition Build (leaves : list string) : MerkleError + MerkleTree :=
  match leaves with
  | [] => inl EmptyInputError
  | _ :: _ =>
      inr {| levels := buildLevels (length leaves) (map leafDigest leaves) |}
  end.

Definition leafCount (t : MerkleTree) : nat := length (hd [] (levels t)).

Definition getRoot (t : MerkleTree) : string := hd "" (List.last (levels t) []).

(** The sibling of node [i] of a level, if it has one. *)
Definition siblingAt (level : list string) (i : nat) : ProofStep :=
  if Nat.odd i
  then option_map (fun d => (d, SiblingLeft)) (level !! (i - 1)%nat)
  else option_map (fun d => (d, SiblingRight)) (level !! (i + 1)%nat).

(** One entry for every level below the top one. *)
Fixpoint proofFrom (lvls : list (list string)) (i : nat) : MerkleProof :=
  match lvls with
  | level :: (_ :: _) as above => siblingAt level i :: proofFrom above (i / 2)%nat
  | _ => []
  end.

Definition getProof (t : MerkleTree) (index : nat) : MerkleError + MerkleProof :=
  if (index <? leafCount t)%nat then inr (proofFrom (levels t) index)
  else inl IndexOutOfRangeError.

(** The digest one level up: the node hashed with its sibling, in the order
    of construction, or the node itself where it is carried up. *)
Definition stepDigest (digest : string) (step : ProofStep) : string :=
  match step with
  | Some (sibling, SiblingLeft) => nodeDigest sibling digest
  | Some (sibling, SiblingRight) => nodeDigest digest sibling
  | None => digest
  end.

(** The digest obtained from a node and the rest of its proof. *)
Definition foldProof (digest : string) (proof : MerkleProof) : string :=
  fold_left stepDigest proof digest.

(** Whether [index] is the position the proof speaks of: level by level, a
    node with its sibling on the left is a right child (odd index), a node
    with its sibling on the right or without a sibling is a left child
    (even index), and after the last entry the index must have come down to
    0, so an index of [2 ^ length proof] or more is refused. *)
Fixpoint indexConsistent (index : nat) (proof : MerkleProof) : bool :=
  match proof with
  | [] => (index =? 0)%nat
  | step :: rest =>
      match step with
      | Some (_, SiblingLeft) => Nat.odd index
      | Some (_, SiblingRight) => Nat.even index
      | None => Nat.even index
      end && indexConsistent (index / 2)%nat rest
  end.

Definition verifyProof (leaf : string) (proof : MerkleProof) (root : string)
    (index : nat) : bool :=
  indexConsistent index proof && String.eqb (foldProof (leafDigest leaf) proof) root.

(** ** Soundness of the proofs a tree hands out *)

Local Open Scope nat_scope.

(** Halving a position is linear arithmetic once quotient and remainder are
    named. *)
Ltac Zify.zify_post_hook ::= Z.div_mod_to_equations.

Lemma pair_induction {A : Type} (P : list A -> Prop) :
  P [] -> (forall x, P [x]) -> (forall x y l, P l -> P (x :: y :: l)) ->
  forall l, P l.
Proof.
  intros Hnil Hone Hpair.
  fix IH 1. intros [| x [| y l]]; [exact Hnil | apply Hone |].
  apply Hpair, IH.
Qed.

Lemma length_nextLevel (level : list string) :
  length (nextLevel level) = (length level + 1) / 2.
Proof.
  induction level as [| x | x y l IH] using pair_induction; [reflexivity ..|].
  cbn [nextLevel length]. rewrite IH. lia.
Qed.

(** A node and its sibling are hashed into their parent, in the order the
    position records; a node without a sibling is its own parent. *)
Lemma nextLevel_parent (level : list string) (i : nat) (d : string) :
  level !! i = Some d ->
  nextLevel level !! (i / 2) = Some (stepDigest d (siblingAt level i)).
Proof.
  revert i. induction level as [| x | x y l IH] using pair_induction; intros i Hd.
  - discriminate.
  - destruct i as [| i]; [| discriminate]. cbn in *. congruence.
  - destruct i as [| [| i]].
    + cbn in Hd. injection Hd as ->. reflexivity.
    + cbn in Hd. injection Hd as ->. reflexivity.
    + cbn [nextLevel].
      replace (S (S i) / 2) with (S (i / 2)) by lia.
      change ((x :: y :: l) !! S (S i)) with (l !! i) in Hd.
      change ((nodeDigest x y :: nextLevel l) !! S (i / 2))
        with (nextLevel l !! (i / 2)).
      rewrite (IH i Hd). do 2 f_equal.
      unfold siblingAt. rewrite Nat.odd_succ_succ.
      destruct (Nat.odd i) eqn:Hodd.
      * destruct i as [| i]; [discriminate |].
        cbn [Nat.sub]. rewrite !Nat.sub_0_r. reflexivity.
      * replace (S (S i) + 1) with (S (S (i + 1))) by lia. reflexivity.
Qed.

Lemma buildLevels_hd (fuel : nat) (level : list string) :
  hd [] (buildLevels fuel level) = level.
Proof. destruct fuel as [| fuel]; [reflexivity |]. now destruct level as [| x [| y l]]. Qed.

Lemma buildLevels_nonempty (fuel : nat) (level : list string) :
  buildLevels fuel level <> [].
Proof. destruct fuel as [| fuel]; [discriminate |]. now destruct level as [| x [| y l]]. Qed.

(** The proof of a node of a level that has levels above it. *)
Lemma proofFrom_cons (level : list string) (above : list (list string)) (i : nat) :
  above <> [] ->
  proofFrom (level :: above) i = siblingAt level i :: proofFrom above (i / 2).
Proof. destruct above; [congruence | reflexivity]. Qed.

(** Folding the proof of node [i] from its digest gives the top digest. *)
Lemma foldProof_root (fuel : nat) (level : list string) (i : nat) (d : string) :
  length level <= S fuel ->
  level !! i = Some d ->
  foldProof d (proofFrom (buildLevels fuel level) i) =
  hd "" (List.last (buildLevels fuel level) []).
Proof.
  revert level i d. induction fuel as [| fuel IH]; intros level i d Hlen Hd.
  - destruct level as [| x [| y l]]; [discriminate | | cbn in Hlen; lia].
    destruct i as [| i]; [| discriminate]. cbn in *. congruence.
  - destruct level as [| x [| y l]]; [discriminate | |].
    + destruct i as [| i]; [| discriminate]. cbn in *. congruence.
    + cbn [buildLevels].
      rewrite proofFrom_cons by apply buildLevels_nonempty.
      pose proof (nextLevel_parent (x :: y :: l) i d Hd) as Hup.
      assert (Hlen' : length (nextLevel (x :: y :: l)) <= S fuel).
      { rewrite length_nextLevel. cbn [length] in *. lia. }
      assert (Hlast : forall L : list (list string),
                 L <> [] -> List.last ((x :: y :: l) :: L) [] = List.last L []).
      { intros [| ? ?] HL; [congruence | reflexivity]. }
      rewrite Hlast by apply buildLevels_nonempty.
      unfold foldProof. cbn [fold_left]. now apply IH.
Qed.

(** The index of a node agrees with the proof of the node. *)
Lemma indexConsistent_proofFrom (fuel : nat) (level : list string) (i : nat) :
  length level <= S fuel ->
  i < length level ->
  indexConsistent i (proofFrom (buildLevels fuel level) i) = true.
Proof.
  revert level i. induction fuel as [| fuel IH]; intros level i Hlen Hi.
  - destruct level as [| x [| y l]]; cbn [length] in *; try lia.
    assert (i = 0) as -> by lia. reflexivity.
  - destruct level as [| x [| y l]]; cbn [length] in *; try lia.
    + assert (i = 0) as -> by lia. reflexivity.
    + cbn [buildLevels].
      rewrite proofFrom_cons by apply buildLevels_nonempty.
      set (level := x :: y :: l) in *.
      assert (Hlevel : length level = S (S (length l))) by reflexivity.
      cbn [indexConsistent]. apply andb_true_intro. split.
      * unfold siblingAt. destruct (Nat.odd i) eqn:Hodd.
        -- destruct (level !! (i - 1)) as [s |] eqn:Hs; [reflexivity |].
           apply lookup_ge_None in Hs. lia.
        -- rewrite <- Nat.negb_odd, Hodd.
           now destruct (level !! (i + 1)).
      * apply IH; rewrite length_nextLevel, Hlevel; lia.
Qed.

(** A proof has one entry for each level below the top one. *)
Lemma length_proofFrom (lvls : list (list string)) (i : nat) :
  length (proofFrom lvls i) = length lvls - 1.
Proof.
  clear Hash leafDomainTag nodeDomainTag.
  revert i. induction lvls as [| level above IH]; intros i; [reflexivity |].
  destruct above as [| level' above]; [reflexivity |].
  rewrite proofFrom_cons by discriminate. cbn [length].
  rewrite IH. cbn [length]. lia.
Qed.

(** The height of a tree over [n] nodes is the least [h] with
    [n <= 2 ^ h]. *)
Lemma buildLevels_height (fuel : nat) (level : list string) :
  level <> [] ->
  length level <= S fuel ->
  exists h,
    length (buildLevels fuel level) = S h /\
    length level <= 2 ^ h /\
    (2 <= length level -> exists h', h = S h' /\ 2 ^ h' < length level).
Proof.
  revert level. induction fuel as [| fuel IH]; intros level Hne Hlen.
  - destruct level as [| x [| y l]]; cbn [length] in *; [congruence | | lia].
    exists 0. cbn. repeat split; lia.
  - destruct level as [| x [| y l]]; [congruence | |].
    + exists 0. cbn. repeat split; lia.
    + cbn [buildLevels]. set (level := x :: y :: l) in *.
      assert (Hlevel : length level = S (S (length l))) by reflexivity.
      pose proof (length_nextLevel level) as Hnext.
      destruct (IH (nextLevel level)) as (h1 & Hh1 & Hup & Hlow).
      { subst level. cbn. discriminate. }
      { lia. }
      exists (S h1). cbn [length]. rewrite Hh1, Nat.pow_succ_r'.
      split; [reflexivity |]. split; [lia |]. intros _.
      exists h1. split; [reflexivity |].
      destruct (Nat.le_gt_cases 2 (length (nextLevel level))) as [Htwo | Hone].
      * destruct (Hlow Htwo) as (h1' & -> & Hlt).
        rewrite Nat.pow_succ_r'. lia.
      * destruct (nextLevel level) as [| a [| b r]] eqn:Hn; cbn [length] in *;
          [lia | | lia].
        destruct fuel as [| fuel']; cbn in Hh1; injection Hh1 as <-; cbn; lia.
Qed.

(** An index that a proof is consistent with is below [2 ^ length proof],
    and a proof is consistent with one index only. *)
Lemma indexConsistent_range (proof : MerkleProof) (index : nat) :
  indexConsistent index proof = true -> index < 2 ^ length proof.
Proof.
  clear Hash leafDomainTag nodeDomainTag.
  revert index. induction proof as [| step rest IH]; cbn [indexConsistent length];
    intros index H.
  - apply Nat.eqb_eq in H. subst. cbn. lia.
  - apply andb_prop in H as [_ H]. apply IH in H.
    rewrite Nat.pow_succ_r'. lia.
Qed.

Lemma indexConsistent_unique (proof : MerkleProof) (index index' : nat) :
  indexConsistent index proof = true ->
  indexConsistent index' proof = true ->
  index = index'.
Proof.
  clear Hash leafDomainTag nodeDomainTag.
  revert index index'.
  induction proof as [| step rest IH]; cbn [indexConsistent]; intros index index' H H'.
  - apply Nat.eqb_eq in H, H'. congruence.
  - apply andb_prop in H as [Hp H], H' as [Hp' H'].
    pose proof (IH _ _ H H') as Hhalf.
    assert (Hparity : Nat.odd index = Nat.odd index').
    { destruct step as [[s [|]] |];
        rewrite <- ?Nat.negb_odd in Hp, Hp';
        destruct (Nat.odd index), (Nat.odd index'); cbn in *; congruence. }
    pose proof (Nat.div_mod_eq index 2) as Hi.
    pose proof (Nat.div_mod_eq index' 2) as Hi'.
    rewrite <- !Nat.bit0_mod in Hi, Hi'. rewrite !Nat.bit0_odd in Hi, Hi'.
    rewrite Hhalf, Hparity in Hi. congruence.
Qed.

(** The proofs a tree hands out have the length the spec gives them: the
    height of the tree, the least [h] with [leafCount <= 2 ^ h], and none
    for a single leaf. *)
Lemma getProof_length (leaves : list string) (i : nat) (tree : MerkleTree)
    (proof : MerkleProof) :
  Build leaves = inr tree ->
  getProof tree i = inr proof ->
  length leaves <= 2 ^ length proof /\
  (2 <= length leaves -> 2 ^ (length proof - 1) < length leaves) /\
  (length leaves = 1 -> proof = []).
Proof.
  unfold Build, getProof. destruct leaves as [| l0 ls] eqn:Hleaves; [discriminate |].
  rewrite <- Hleaves. intros [= <-]. cbn [levels].
  destruct (i <? _); [| discriminate]. intros [= <-].
  destruct (buildLevels_height (length leaves) (map leafDigest leaves))
    as (h & Hh & Hup & Hlow).
  { subst leaves. discriminate. }
  { rewrite length_map. lia. }
  pose proof (length_proofFrom (buildLevels (length leaves) (map leafDigest leaves)) i)
    as Hlen.
  rewrite Hh in Hlen. replace (S h - 1) with h in Hlen by lia.
  rewrite length_map in *. rewrite Hlen.
  split; [exact Hup |]. split.
  - intros Htwo. destruct (Hlow Htwo) as (h' & -> & Hlt).
    now replace (S h' - 1) with h' by lia.
  - intros Hone. rewrite Hone in Hup.
    destruct h as [| h].
    + now destruct (proofFrom _ i).
    + exfalso. clear Hlen.
      subst leaves. destruct ls; [| discriminate]. cbn in Hh. discriminate.
Qed.

(** C3.  For every leaf of a non-empty sequence, the tree built from the
    sequence hands out a proof for the leaf's index, and the verifier
    accepts the leaf with that proof, the tree's root and the index. *)
Theorem verifyProof_sound (leaves : list string) (i : nat) :
  i < length leaves ->
  exists tree proof leaf,
    Build leaves = inr tree /\
    getProof tree i = inr proof /\
    leaves !! i = Some leaf /\
    verifyProof leaf proof (getRoot tree) i = true.
Proof.
  intros Hi.
  destruct (lookup_lt_is_Some_2 leaves i Hi) as [leaf Hleaf].
  destruct leaves as [| l0 ls] eqn:Hleaves; [cbn in Hi; lia |].
  rewrite <- Hleaves in *. clear l0 ls Hleaves.
  set (tree := {| levels := buildLevels (length leaves) (map leafDigest leaves) |}).
  exists tree, (proofFrom (levels tree) i), leaf.
  assert (Hbuild : Build leaves = inr tree).
  { unfold Build, tree. destruct leaves; [cbn in Hi; lia | reflexivity]. }
  split; [exact Hbuild |]. split.
  - unfold getProof, leafCount. cbn [levels tree].
    rewrite buildLevels_hd, length_map.
    now apply Nat.ltb_lt in Hi as ->.
  - split; [exact Hleaf |].
    unfold verifyProof, getRoot. cbn [levels tree].
    apply andb_true_intro. split.
    + apply indexConsistent_proofFrom; rewrite ?length_map; lia.
    + apply String.eqb_eq, foldProof_root; [rewrite length_map; lia |].
      now rewrite list_lookup_fmap, Hleaf.
Qed.

End Merkle.

(** * [middleware/auth.ts]: the guard in front of the routes *)

Section Auth.

(** What [verifyToken] returns for a token it accepts. *)
Record TokenPayload := {
  payload_userId : string;
  payload_email : string;
}.

(** [req.user] *)
Record RequestUser := {
  user_id : string;
  user_email : string;
}.

Variable User : Type.
(** [verifyToken]: the payload, or [null]. *)
Variable verifyToken : string -> option TokenPayload.
(** [findUserById]: the promise resolves to the user or to nothing, or
    rejects. *)
Variable findUserById : string -> Result (option User).

(** The middleware either answers itself or sets [req.user] and calls
    [next]. *)
Inductive AuthOutcome :=
| Answered (httpStatus : Z) (error : string)
| Next (user : RequestUser).

(** [s.startsWith(prefix)] *)
Definition startsWith (s prefix : string) : bool := String.prefix prefix s.

(** [s.slice(n)] for [n] within the string. *)
Definition String_slice (s : string) (n : nat) : string :=
  String.substring n (String.length s - n) s.

Definition requireAuth (authorization : option string) : Result AuthOutcome :=
  match authorization with
  | None => Return (Answered 401 "Missing or invalid authorization header")
  | Some authHeader =>
      if negb (truthy authHeader) || negb (startsWith authHeader "Bearer ")
      then Return (Answered 401 "Missing or invalid authorization header")
      else
        let token := String_slice authHeader 7 in
        match verifyToken token with
        | None => Return (Answered 401 "Invalid or expired token")
        | Some payload =>
            match findUserById (payload_userId payload) with
            | Throw e => Throw e
            | Return None => Return (Answered 401 "User not found")
            | Return (Some _) =>
                Return (Next {| user_id := payload_userId payload;
                                user_email := payload_email payload |})
            end
        end
  end.

Lemma substring_all (s : string) : String.substring 0 (String.length s) s = s.
Proof. induction s as [| c s IH]; cbn; [reflexivity | now rewrite IH]. Qed.

(** A string that starts with a prefix is the prefix followed by the slice
    after it. *)
Lemma startsWith_slice (s prefix : string) :
  startsWith s prefix = true ->
  s = String.append prefix (String_slice s (String.length prefix)).
Proof.
  unfold startsWith, String_slice. revert s.
  induction prefix as [| c prefix IH]; intros s H.
  - cbn. rewrite Nat.sub_0_r. now rewrite substring_all.
  - destruct s as [| d s]; cbn in H; [discriminate |].
    destruct (ascii_dec c d) as [<- | Hne]; [| discriminate].
    exact (f_equal (String c) (IH s H)).
Qed.

Lemma startsWith_append (prefix rest : string) :
  startsWith (String.append prefix rest) prefix = true /\
  String_slice (String.append prefix rest) (String.length prefix) = rest.
Proof.
  unfold startsWith, String_slice.
  induction prefix as [| c prefix IH].
  - cbn. split; [now destruct rest |]. rewrite Nat.sub_0_r. apply substring_all.
  - change (String.append (String c prefix) rest)
      with (String c (String.append prefix rest)).
    cbn. destruct (ascii_dec c c) as [_ | Hne]; [exact IH | contradiction].
Qed.

(** X16.  [requireAuth] lets a request through exactly when the header is
    ["Bearer "] followed by a token that [verifyToken] accepts for a user
    that [findUserById] finds; [req.user] then carries the user id and the
    email of the token's payload.  In every other case in which it returns
    it has answered 401. *)
Theorem requireAuth_passes (authorization : option string) (user : RequestUser) :
  (requireAuth authorization = Return (Next user) <->
   exists token payload found,
     authorization = Some (String.append "Bearer " token) /\
     verifyToken token = Some payload /\
     findUserById (payload_userId payload) = Return (Some found) /\
     user = {| user_id := payload_userId payload;
               user_email := payload_email payload |}) /\
  (forall httpStatus error,
      requireAuth authorization = Return (Answered httpStatus error) ->
      httpStatus = 401).
Proof.
  split; [split |].
  - unfold requireAuth. destruct authorization as [authHeader |]; [| discriminate].
    destruct (truthy authHeader); cbn [negb orb]; [| discriminate].
    destruct (startsWith authHeader "Bearer ") eqn:Hprefix; cbn [negb];
      [| discriminate].
    destruct (verifyToken (String_slice authHeader 7)) as [payload |] eqn:Htoken;
      [| discriminate].
    destruct (findUserById (payload_userId payload)) as [[found |] | e] eqn:Hfound;
      try discriminate.
    intros [= <-].
    exists (String_slice authHeader 7), payload, found.
    repeat split; try assumption.
    f_equal. exact (startsWith_slice authHeader "Bearer " Hprefix).
  - intros (token & payload & found & -> & Htoken & Hfound & ->).
    unfold requireAuth.
    destruct (startsWith_append "Bearer " token) as [Hprefix Hslice].
    change (String.length "Bearer ") with 7%nat in Hslice.
    rewrite Hprefix, Hslice, Htoken, Hfound. reflexivity.
  - intros httpStatus error. unfold requireAuth.
    destruct authorization as [authHeader |]; [| now intros [= <- _]].
    destruct (negb (truthy authHeader) || negb (startsWith authHeader "Bearer "));
      [now intros [= <- _] |].
    destruct (verifyToken _) as [payload |]; [| now intros [= <- _]].
    destruct (findUserById _) as [[found |] | e]; try discriminate.
    now intros [= <- _].
Qed.

End Auth.

(** * [src/jobs/attestationReminder.ts] *)

Section ReminderJob.

Variable RepoState : Type.
(** The job calls [attestationRepository.listByBusiness] without probing
    for it. *)
Variable attestationRepository : AttestationRepository RepoState.
(** The n-th reading of the clock by [new Date()]. *)
Variable clock : nat -> Z.
(** [new Date(s)]: the time value, or nothing for an invalid date. *)
Variable Date_parse : string -> option Z.
(** [d.setMonth(d.getMonth() - 1)]: the time value one calendar month
    before, in local time. *)
Variable monthBefore : Z -> Z.

Inductive Console :=
| console_log (line : string)
| console_error (line : string).

(** The callback of [some], run at clock reading [n]: an invalid date
    compares as false. *)
Definition recentAt (n : nat) (attestation : RouteAttestation) : bool :=
  match Date_parse (attestedAt attestation) with
  | Some attestationDate => monthBefore (clock n) <=? attestationDate
  | None => false
  end.

(** [attestations.some(...)], which stops at the first recent attestation;
    every call of the callback reads the clock. *)
Fixpoint hasRecentAttestation (attestations : list RouteAttestation) (reads : nat)
  : bool * nat :=
  match attestations with
  | [] => (false, reads)
  | attestation :: rest =>
      if recentAt reads attestation then (true, S reads)
      else hasRecentAttestation rest (S reads)
  end.

(** The first loop: the businesses without a recent attestation. *)
Fixpoint businessesToRemind
    (listByBusiness : string -> RepoState -> list RouteAttestation)
    (all : list BusinessRepository.Business) (s : RepoState) (reads : nat)
  : list BusinessRepository.Business * nat :=
  match all with
  | [] => ([], reads)
  | business :: rest =>
      let (recent, reads1) :=
        hasRecentAttestation (listByBusiness (BusinessRepository.id business) s) reads in
      let (toRemind, reads2) := businessesToRemind listByBusiness rest s reads1 in
      (if recent then toRemind else business :: toRemind, reads2)
  end.

Definition reminderSent (business : BusinessRepository.Business) : Console :=
  console_log (String.append "Reminder sent to " (BusinessRepository.email business)).

(** The lines the job writes to the console, and the clock readings it has
    used.  A repository without [listByBusiness] makes the first iteration
    throw; the [catch] reports it (the error object that follows the message
    is left out of the line) and the job ends. *)
Definition attestationReminderJob (all : list BusinessRepository.Business)
    (s : RepoState) (reads : nat) : list Console * nat :=
  let started := console_log "Running attestation reminder job..." in
  match all, repo_listByBusiness RepoState attestationRepository with
  | _ :: _, None =>
      ([started; console_error "Error running attestation reminder job:"], reads)
  | _, found =>
      let listByBusiness :=
        match found with
        | Some f => f
        | None => fun _ _ => []
        end in
      let (toRemind, reads') := businessesToRemind listByBusiness all s reads in
      match toRemind with
      | [] => ([started; console_log "No businesses to remind."], reads')
      | _ :: _ =>
          (started ::
           console_log
             (String.append "Found "
                (String.append (NilZero.string_of_uint (Nat.to_uint (length toRemind)))
                   " businesses to remind.")) ::
           map reminderSent toRemind ++
           [console_log "Attestation reminder job finished."],
           reads')
      end
  end.

Lemma hasRecentAttestation_false (attestations : list RouteAttestation)
    (reads reads' : nat) :
  hasRecentAttestation attestations reads = (false, reads') ->
  reads' = (reads + length attestations)%nat /\
  forall i attestation,
    attestations !! i = Some attestation ->
    recentAt (reads + i) attestation = false.
Proof.
  clear attestationRepository.
  revert reads. induction attestations as [| a l IH]; cbn; intros reads.
  - intros [= <-]. split; [lia | intros i x Hx; discriminate].
  - destruct (recentAt reads a) eqn:E; [discriminate |].
    intros H. apply IH in H as [-> Hall]. split; [lia |].
    intros [| i] x Hx.
    + cbn in Hx. injection Hx as <-. now rewrite Nat.add_0_r.
    + replace (reads + S i)%nat with (S reads + i)%nat by lia. now apply Hall.
Qed.

Lemma hasRecentAttestation_never (attestations : list RouteAttestation) (reads : nat) :
  (forall attestation n, In attestation attestations -> recentAt n attestation = false) ->
  hasRecentAttestation attestations reads = (false, (reads + length attestations)%nat).
Proof.
  clear attestationRepository.
  revert reads. induction attestations as [| a l IH]; cbn; intros reads Hnone.
  - f_equal. lia.
  - rewrite (Hnone a reads) by now left.
    rewrite IH by (intros x n Hx; apply Hnone; now right).
    f_equal. lia.
Qed.

Lemma hasRecentAttestation_reads (attestations : list RouteAttestation) (reads : nat) :
  (reads <= snd (hasRecentAttestation attestations reads) <= reads + length attestations)%nat.
Proof.
  clear attestationRepository.
  revert reads. induction attestations as [| a l IH]; cbn; intros reads; [lia |].
  destruct (recentAt reads a); cbn; [lia |].
  specialize (IH (S reads)). lia.
Qed.

(** X17.  The businesses the job reminds, given a repository that lists:
    they are businesses of the repository, in its order; a business none of
    whose attestations is recent at any reading of the clock is among them
    (so is every business without attestations, and an attestation with an
    invalid date never counts as recent); and a business with an
    attestation that is recent at every reading is not. *)
Theorem businessesToRemind_selects
    (listByBusiness : string -> RepoState -> list RouteAttestation)
    (all : list BusinessRepository.Business) (s : RepoState) (reads : nat) :
  let toRemind := fst (businessesToRemind listByBusiness all s reads) in
  sublist toRemind all /\
  (forall business,
      In business all ->
      (forall attestation n,
          In attestation (listByBusiness (BusinessRepository.id business) s) ->
          recentAt n attestation = false) ->
      In business toRemind) /\
  (forall business attestation,
      In attestation (listByBusiness (BusinessRepository.id business) s) ->
      (forall n, recentAt n attestation = true) ->
      ~ In business toRemind).
Proof.
  clear attestationRepository. cbv zeta.
  revert reads. induction all as [| b rest IH]; intros reads; cbn.
  - split; [constructor |]. split; [intros ? [] | intros ? ? _ _ []].
  - destruct (hasRecentAttestation (listByBusiness (BusinessRepository.id b) s) reads)
      as [recent reads1] eqn:Hcheck.
    specialize (IH reads1).
    destruct (businessesToRemind listByBusiness rest s reads1) as [toRemind reads2].
    cbn in IH. destruct IH as (Hsub & Hin & Hout).
    destruct recent; cbn.
    + split; [now constructor |]. split.
      * intros business [<- | Hrest] Hnone; [| now apply Hin].
        rewrite (hasRecentAttestation_never _ reads Hnone) in Hcheck. discriminate.
      * exact Hout.
    + split; [now constructor |]. split.
      * intros business [<- | Hrest] Hnone; [now left | right; now apply Hin].
      * intros business a Ha Halways [<- | Hrest]; [| now apply (Hout business a)].
        apply hasRecentAttestation_false in Hcheck as [_ Hall].
        apply In_nth_error in Ha as [i Hi].
        assert (Hi' : listByBusiness (BusinessRepository.id b) s !! i = Some a).
        { revert i Hi. generalize (listByBusiness (BusinessRepository.id b) s).
          intros l. induction l as [| x l IHl]; intros [| i]; cbn; try discriminate;
            auto. }
        specialize (Hall i a Hi'). rewrite Halways in Hall. discriminate.
Qed.

(** A line that reports a reminder. *)
Definition isReminderLine (line : Console) : bool :=
  match line with
  | console_log text => String.prefix "Reminder sent to " text
  | console_error _ => false
  end.

Lemma reminderSent_lines (toRemind : list BusinessRepository.Business) :
  List.filter isReminderLine (map reminderSent toRemind) = map reminderSent toRemind.
Proof.
  clear attestationRepository clock Date_parse monthBefore.
  induction toRemind as [| b l IH]; cbn [map List.filter]; [reflexivity |].
  assert (Hline : isReminderLine (reminderSent b) = true).
  { apply (startsWith_append "Reminder sent to " (BusinessRepository.email b)). }
  now rewrite Hline, IH.
Qed.

(** X18.  The job writes one reminder line for each business it found to
    remind, with the business's email, in the order of the repository, and
    no other line that reads like a reminder.  When there are businesses to
    look at and the repository has no [listByBusiness], the job reports an
    error, reminds nobody and does not read the clock. *)
Theorem attestationReminderJob_reminders (all : list BusinessRepository.Business)
    (s : RepoState) (reads : nat) :
  match repo_listByBusiness RepoState attestationRepository with
  | Some listByBusiness =>
      List.filter isReminderLine (fst (attestationReminderJob all s reads)) =
      map reminderSent (fst (businessesToRemind listByBusiness all s reads))
  | None =>
      List.filter isReminderLine (fst (attestationReminderJob all s reads)) = [] /\
      snd (attestationReminderJob all s reads) = reads /\
      (all <> [] ->
       In (console_error "Error running attestation reminder job:")
         (fst (attestationReminderJob all s reads)))
  end.
Proof.
  unfold attestationReminderJob.
  destruct (repo_listByBusiness RepoState attestationRepository) as [f |].
  - assert (Hlines : forall toRemind found,
               List.filter isReminderLine
                 (console_log "Running attestation reminder job..." ::
                  console_log (String.append "Found " found) ::
                  map reminderSent toRemind ++
                  [console_log "Attestation reminder job finished."]) =
               map reminderSent toRemind).
    { intros toRemind found. cbn [List.filter isReminderLine].
      change (String.prefix "Reminder sent to " "Running attestation reminder job...")
        with false.
      change (String.prefix "Reminder sent to " (String.append "Found " found))
        with false.
      cbn iota. rewrite List.filter_app, reminderSent_lines. cbn. apply app_nil_r. }
    destruct all as [| b rest];
      destruct (businessesToRemind f _ s reads) as [[| b' toRemind] reads'];
      cbn [fst]; try reflexivity; apply (Hlines (b' :: toRemind)).
  - destruct all as [| b rest]; cbn.
    + repeat split. congruence.
    + repeat split. intros _. right. now left.
Qed.

End ReminderJob.

(** * A deployment to run the routes on

    The process as it starts when the repository module exports none of the
    probed methods and the anchoring module cannot be loaded: every request
    is served from the in-memory store.  The UUID generator, the clock, the
    date rendering and the collation are small stand-ins. *)

Definition noRepository : AttestationRepository unit :=
  {| repo_listByBusiness := None; repo_list := None; repo_getById := None;
     repo_create := None; repo_revoke := None |}.

Definition noSoroban (attempt : nat) : Result SorobanModule := Throw Rejection.

Definition uuidOf (n : nat) : string :=
  String.append "uuid-" (NilZero.string_of_uint (Nat.to_uint n)).

Definition tick (n : nat) : Z := 1000 + Z.of_nat n.

Definition isoOf (t : Z) : string :=
  String.append "T+" (NilZero.string_of_int (Z.to_int t)).

(** Comparison by code units. *)
Definition codeUnitCompare (a b : string) : Z :=
  match String.compare a b with
  | Lt => -1
  | Eq => 0
  | Gt => 1
  end.

(** The comparison by code units is a consistent comparator. *)
Lemma codeUnitCompare_antisym (a b : string) :
  Z.sgn (codeUnitCompare a b) = - Z.sgn (codeUnitCompare b a).
Proof.
  unfold codeUnitCompare. rewrite (String.compare_antisym b a).
  now destruct (String.compare a b).
Qed.

Lemma codeUnitCompare_trans (a b c : string) :
  codeUnitCompare a b <= 0 -> codeUnitCompare b c <= 0 -> codeUnitCompare a c <= 0.
Proof.
  unfold codeUnitCompare.
  destruct (String.compare a b) eqn:Eab; [| | lia].
  - apply OrderedTypeEx.String_as_OT.cmp_eq in Eab as ->. tauto.
  - destruct (String.compare b c) eqn:Ebc; [| | lia].
    + apply OrderedTypeEx.String_as_OT.cmp_eq in Ebc as <-. rewrite Eab. lia.
    + apply OrderedTypeEx.String_as_OT.cmp_lt in Eab, Ebc.
      pose proof (OrderedTypeEx.String_as_OT.lt_trans _ _ _ Eab Ebc) as Hac.
      apply OrderedTypeEx.String_as_OT.cmp_lt in Hac.
      unfold OrderedTypeEx.String_as_OT.cmp in Hac. rewrite Hac. lia.
Qed.

Definition inMemoryGet : string -> ListQuery -> Async unit Response :=
  get_attestations unit noRepository codeUnitCompare.

Definition inMemoryGetOne : string -> string -> Async unit Response :=
  get_attestation unit noRepository codeUnitCompare.

Definition inMemoryPost : string -> SubmitBody -> Async unit Response :=
  post_attestations unit noRepository noSoroban uuidOf tick isoOf.

Definition inMemoryRevoke : string -> string -> option string -> Async unit Response :=
  handleRevoke unit noRepository tick isoOf codeUnitCompare.

Definition inMemorySubmit : string -> string -> SubmitBody -> Guarded unit Response :=
  submit unit noRepository noSoroban uuidOf tick isoOf 86400000.

(** The process at start. *)
Definition world0 : World unit :=
  {| localAttestationStore := []; repoState := tt;
     businesses := BusinessRepository.businesses;
     uuidsDrawn := 0; clockReads := 0; importsDone := 0;
     anchorCalls := []; createCalls := [] |}.

Definition january : SubmitBody :=
  {| b_businessId := None; b_period := "2025-01"; b_merkleRoot := "0xabc";
     b_timestamp := None; b_version := "1.0.0" |}.

Definition february : SubmitBody :=
  {| b_businessId := None; b_period := "2025-02"; b_merkleRoot := "0xdef";
     b_timestamp := Some 42; b_version := "1.0.0" |}.

(** [user_1] submits twice, then [user_2] once, then [user_1] revokes the
    first record. *)
Definition world1 : World unit := snd (inMemoryPost "user_1" january world0).
Definition world2 : World unit := snd (inMemoryPost "user_1" february world1).
Definition world3 : World unit := snd (inMemoryPost "user_2" january world2).

Definition januaryRecord : RouteAttestation :=
  {| id := "uuid-1"; businessId := "biz_1"; period := "2025-01";
     attestedAt := "T+1001"; merkleRoot := Some "0xabc"; timestamp := Some 1002;
     version := Some "1.0.0"; txHash := Some "pending_uuid-0";
     status := Some submitted; revokedAt := revokedAt_null |}.

Definition februaryRecord : RouteAttestation :=
  {| id := "uuid-3"; businessId := "biz_1"; period := "2025-02";
     attestedAt := "T+1003"; merkleRoot := Some "0xdef"; timestamp := Some 42;
     version := Some "1.0.0"; txHash := Some "pending_uuid-2";
     status := Some submitted; revokedAt := revokedAt_null |}.

Definition otherRecord : RouteAttestation :=
  {| id := "uuid-5"; businessId := "biz_2"; period := "2025-01";
     attestedAt := "T+1005"; merkleRoot := Some "0xabc"; timestamp := Some 1006;
     version := Some "1.0.0"; txHash := Some "pending_uuid-4";
     status := Some submitted; revokedAt := revokedAt_null |}.

Definition onePerPage (page : Z) : ListQuery :=
  {| q_businessId := None; q_period := None; q_status := None;
     q_page := page; q_limit := 1 |}.

Definition allOnOnePage : ListQuery :=
  {| q_businessId := None; q_period := None; q_status := None;
     q_page := 1; q_limit := 20 |}.

(** A repository that lists what it holds and does nothing else, and a
    process in which it and the in-memory store hold a record under the
    same id. *)
Definition listingRepository : AttestationRepository (list RouteAttestation) :=
  {| repo_listByBusiness :=
       Some (fun bid held =>
               List.filter (fun r => String.eqb (businessId r) bid) held);
     repo_list := None; repo_getById := None;
     repo_create := None; repo_revoke := None |}.

Definition storedVersion : RouteAttestation :=
  {| id := "att_1"; businessId := "biz_1"; period := "2025-01";
     attestedAt := "2025-02-01T00:00:00.000Z"; merkleRoot := Some "0xabc";
     timestamp := Some 1; version := Some "1.0.0"; txHash := Some "tx_1";
     status := Some submitted; revokedAt := revokedAt_null |}.

Definition bufferedVersion : RouteAttestation :=
  {| id := "att_1"; businessId := "biz_1"; period := "2025-01";
     attestedAt := "2025-02-01T00:00:00.000Z"; merkleRoot := Some "0xabc";
     timestamp := Some 1; version := Some "1.0.0"; txHash := Some "tx_1";
     status := Some revoked;
     revokedAt := revokedAt_time "2025-03-01T00:00:00.000Z" |}.

Definition conflictWorld : World (list RouteAttestation) :=
  {| localAttestationStore := [bufferedVersion]; repoState := [storedVersion];
     businesses := BusinessRepository.businesses;
     uuidsDrawn := 0; clockReads := 0; importsDone := 0;
     anchorCalls := []; createCalls := [] |}.

(** A toy digest for the Merkle engine, and the leaves of its test. *)
Definition toyHash (s : string) : string :=
  String.append "H(" (String.append s ")").

Definition testLeaves : list string := ["a"; "b"; "c"; "d"; "e"].

(** ** The properties on the deployment *)

(** C1 on the deployment: the first submit of [user_1], with no anchoring
    module to load. *)
Lemma post_attestations_anchor_fallback_witness :
  anchoringUnavailable noSoroban 0 (anchorParams unit tick january "biz_1" world0) = true /\
  exists record w',
    inMemoryPost "user_1" january world0 =
      (Return (SubmitResponse 201 record "pending_uuid-0"), w') /\
    txHash record = Some "pending_uuid-0" /\
    status record = Some submitted /\
    localAttestationStore unit w' = [record].
Proof.
  split; [reflexivity |].
  destruct (post_attestations_anchor_fallback unit noRepository noSoroban uuidOf
              tick isoOf "user_1" january world0 "biz_1"
              eq_refl eq_refl eq_refl eq_refl)
    as (record & w' & _ & _ & _ & _ & _ & Htx & Hstatus & _ & Hrun & Hstore).
  exists record, w'. repeat split; assumption.
Defined.

(** C2 on the deployment: the same submit twice under one key. *)
Lemma submit_idempotent_witness :
  let first := inMemorySubmit "key-1" "user_1" january (∅, world0) in
  let second := inMemorySubmit "key-1" "user_1" january (snd first) in
  fst second = fst first /\
  snd second = snd first /\
  (length (localAttestationStore unit (snd (snd second))) = 1)%nat.
Proof.
  intros first second.
  destruct (submit_idempotent unit noRepository noSoroban uuidOf tick isoOf 86400000
              "key-1" "user_1" january ∅ world0
              (fst first) (fst second) (snd first) (snd second)
              (surjective_pairing _) (surjective_pairing _))
    as (Hsame & Hstate & _ & Hone).
  split; [exact Hsame |]. split; [exact Hstate |].
  specialize (Hone (lookup_empty _)).
  assert (Hret : exists resp, fst first = Return resp).
  { eexists. reflexivity. }
  destruct Hret as [resp Hret]. specialize (Hone resp Hret).
  assert (Hnone : createCalls unit (snd (snd second)) = []).
  { rewrite Hstate. reflexivity. }
  rewrite Hnone in Hone. cbn in Hone. lia.
Defined.

(** C3 on the leaves of the engine's test, for the leaf at index 2. *)
Lemma verifyProof_sound_witness :
  exists tree proof,
    Build toyHash "leaf:" "node:" testLeaves = inr tree /\
    getProof tree 2 = inr proof /\
    verifyProof toyHash "leaf:" "node:" "c" proof (getRoot tree) 2 = true.
Proof.
  destruct (verifyProof_sound toyHash "leaf:" "node:" testLeaves 2
              ltac:(cbn; lia))
    as (tree & proof & leaf & Hbuild & Hproof & Hleaf & Hverify).
  cbn in Hleaf. injection Hleaf as <-.
  exists tree, proof. repeat split; assumption.
Defined.

(** C4 (as amended) where the repository and the in-memory store disagree
    on [att_1]. *)
Lemma listByBusinessId_conflict_witness :
  exists items,
    listByBusinessId (list RouteAttestation) listingRepository codeUnitCompare
      "biz_1" conflictWorld = (Return items, conflictWorld) /\
    List.filter (fun r => String.eqb (id r) "att_1") items = [bufferedVersion].
Proof.
  apply (listByBusinessId_conflict (list RouteAttestation) listingRepository
           codeUnitCompare "biz_1" "att_1" conflictWorld [storedVersion]
           storedVersion bufferedVersion);
    [reflexivity | now left | reflexivity | reflexivity].
Defined.

(** C4 as the spec words it does not hold: the repository holds [att_1] as
    submitted, the in-memory store holds it as revoked, and the listing
    shows the in-memory store's version. *)
Lemma listByBusinessId_conflict_counterexample :
  repositoryItemsOf (list RouteAttestation) listingRepository "biz_1"
    (repoState (list RouteAttestation) conflictWorld) = Return [storedVersion] /\
  localItemsOf (list RouteAttestation) "biz_1" conflictWorld = [bufferedVersion] /\
  id storedVersion = id bufferedVersion /\
  status storedVersion = Some submitted /\
  status bufferedVersion = Some revoked /\
  fst (listByBusinessId (list RouteAttestation) listingRepository codeUnitCompare
         "biz_1" conflictWorld) = Return [bufferedVersion].
Proof. repeat split. Qed.

(** C5 on the deployment, under the comparison by code units. *)
Lemma get_attestations_order_witness :
  exists items pg,
    inMemoryGet "user_1" allOnOnePage world3 =
      (Return (ListResponse 200 items pg), world3) /\
    StronglySorted
      (fun a b => codeUnitCompare (attestedAt b) (attestedAt a) <= 0) items /\
    forall x y,
      before x y items -> attestedAt x = attestedAt y ->
      before x y (dedupeById ([] ++ localItemsOf unit "biz_1" world3)).
Proof.
  apply (get_attestations_order unit noRepository codeUnitCompare
           codeUnitCompare_antisym codeUnitCompare_trans
           "user_1" allOnOnePage world3 "biz_1" []);
    reflexivity.
Defined.

(** C6 on the deployment: page 3 of two records, one per page. *)
Lemma get_attestations_pagination_witness :
  exists items pg,
    inMemoryGet "user_1" (onePerPage 3) world3 =
      (Return (ListResponse 200 items pg), world3) /\
    pg_total pg = 2 /\ pg_totalPages pg = 2 /\ items = [].
Proof.
  destruct (get_attestations_pagination unit noRepository codeUnitCompare
              "user_1" (onePerPage 3) world3 "biz_1"
              [februaryRecord; januaryRecord]
              eq_refl eq_refl eq_refl eq_refl)
    as (items & pg & Hrun & _ & _ & Htotal & (c & Hc & Hpages) & Hbeyond).
  exists items, pg. cbn in Htotal.
  rewrite Htotal in Hc. unfold is_ceiling in Hc. cbn in Hc.
  assert (Hp : pg_totalPages pg = 2) by lia.
  repeat split; try assumption.
  apply Hbeyond. rewrite Hp. reflexivity.
Defined.

(** C7 on the deployment: the two pages of [user_1], one record each. *)
Lemma get_attestations_pages_cover_witness :
  flat_map (fun p => responseData unit (inMemoryGet "user_1" (onePerPage (Z.of_nat p)) world3))
    (seq 1 2) = [februaryRecord; januaryRecord].
Proof.
  exact (proj2 (get_attestations_pages_cover unit noRepository codeUnitCompare
                  "user_1" (onePerPage 1) world3 "biz_1"
                  [februaryRecord; januaryRecord]
                  ltac:(cbn; lia) eq_refl eq_refl eq_refl)).
Defined.

(** With no repository there is no listing to go wrong. *)
Lemma noRepository_listsByBusiness : listsByBusiness unit noRepository.
Proof. intros bid s items H. injection H as <-. constructor. Qed.

(** C8 on the deployment: [uuid-5] is a record of [biz_2]; [user_1] gets a
    404 for it, its owner gets the record. *)
Lemma getById_tenant_isolation_witness :
  getById unit noRepository codeUnitCompare "uuid-5" "biz_1" world3 =
    (Return None, world3) /\
  inMemoryGetOne "user_1" "uuid-5" world3 = (Throw attestationNotFound, world3) /\
  exists r,
    inMemoryGetOne "user_2" "uuid-5" world3 =
      (Return (AttestationResponse 200 r), world3) /\
    businessId r = "biz_2".
Proof.
  destruct (getById_tenant_isolation unit noRepository codeUnitCompare
              "uuid-5" "biz_1" world3 noRepository_listsByBusiness)
    as (_ & _ & _ & Hroute).
  destruct (Hroute "user_1" eq_refl eq_refl eq_refl) as [Hhidden _].
  split; [reflexivity |]. split; [exact (Hhidden eq_refl) |].
  exists otherRecord. split; reflexivity.
Defined.

(** C9 (as amended) on the deployment: [user_1] revokes the January
    record, which the in-memory store holds. *)
Lemma handleRevoke_revokes_witness :
  exists r w',
    inMemoryRevoke "user_1" "uuid-1" None world3 =
      (Return (AttestationResponse 200 r), w') /\
    status r = Some revoked /\
    revokedAt r = revokedAt_time "T+1007" /\
    period r = period januaryRecord /\
    txHash r = txHash januaryRecord /\
    localAttestationStore unit w' !! 0%nat = Some r.
Proof.
  destruct (handleRevoke_revokes unit noRepository tick isoOf codeUnitCompare
              "user_1" "uuid-1" "biz_1" None world3
              eq_refl eq_refl eq_refl eq_refl)
    as (Hfound & _).
  destruct (Hfound januaryRecord 0%nat eq_refl eq_refl eq_refl)
    as (r & w' & Hrun & Hstore & Hstatus & Hat & _ & _ & Hperiod & _ & _ & _ & Htx & _).
  exists r, w'.
  split; [exact Hrun |]. split; [exact Hstatus |]. split; [exact Hat |].
  split; [exact Hperiod |]. split; [exact Htx |].
  rewrite Hstore. reflexivity.
Defined.

(** The January record after its first revoke. *)
Definition revokedJanuaryRecord : RouteAttestation :=
  spread_revoked januaryRecord "T+1007".


(** ** Further properties on the deployment *)

(** An anchoring module that loads and answers with a transaction named
    after the period. *)
Definition sorobanUp (attempt : nat) : Result SorobanModule :=
  Return {| submitAttestation :=
              Some (fun params =>
                      Return {| r_txHash := String.append "tx_" (p_period params) |}) |}.

(** The repository knows [att_1]; the in-memory store is empty. *)
Definition repositoryOnlyWorld : World (list RouteAttestation) :=
  {| localAttestationStore := []; repoState := [storedVersion];
     businesses := BusinessRepository.businesses;
     uuidsDrawn := 0; clockReads := 0; importsDone := 0;
     anchorCalls := []; createCalls := [] |}.

Definition februaryOnly : ListQuery :=
  {| q_businessId := None; q_period := Some "2025-02"; q_status := None;
     q_page := 1; q_limit := 20 |}.

(** X1 on the deployment: the first submit of [user_1]. *)
Lemma post_attestations_outcomes_witness :
  exists record tx w',
    inMemoryPost "user_1" january world0 =
      (Return (SubmitResponse 201 record tx), w') /\
    businessId record = "biz_1" /\
    txHash record = Some tx /\
    localAttestationStore unit w' = [record].
Proof.
  destruct (post_attestations_outcomes unit noRepository noSoroban uuidOf tick isoOf
              "user_1" january world0 eq_refl)
    as (record & tx & w' & Hrun & Hbid & _ & _ & _ & Htx & _ & _ & Hstore & _).
  exists record, tx, w'. repeat split; assumption.
Defined.

(** X2 on the deployment, with the anchoring module up. *)
Lemma post_attestations_anchored_witness :
  exists params record w',
    post_attestations unit noRepository sorobanUp uuidOf tick isoOf
      "user_1" january world0 =
      (Return (SubmitResponse 201 record "tx_2025-01"), w') /\
    anchorCalls unit w' = [params] /\
    p_business params = "biz_1" /\
    p_period params = "2025-01" /\
    txHash record = Some "tx_2025-01" /\
    id record = "uuid-0" /\
    localAttestationStore unit w' = [record].
Proof.
  destruct (post_attestations_anchored unit noRepository sorobanUp uuidOf tick isoOf
              "user_1" january world0 "biz_1" {| r_txHash := "tx_2025-01" |}
              (conj eq_refl (conj eq_refl eq_refl)) eq_refl)
    as (params & record & w' & Hw' & Hcalls & Hbid & Hperiod & _ & _ & _ & Hid & Htx
        & Hstored & Hanswer).
  exists params, record, w'.
  split; [exact (eq_trans (surjective_pairing _) (f_equal2 pair Hanswer Hw')) |].
  split; [exact Hcalls |]. split; [exact Hbid |]. split; [exact Hperiod |].
  split; [exact Htx |]. split; [exact Hid |]. exact Hstored.
Defined.

(** X3 on the deployment, with the anchoring module up: a payload without a
    timestamp. *)
Lemma post_attestations_timestamps_witness :
  exists params record w',
    snd (post_attestations unit noRepository sorobanUp uuidOf tick isoOf
           "user_1" january world0) = w' /\
    anchorCalls unit w' = [params] /\
    p_timestamp params = 1000 /\
    localAttestationStore unit w' = [record] /\
    attestedAt record = "T+1001" /\
    timestamp record = Some 1002 /\
    clockReads unit w' = 3%nat.
Proof.
  destruct (post_attestations_timestamps unit noRepository sorobanUp uuidOf tick isoOf
              "user_1" january world0 "biz_1"
              (conj eq_refl (conj eq_refl eq_refl)))
    as (record & w' & Hw' & Hstored & (Hat & Hts & Hreads) & Hanchor).
  destruct (Hanchor _ _ eq_refl eq_refl) as (params & Hcalls & Hp).
  exists params, record, w'.
  split; [exact Hw' |]. split; [exact Hcalls |]. split; [exact Hp |].
  split; [exact Hstored |]. split; [exact Hat |]. split; [exact Hts | exact Hreads].
Defined.

(** X4 on the deployment: the January record, read back. *)
Lemma post_then_get_attestation_witness :
  inMemoryGetOne "user_1" "uuid-1" world1 =
    (Return (AttestationResponse 200 januaryRecord), world1).
Proof.
  exact (post_then_get_attestation unit noRepository noSoroban uuidOf tick isoOf
           codeUnitCompare "user_1" january world0 world1 "biz_1" januaryRecord
           "pending_uuid-0" [] eq_refl eq_refl eq_refl eq_refl eq_refl eq_refl eq_refl).
Defined.

(** X5 on the deployment: the January record, revoked and read back. *)
Lemma revoke_then_get_attestation_witness :
  exists r w',
    inMemoryRevoke "user_1" "uuid-1" None world3 =
      (Return (AttestationResponse 200 r), w') /\
    r = revokedJanuaryRecord /\
    inMemoryGetOne "user_1" "uuid-1" w' = (Return (AttestationResponse 200 r), w').
Proof.
  exact (revoke_then_get_attestation unit noRepository tick isoOf codeUnitCompare
           "user_1" "uuid-1" "biz_1" None world3 januaryRecord []
           eq_refl eq_refl eq_refl eq_refl eq_refl eq_refl eq_refl eq_refl).
Defined.

(** X6 where the repository and the in-memory store both hold [att_1]. *)
Lemma listByBusinessId_unique_ids_witness :
  exists items,
    listByBusinessId (list RouteAttestation) listingRepository codeUnitCompare
      "biz_1" conflictWorld = (Return items, conflictWorld) /\
    List.NoDup (map id items).
Proof.
  destruct (listByBusinessId_unique_ids (list RouteAttestation) listingRepository
              codeUnitCompare "biz_1" conflictWorld [storedVersion] eq_refl)
    as (items & Hrun & Hnodup & _).
  now exists items.
Defined.

(** X7 on the deployment: the records of February. *)
Lemma get_attestations_items_witness :
  exists items pg,
    inMemoryGet "user_1" februaryOnly world3 =
      (Return (ListResponse 200 items pg), world3) /\
    Z.of_nat (length items) <= 20 /\
    forall r, In r items -> businessId r = "biz_1" /\ period r = "2025-02".
Proof.
  destruct (get_attestations_items unit noRepository codeUnitCompare
              "user_1" februaryOnly world3 "biz_1" []
              eq_refl noRepository_listsByBusiness eq_refl eq_refl eq_refl)
    as (items & pg & Hrun & Hlen & Hitems).
  exists items, pg. split; [exact Hrun |]. split; [exact Hlen |].
  intros r Hin. destruct (Hitems r Hin) as (Hbid & _ & Hperiod & _).
  split; [exact Hbid |]. now apply (Hperiod "2025-02").
Defined.

(** X8 on the deployment: page 1 of two, one record per page. *)
Lemma get_attestations_page_sizes_witness :
  exists items pg,
    inMemoryGet "user_1" (onePerPage 1) world3 =
      (Return (ListResponse 200 items pg), world3) /\
    pg_totalPages pg = 2 /\
    Z.of_nat (length items) = 1.
Proof.
  destruct (get_attestations_page_sizes unit noRepository codeUnitCompare
              "user_1" (onePerPage 1) world3 "biz_1"
              [februaryRecord; januaryRecord]
              eq_refl eq_refl eq_refl eq_refl)
    as (items & pg & Hrun & Hfull & _).
  assert (Hpages : pg_totalPages pg = 2).
  { assert (Hc : inMemoryGet "user_1" (onePerPage 1) world3 =
                 (Return (ListResponse 200 [februaryRecord]
                            {| pg_page := 1; pg_limit := 1; pg_total := 2;
                               pg_totalPages := 2 |}), world3)) by reflexivity.
    unfold inMemoryGet in Hc. rewrite Hc in Hrun. now injection Hrun as _ <-. }
  exists items, pg. split; [exact Hrun |]. split; [exact Hpages |].
  apply Hfull. rewrite Hpages. reflexivity.
Defined.

(** X9 where only the repository knows [att_1]. *)
Lemma handleRevoke_repository_record_witness :
  handleRevoke (list RouteAttestation) listingRepository tick isoOf codeUnitCompare
    "user_1" "att_1" None repositoryOnlyWorld =
  (Throw (createHttpError 500 "REVOKE_FAILED" "Failed to revoke attestation"),
   repositoryOnlyWorld).
Proof.
  apply (handleRevoke_repository_record (list RouteAttestation) listingRepository
           tick isoOf codeUnitCompare "user_1" "att_1" "biz_1" None
           repositoryOnlyWorld storedVersion);
    try reflexivity.
  intros r [].
Defined.

(** C9 as the spec words it does not hold: [att_1] exists for [user_1]'s
    business, in the repository's listing only; on a repository without
    [revoke] the revoke answers 500, and the record is still found as it
    was, submitted and without a revocation time. *)
Lemma handleRevoke_revokes_counterexample :
  getById (list RouteAttestation) listingRepository codeUnitCompare
    "att_1" "biz_1" repositoryOnlyWorld =
    (Return (Some storedVersion), repositoryOnlyWorld) /\
  handleRevoke (list RouteAttestation) listingRepository tick isoOf codeUnitCompare
    "user_1" "att_1" None repositoryOnlyWorld =
    (Throw (createHttpError 500 "REVOKE_FAILED" "Failed to revoke attestation"),
     repositoryOnlyWorld) /\
  status storedVersion = Some submitted /\
  revokedAt storedVersion = revokedAt_null.
Proof. split; [reflexivity |]. split; [reflexivity |]. split; reflexivity. Qed.

(** X11 on the deployment: [user_9] owns no business. *)
Lemma routes_without_business_witness :
  inMemoryGetOne "user_9" "uuid-1" world3 = (Throw businessNotFound, world3) /\
  inMemoryRevoke "user_9" "uuid-1" None world3 = (Throw businessNotFound, world3) /\
  inMemoryGet "user_9" allOnOnePage world3 = (Throw businessNotFound, world3) /\
  inMemoryPost "user_9" january world3 = (Throw businessNotFound, world3).
Proof.
  destruct (routes_without_business unit noRepository noSoroban uuidOf tick isoOf
              codeUnitCompare "user_9" world3 eq_refl)
    as (_ & Hid & Hlist & Hpost).
  destruct (Hid "uuid-1" None eq_refl) as [Hget Hrevoke].
  split; [exact Hget |]. split; [exact Hrevoke |].
  split; [now apply Hlist | now apply Hpost].
Defined.

(** A patch that renames a business. *)
Definition renameToAcme : BusinessPatch :=
  {| patch_id := None; patch_userId := None; patch_name := Some "Acme";
     patch_email := None; patch_industry := None; patch_description := None;
     patch_website := None; patch_createdAt := None |}.

(** X15 on the deployment: [biz_1] renamed and looked up. *)
Lemma businessRepository_update_then_findById_witness :
  exists updated w',
    businessRepository_update unit "biz_1" renameToAcme world0 =
      (Return (Some updated), w') /\
    BusinessRepository.findById (businesses unit w') "biz_1" = Some updated /\
    BusinessRepository.name updated = "Acme".
Proof.
  eexists _, _. split; [reflexivity |].
  split; [| reflexivity].
  exact (proj1 (businessRepository_update_then_findById unit "biz_1" renameToAcme
                  world0 _ _ eq_refl eq_refl)).
Defined.

(** A repository that lists and revokes what it holds. *)
Definition revokingRepository : AttestationRepository (list RouteAttestation) :=
  {| repo_listByBusiness :=
       Some (fun bid held =>
               List.filter (fun r => String.eqb (businessId r) bid) held);
     repo_list := None; repo_getById := None; repo_create := None;
     repo_revoke :=
       Some (fun aid reason held =>
               match findIndex (fun r => String.eqb (id r) aid) held with
               | Some index =>
                   match held !! index with
                   | Some old =>
                       (Return (Some (spread_revoked old "2025-04-01T00:00:00.000Z")),
                        <[index := spread_revoked old "2025-04-01T00:00:00.000Z"]> held)
                   | None => (Return None, held)
                   end
               | None => (Return None, held)
               end) |}.

(** X19 where only the repository knows [att_1], and can revoke it. *)
Lemma handleRevoke_delegates_witness :
  exists w',
    handleRevoke (list RouteAttestation) revokingRepository tick isoOf codeUnitCompare
      "user_1" "att_1" None repositoryOnlyWorld =
    (Return (AttestationResponse 200
               (spread_revoked storedVersion "2025-04-01T00:00:00.000Z")), w') /\
    localAttestationStore (list RouteAttestation) w' = [] /\
    clockReads (list RouteAttestation) w' = 0%nat.
Proof.
  destruct (handleRevoke_delegates (list RouteAttestation) revokingRepository
              tick isoOf codeUnitCompare "user_1" "att_1" "biz_1" None
              repositoryOnlyWorld storedVersion _
              eq_refl eq_refl eq_refl eq_refl eq_refl)
    as (w' & Hrun & _ & Hstore & Hreads).
  exists w'. split; [exact Hrun |]. split; assumption.
Defined.
